(** * aws-runas: the authentication client and the client factory

    A shallow embedding of

    - [client/client_factory.go]: [Factory.Get], [samlClient], [webClient],
      [roleClient], [sessionClient], [decodePassword], [cachePath],
      [cacheFileName];
    - [client/saml_role_client.go]: [NewSamlRoleClient];
    - the [external] package's base client: [samlRequest],
      [handleSamlResponse], [oauthAuthorize], [gatherCredentials];

    together with the parts of the Go standard library and of the AWS SDK
    these functions call ([strings], [arn]).  Go strings are [string], a
    [time.Duration] and a [time.Time] are [Z], a Go pointer that the code
    tests against [nil] is an [option], and a Go [(value, error)] result
    keeps both components.

    The base client's methods run in a small state monad over the client
    and the history of what it did to the outside (clock readings, HTTP
    requests, calls of the input providers); the network, the clock and
    the libraries are a record of functions the methods are given.  The
    factory is a function of the configuration and of such a record.  The
    calls to the logger are left out: they change nothing the functions
    return or hold. *)

From Stdlib Require Import String Ascii List ZArith Bool Lia.
Import ListNotations.
Local Open Scope string_scope.
Local Open Scope list_scope.

Set Implicit Arguments.
Set Warnings "-register-all".

(** ** Package [strings] (separators of one byte, as the code uses them) *)

Module strings.

(** [strings.HasPrefix(s, prefix)]: [s] starts with the bytes of [prefix]. *)
Fixpoint HasPrefix (s prefix : string) {struct prefix} : bool :=
  match prefix with
  | EmptyString => true
  | String a prefix' =>
      match s with
      | EmptyString => false
      | String b s' => Ascii.eqb a b && HasPrefix s' prefix'
      end
  end.

(** [strings.Count(s, sep)] for a separator of one byte. *)
Fixpoint Count (s : string) (sep : ascii) : nat :=
  match s with
  | EmptyString => 0
  | String c r => if Ascii.eqb c sep then S (Count r sep) else Count r sep
  end.

(** Puts one more byte in front of the first piece of a split. *)
Definition push (c : ascii) (l : list string) : list string :=
  match l with
  | [] => [String c EmptyString]
  | h :: t => String c h :: t
  end.

(** [strings.Split(s, sep)]: every piece between separators; the empty
    string gives one empty piece. *)
Fixpoint Split (s : string) (sep : ascii) : list string :=
  match s with
  | EmptyString => [EmptyString]
  | String c r =>
      if Ascii.eqb c sep then EmptyString :: Split r sep
      else push c (Split r sep)
  end.

(** [strings.SplitN(s, sep, n)] for [n >= 0]: at most [n] pieces, the last
    one being the unsplit rest; [n = 0] gives no piece at all. *)
Fixpoint SplitN (s : string) (sep : ascii) (n : nat) {struct s} : list string :=
  match n with
  | 0 => []
  | 1 => [s]
  | S (S _ as n') =>
      match s with
      | EmptyString => [EmptyString]
      | String c r =>
          if Ascii.eqb c sep then EmptyString :: SplitN r sep n'
          else push c (SplitN r sep n)
      end
  end.

End strings.

(** ** Package [aws/arn] of the AWS SDK *)

Module arn.

Definition arnDelimiter : ascii := ":"%char.
Definition arnSections : nat := 6.
Definition arnPrefix : string := "arn:".

Record ARN : Type := mkARN {
  Partition : string;
  Service : string;
  Region : string;
  AccountID : string;
  Resource : string
}.

(** The zero value [ARN{}]. *)
Definition zero : ARN := mkARN "" "" "" "" "".

Inductive parse_error : Type := invalidPrefix | invalidSections.

(** [arn.Parse]: the prefix test, then a split in six sections. *)
Definition Parse (a : string) : parse_error + ARN :=
  if negb (strings.HasPrefix a arnPrefix) then inl invalidPrefix
  else
    match strings.SplitN a arnDelimiter arnSections with
    | [_; p; s; r; acct; res] => inr (mkARN p s r acct res)
    | _ => inl invalidSections
    end.

(** [arn.IsARN]: the prefix and at least five colons. *)
Definition IsARN (a : string) : bool :=
  strings.HasPrefix a arnPrefix
  && (arnSections - 1 <=? strings.Count a ":"%char)%nat.

End arn.

(** ** Go's [error] values *)

(** An [error] is what [errors.New] or [fmt.Errorf] without [%w] builds, a
    [*url.Error] of package [net/url], or [fmt.Errorf] wrapping another
    error with [%w].  The nil error is [None : option error]. *)
Inductive error : Type :=
| errorString (s : string)
| url_Error (Op URL : string) (Err : error)
| wrapError (format : string) (err : error).

(** ** Package [external]: the base authentication client *)

Module external.

(** *** Data of [net/url], [net/http] and [goquery] that the client handles *)

Record URL : Type := mkURL {
  Scheme : string;
  Host : string;
  Path : string;
  RawQuery : string;
  Fragment : string
}.

(** [u.RawQuery = q] *)
Definition set_RawQuery (u : URL) (q : string) : URL :=
  mkURL (Scheme u) (Host u) (Path u) q (Fragment u).

(** [url.Values], a map from a key to its values. *)
Definition Values : Type := list (string * list string).

Inductive CookieJar : Type :=
| MemoryJar                   (* cookiejar.New *)
| FileJar (path : string).    (* cache.CookieJar(path) *)

Inductive CheckRedirect_func : Type :=
| UseLastResponse   (* func(...) error { return http.ErrUseLastResponse } *)
| OtherPolicy (id : nat).

Record http_Client : Type := mkClient {
  CheckRedirect : option CheckRedirect_func;
  Jar : option CookieJar
}.

Record Request : Type := mkRequest {
  Method : string;
  RequestURL : string
}.

(** An [*http.Response]: [Body] is what [io.ReadAll] reads from
    [res.Body], [Location] is the result of [res.Location()]. *)
Record Response : Type := mkResponse {
  StatusCode : Z;
  Status : string;
  Body : string;
  Location : error + URL
}.

Definition StatusFound : Z := 302.

(** A node of [golang.org/x/net/html], as [goquery] walks it. *)
Inductive NodeType : Type :=
| ErrorNode | TextNode | DocumentNode | ElementNode | CommentNode | DoctypeNode.

Record Attribute : Type := mkAttr { Key : string; Val : string }.

Inductive Node : Type :=
| mkNode (Type_ : NodeType) (Data : string) (Attr : list Attribute)
         (children : list Node).

Definition node_Type (n : Node) := let 'mkNode t _ _ _ := n in t.
Definition node_Data (n : Node) := let 'mkNode _ d _ _ := n in d.
Definition node_Attr (n : Node) := let 'mkNode _ _ a _ := n in a.

(** Every proper descendant of a node, in document order. *)
Fixpoint descendants (n : Node) : list Node :=
  match n with
  | mkNode _ _ _ cs => flat_map (fun c => c :: descendants c) cs
  end.

Definition is_element (tag : string) (n : Node) : bool :=
  match node_Type n with
  | ElementNode => String.eqb (node_Data n) tag
  | _ => false
  end.

(** [doc.Find(tag)] for a selector that is one tag name: the elements of
    that name below the root, in document order. *)
Definition Find (doc : Node) (tag : string) : list Node :=
  filter (is_element tag) (descendants doc).

(** [s.Attr(name)]: the value of the first attribute of that key, and
    whether there is one. *)
Fixpoint getAttr (attrs : list Attribute) (name : string) : option string :=
  match attrs with
  | [] => None
  | a :: rest => if String.eqb (Key a) name then Some (Val a) else getAttr rest name
  end.

Definition Attr (s : Node) (name : string) : option string :=
  getAttr (node_Attr s) name.

(** *** The client's configuration and state *)

(** What the client does to the outside, newest first in a history. *)
Inductive event : Type :=
| EvNow                                       (* time.Now() *)
| EvHttpDo (hc : http_Client) (req : Request) (* httpClient.Do(req) *)
| EvCredentialInput (u p : string)            (* c.CredentialInputProvider(u, p) *)
| EvMfaToken.                                 (* c.MfaTokenProvider() *)

Definition history : Type := list event.

Definition MfaTypeNone : string := "none".
Definition MfaTypeAuto : string := "auto".
Definition MfaTypeCode : string := "code".

Definition Logger : Type := nat.

(** The input providers are Go function values; what they answer may
    depend on what happened before, so they read the history.
    [MfaTokenProvider] is tested against nil by the code, the
    credential-input provider is called as it is. *)
Record AuthenticationClientConfig : Type := mkAuthCfg {
  CredentialInputProvider : history -> string -> string -> string * string * option error;
  MfaTokenProvider : option (history -> string * option error);
  IdentityProviderName : string;
  Logger_ : Logger;
  MfaTokenCode : string;
  MfaType : string;
  Username : string;
  Password : string;
  FederatedUsername : string
}.

Record OidcClientConfig : Type := mkOidcCfg {
  auth : AuthenticationClientConfig;
  ClientId : string;
  RedirectUri : string;
  Scopes : list string
}.

Definition SamlAssertion_t : Type := string.

Record baseClient : Type := mkBase {
  config : OidcClientConfig;
  authUrl : URL;
  entityId : string;
  httpClient : http_Client;
  saml : option SamlAssertion_t
}.

(** [c.saml = s] *)
Definition set_saml (c : baseClient) (s : option SamlAssertion_t) : baseClient :=
  mkBase (config c) (authUrl c) (entityId c) (httpClient c) s.

Definition set_auth (c : baseClient) (a : AuthenticationClientConfig) : baseClient :=
  mkBase (mkOidcCfg a (ClientId (config c)) (RedirectUri (config c)) (Scopes (config c)))
         (authUrl c) (entityId c) (httpClient c) (saml c).

(** [c.Username = u; c.Password = p] *)
Definition set_Username_Password (c : baseClient) (u p : string) : baseClient :=
  let a := auth (config c) in
  set_auth c (mkAuthCfg (CredentialInputProvider a) (MfaTokenProvider a)
                (IdentityProviderName a) (Logger_ a) (MfaTokenCode a) (MfaType a)
                u p (FederatedUsername a)).

(** [c.MfaTokenCode = m] *)
Definition set_MfaTokenCode (c : baseClient) (m : string) : baseClient :=
  let a := auth (config c) in
  set_auth c (mkAuthCfg (CredentialInputProvider a) (MfaTokenProvider a)
                (IdentityProviderName a) (Logger_ a) m (MfaType a)
                (Username a) (Password a) (FederatedUsername a)).

(** *** What the client calls *)

(** The network and the clock answer as a function of the history; the
    rest are functions of their arguments: [ExpiresAt] is the method of
    [credentials.SamlAssertion], [newHttpRequest] and [checkResponseError]
    are helpers of the package, the others belong to [net/url],
    [net/http] and [goquery]. *)
Record Env : Type := mkEnv {
  time_Now : history -> Z;
  http_Do : history -> http_Client -> Request -> error + Response;
  ExpiresAt : SamlAssertion_t -> error + Z;
  NewDocumentFromReader : string -> error + Node;
  url_Parse : string -> error + URL;
  URL_String : URL -> string;
  ParseQuery : string -> Values;
  Values_Encode : Values -> string;
  newHttpRequest : string -> string -> error + Request;
  http_NewRequest : string -> string -> error + Request;
  checkResponseError : error + Response -> error + Response
}.

(** [u.Query()]: the parsed [RawQuery], a malformed pair dropped. *)
Definition Query (env : Env) (u : URL) : Values := ParseQuery env (RawQuery u).

(** *** A method of [*baseClient]: a step on the client and the history *)

Record St : Type := mkSt { client : baseClient; hist : history }.

(** [None] is a run-time panic (a nil pointer dereferenced). *)
Definition M (A : Type) : Type := St -> option (A * St).

Definition ret {A} (a : A) : M A := fun s => Some (a, s).
Definition bind {A B} (m : M A) (k : A -> M B) : M B :=
  fun s => match m s with
           | Some (a, s') => k a s'
           | None => None
           end.
Definition panic {A} : M A := fun _ => None.
Definition getClient : M baseClient := fun s => Some (client s, s).
Definition putClient (c : baseClient) : M unit :=
  fun s => Some (tt, mkSt c (hist s)).
Definition getHistory : M history := fun s => Some (hist s, s).
Definition emit (e : event) : M unit :=
  fun s => Some (tt, mkSt (client s) (e :: hist s)).

Declare Scope go_scope.
Delimit Scope go_scope with go.
Notation "x <- m ;; k" := (bind m (fun x => k))
  (at level 61, m at next level, right associativity) : go_scope.
Notation "m ;;; k" := (bind m (fun _ => k))
  (at level 61, right associativity) : go_scope.
Local Open Scope go_scope.

(** [time.Now()] *)
Definition timeNow (env : Env) : M Z :=
  h <- getHistory ;; emit EvNow ;;; ret (time_Now env h).

(** [hc.Do(req)] *)
Definition Do (env : Env) (hc : http_Client) (req : Request) : M (error + Response) :=
  h <- getHistory ;; emit (EvHttpDo hc req) ;;; ret (http_Do env h hc req).

(** [a, ok := s.Attr("name"); ok && a == "SAMLResponse"] *)
Definition isSAMLResponse (s : Node) : bool :=
  match Attr s "name" with
  | Some a => String.eqb a "SAMLResponse"
  | None => false
  end.

(** [v, _ := s.Attr("value")] *)
Definition inputValue (s : Node) : string :=
  match Attr s "value" with
  | Some v => v
  | None => ""
  end.

(** The callback of [doc.Find("input").Each] in [handleSamlResponse]. *)
Definition eachInput (c : baseClient) (s : Node) : baseClient :=
  if isSAMLResponse s then set_saml c (Some (inputValue s)) else c.

(** [func (c *baseClient) handleSamlResponse(r io.Reader) error] *)
Definition handleSamlResponse (env : Env) (r : string) : M (option error) :=
  match NewDocumentFromReader env r with
  | inl err => ret (Some err)
  | inr doc =>
      c <- getClient ;;
      putClient (fold_left eachInput (Find doc "input") c) ;;;
      ret None
  end.

(** [samlRequest] from the point where the request is built. *)
Definition samlFetch (env : Env) (u : URL) : M (option error) :=
  match newHttpRequest env "GET" (URL_String env u) with
  | inl err => ret (Some err)
  | inr req =>
      c <- getClient ;;
      reply <- Do env (httpClient c) req ;;
      match checkResponseError env reply with
      | inl err => ret (Some (wrapError "SAML request error %w" err))
      | inr res => handleSamlResponse env (Body res)
      end
  end.

(** [func (c *baseClient) samlRequest(ctx context.Context, u *url.URL) error] *)
Definition samlRequest (env : Env) (u : URL) : M (option error) :=
  c <- getClient ;;
  match saml c with
  | Some a =>
      if (0 <? String.length a)%nat then
        match ExpiresAt env a with
        | inl err => ret (Some err)
        | inr t =>
            now <- timeNow env ;;
            if (now <? t)%Z then ret None else samlFetch env u
        end
      else samlFetch env u
  | None => samlFetch env u
  end.

(** Modelled from the spec: [SamlAssertion()] of the vendor clients, which
    are not among the sources.  It is the entry point that runs the
    request of [samlRequest] and hands back the held assertion, or the
    error of the request. *)
Definition SamlAssertion (env : Env) (u : URL)
  : M (option SamlAssertion_t * option error) :=
  err <- samlRequest env u ;;
  match err with
  | Some e => ret (None, Some e)
  | None => c <- getClient ;; ret (saml c, None)
  end.

(** The local [httpClient] of [oauthAuthorize]. *)
Definition oauthHttpClient (c : baseClient) (followRedirect : bool) : http_Client :=
  let hc := httpClient c in
  if followRedirect then
    match CheckRedirect hc with
    | Some _ => mkClient None (Jar hc)
    | None => hc
    end
  else
    match CheckRedirect hc with
    | None => mkClient (Some UseLastResponse) (Jar hc)
    | Some _ => hc
    end.

(** [func (c *baseClient) oauthAuthorize(ep string, data url.Values,
    followRedirect bool) (url.Values, error)]; a nil [url.Values] is
    [None]. *)
Definition oauthAuthorize (env : Env) (ep : string) (data : Values)
    (followRedirect : bool) : M (option Values * option error) :=
  c <- getClient ;;
  let hc := oauthHttpClient c followRedirect in
  match url_Parse env ep with
  | inl err => ret (None, Some err)
  | inr u =>
      let u := set_RawQuery u (Values_Encode env data) in
      match http_NewRequest env "GET" (URL_String env u) with
      | inl err => ret (Some [], Some err)
      | inr req =>
          reply <- Do env hc req ;;
          match reply with
          | inl err =>
              match err with
              | url_Error _ eURL _ =>
                  if strings.HasPrefix eURL (RedirectUri (config c)) then
                    match url_Parse env eURL with
                    | inr redirUri => ret (Some (Query env redirUri), None)
                    | inl _ => panic
                    end
                  else ret (None, Some err)
              | _ => ret (None, Some err)
              end
          | inr res =>
              if negb (StatusCode res =? StatusFound)%Z then
                ret (None, Some (errorString ("http status " ++ Status res)))
              else
                match Location res with
                | inl err => ret (None, Some err)
                | inr redir => ret (Some (Query env redir), None)
                end
          end
      end
  end.

(** [func (c *baseClient) gatherCredentials() error] *)
Definition gatherCredentials : M (option error) :=
  c <- getClient ;;
  let u := Username (auth (config c)) in
  let p := Password (auth (config c)) in
  r <- (if (String.length u <? 1)%nat || (String.length p <? 1)%nat then
          h <- getHistory ;;
          emit (EvCredentialInput u p) ;;;
          match CredentialInputProvider (auth (config c)) h u p with
          | (_, _, Some err) => ret (Some err)
          | (u', p', None) => putClient (set_Username_Password c u' p') ;;; ret None
          end
        else ret None) ;;
  match r with
  | Some err => ret (Some err)
  | None =>
      c <- getClient ;;
      let m := MfaTokenCode (auth (config c)) in
      match MfaTokenProvider (auth (config c)) with
      | Some provider =>
          if String.eqb (MfaType (auth (config c))) MfaTypeCode
             && (String.length m <? 1)%nat then
            h <- getHistory ;;
            emit EvMfaToken ;;;
            match provider h with
            | (_, Some err) => ret (Some err)
            | (m', None) => putClient (set_MfaTokenCode c m') ;;; ret None
            end
          else ret None
      | None => ret None
      end
  end.

(** *** The other methods of the base client *)

(** [url.Values.Set], [Add] and [Get], and all the values of a key. *)
Fixpoint Values_Set (vs : Values) (k v : string) : Values :=
  match vs with
  | [] => [(k, [v])]
  | (k', l) :: rest =>
      if String.eqb k' k then (k, [v]) :: rest else (k', l) :: Values_Set rest k v
  end.

Fixpoint Values_Add (vs : Values) (k v : string) : Values :=
  match vs with
  | [] => [(k, [v])]
  | (k', l) :: rest =>
      if String.eqb k' k then (k, l ++ [v]) :: rest else (k', l) :: Values_Add rest k v
  end.

Fixpoint Values_all (vs : Values) (k : string) : list string :=
  match vs with
  | [] => []
  | (k', l) :: rest => if String.eqb k' k then l else Values_all rest k
  end.

Definition Values_Get (vs : Values) (k : string) : string :=
  match Values_all vs k with
  | v :: _ => v
  | [] => ""
  end.

(** [identity.Identity] and [identity.Roles]. *)
Record Identity : Type := mkIdentity {
  IdentityType : string;
  Provider : string;
  IdUsername : string
}.
Definition Roles_t : Type := list string.

(** What these methods call besides: the methods of
    [credentials.SamlAssertion] ([RoleDetails] takes the pointer, which may
    be nil), [json.Unmarshal] into an [oauthToken], the helpers [withBody]
    and [withValues] of the package's request type, [base64], the decimal
    form of [%d], and the error that ends the reading of a response body
    (nil at the end of the data), with whether the [Read] that delivers
    the last bytes of the body delivers that error too, or the next one
    does. *)
Record Lib : Type := mkLib {
  roleDetails : Type;
  RoleDetails : option SamlAssertion_t -> error + roleDetails;
  Roles : roleDetails -> Roles_t;
  RoleSessionName : SamlAssertion_t -> error + string;
  oauthToken_t : Type;
  json_Unmarshal : string -> error + oauthToken_t;
  withBody_withValues : Request -> string -> Values -> Request;
  Body_error : Response -> option error;
  Body_error_with_data : Response -> bool;
  RawStdEncoding_EncodeToString : string -> string;
  Sprint_d : Z -> string
}.

(** [func (c *baseClient) roles(...string)], returning [*identity.Roles]
    and [error]. *)
Definition roles (L : Lib) (c : baseClient) : option Roles_t * option error :=
  if (0 <? String.length (ClientId (config c)))%nat
     && (0 <? String.length (RedirectUri (config c)))%nat
  then (None, Some (errorString "OIDC clients are not role aware"))
  else
    match RoleDetails L (saml c) with
    | inl err => (None, Some err)
    | inr rd => (Some (Roles L rd), None)
    end.

(** [func (c *baseClient) identity(provider string) *identity.Identity] *)
Definition identity (L : Lib) (provider : string) : M Identity :=
  c <- getClient ;;
  (if (String.length (Username (auth (config c))) <? 1)%nat
   then gatherCredentials ;;; ret tt
   else ret tt) ;;;
  c <- getClient ;;
  let id := mkIdentity "user" provider (Username (auth (config c))) in
  match saml c with
  | Some a =>
      if (0 <? String.length a)%nat then
        match RoleSessionName L a with
        | inl _ => ret id
        | inr user => ret (mkIdentity (IdentityType id) (Provider id) user)
        end
      else ret id
  | None => ret id
  end.

(** [func (c *baseClient) pkceAuthzRequest(pkceChallenge string) url.Values];
    [now] is [time.Now().UnixNano()] and [rnd] is [rand.Int()]. *)
Definition pkceAuthzRequest (L : Lib) (c : baseClient) (now rnd : Z)
    (pkceChallenge : string) : Values :=
  let state : string :=
    (Sprint_d L now ++ "." ++ Sprint_d L rnd ++ "." ++ pkceChallenge)%string in
  let qs : Values := [] in
  let qs := Values_Set qs "client_id" (ClientId (config c)) in
  let qs := Values_Set qs "code_challenge" pkceChallenge in
  let qs := Values_Set qs "code_challenge_method" "S256" in
  let qs := Values_Set qs "redirect_uri" (RedirectUri (config c)) in
  let qs := Values_Set qs "response_type" "code" in
  let qs := Values_Set qs "state" (RawStdEncoding_EncodeToString L state) in
  let qs := Values_Set qs "scope" "openid" in
  fold_left (fun qs v => Values_Add qs "scope" v) (Scopes (config c)) qs.

(** [io.ReadAll(io.LimitReader(res.Body, n))].  The limited reader reads
    from the body while fewer than [n] bytes have come and answers [io.EOF]
    itself after that; [io.ReadAll] stops at the first error and returns it
    unless it is [io.EOF].  So a body of more than [n] bytes gives its first
    [n] bytes and no error, and a shorter one gives all of it and the error
    that ends its reading.  A body of exactly [n] bytes gives that error
    only when it comes together with the last bytes: the body is not read
    again after them. *)
Definition ReadAll_LimitReader (L : Lib) (res : Response) (n : nat)
    : string * option error :=
  let len := String.length (Body res) in
  if ((n <? len) || (n =? 0))%nat then (substring 0 n (Body res), None)
  else if (n =? len)%nat && negb (Body_error_with_data L res) then (Body res, None)
  else (Body res, Body_error L res).

(** The form [data] of [oauthToken]. *)
Definition tokenData (c : baseClient) (code verifier : string) : Values :=
  let data : Values := [] in
  let data := Values_Set data "client_id" (ClientId (config c)) in
  let data := Values_Set data "code" code in
  let data := Values_Set data "code_verifier" verifier in
  let data := Values_Set data "grant_type" "authorization_code" in
  Values_Set data "redirect_uri" (RedirectUri (config c)).

(** [func (c *baseClient) oauthToken(ep, code, verifier string)],
    returning [*oauthToken] and [error]. *)
Definition oauthToken (env : Env) (L : Lib) (ep code verifier : string)
    : M (option (oauthToken_t L) * option error) :=
  c <- getClient ;;
  let data := tokenData c code verifier in
  let sb := Values_Encode env data in
  match newHttpRequest env "POST" ep with
  | inl err => ret (None, Some err)
  | inr req =>
      reply <- Do env (httpClient c) (withBody_withValues L req sb data) ;;
      match checkResponseError env reply with
      | inl err => ret (None, Some (wrapError "oAuth token request error: %w" err))
      | inr res =>
          match ReadAll_LimitReader L res (64 * 1024) with
          | (_, Some err) => ret (None, Some err)
          | (body, None) =>
              match json_Unmarshal L body with
              | inl err => ret (None, Some err)
              | inr token => ret (Some token, None)
              end
          end
      end
  end.

(** *** The HTTP client of a base client, as the pointer it is *)

(** [c.httpClient] is nil, [http.DefaultClient], which every client that
    points to it shares, or a client of its own. *)
Inductive httpRef : Type :=
| nilRef
| DefaultClientRef
| ownRef (hc : http_Client).

(** The client a pointer leads to, [http.DefaultClient] being [dflt]. *)
Definition deref (dflt : http_Client) (r : httpRef) : option http_Client :=
  match r with
  | nilRef => None
  | DefaultClientRef => Some dflt
  | ownRef hc => Some hc
  end.

(** [r.Jar = jar] for a pointer that is not nil: the pointer and
    [http.DefaultClient] afterwards. *)
Definition set_Jar (dflt : http_Client) (r : httpRef) (jar : option CookieJar)
    : httpRef * http_Client :=
  match r with
  | ownRef hc => (ownRef (mkClient (CheckRedirect hc) jar), dflt)
  | _ => (DefaultClientRef, mkClient (CheckRedirect dflt) jar)
  end.

(** [func (c *baseClient) SetCookieJar(jar http.CookieJar)] *)
Definition SetCookieJar (dflt : http_Client) (r : httpRef) (jar : CookieJar)
    : httpRef * http_Client :=
  let r := match r with nilRef => DefaultClientRef | _ => r end in
  set_Jar dflt r (Some jar).

(** [func (c *baseClient) setHttpClient()] *)
Definition setHttpClient (dflt : http_Client) (r : httpRef) : httpRef * http_Client :=
  let r := match r with nilRef => DefaultClientRef | _ => r end in
  match deref dflt r with
  | Some hc =>
      match Jar hc with
      | None => set_Jar dflt r (Some MemoryJar)
      | Some _ => (r, dflt)
      end
  | None => (r, dflt)
  end.

(** [func newBaseClient(u string)], returning [*baseClient] and [error]:
    the client, with
    the HTTP client its pointer leads to, that pointer, and
    [http.DefaultClient] afterwards.  [stdinMfa] and [stdinCredentials] are
    the [ReadInput] methods of the two providers over [os.Stdin], and
    [DefaultLogger] is [new(shared.DefaultLogger)]. *)
Definition newBaseClient (env : Env)
    (stdinMfa : history -> string * option error)
    (stdinCredentials : history -> string -> string -> string * string * option error)
    (DefaultLogger : Logger) (dflt : http_Client) (u : string)
    : (error + baseClient * httpRef) * http_Client :=
  match url_Parse env u with
  | inl err => (inl err, dflt)
  | inr authUrl =>
      if negb (strings.HasPrefix (Scheme authUrl) "http") then
        (inl (errorString "invalid client URL"), dflt)
      else
        let '(r, dflt') := setHttpClient dflt nilRef in
        let hc := match deref dflt' r with Some hc => hc | None => dflt' end in
        (inr (mkBase
                (mkOidcCfg
                   (mkAuthCfg stdinCredentials (Some stdinMfa) "" DefaultLogger
                      "" MfaTypeAuto "" "" "")
                   "" "" [])
                authUrl "" hc None, r), dflt')
  end.

End external.


(** ** Package [client]: the factory *)

Module client.

Definition Duration : Type := Z.
Definition Logger : Type := external.Logger.
Definition MfaInputProvider_t : Type :=
  option (external.history -> string * option error).
Definition CredentialInputProvider_t : Type :=
  external.history -> string -> string -> string * string * option error.

(** *** [config.AwsConfig] and [config.AwsCredentials], by the fields the
    factory reads *)

Module AwsConfig.
Record t : Type := mk {
  ProfileName : string;
  RoleArn : string;
  Region : string;
  SrcProfile : string;
  JumpRoleArn : string;
  RoleSessionName : string;
  ExternalId : string;
  MfaSerial : string;
  MfaCode : string;
  MfaType : string;
  FederatedUsername : string;
  SessionTokenDuration : Duration;
  SamlUrl : string;
  SamlUsername : string;
  SamlProvider : string;
  WebIdentityUrl : string;
  WebIdentityUsername : string;
  WebIdentityProvider : string;
  WebIdentityClientId : string;
  WebIdentityRedirectUri : string;
  WebIdentityTokenFile : string
}.

(** [cfg.RoleArn = role; cfg.ProfileName = profile] *)
Definition set_RoleArn_ProfileName (c : t) (role profile : string) : t :=
  mk profile role (Region c) (SrcProfile c) (JumpRoleArn c) (RoleSessionName c)
     (ExternalId c) (MfaSerial c) (MfaCode c) (MfaType c) (FederatedUsername c)
     (SessionTokenDuration c) (SamlUrl c) (SamlUsername c) (SamlProvider c)
     (WebIdentityUrl c) (WebIdentityUsername c) (WebIdentityProvider c)
     (WebIdentityClientId c) (WebIdentityRedirectUri c) (WebIdentityTokenFile c).
End AwsConfig.

Module AwsCredentials.
Record t : Type := mk {
  SamlPassword : string;
  WebIdentityPassword : string
}.
(** [new(config.AwsCredentials)] *)
Definition zero : t := mk "" "".
End AwsCredentials.

(** *** The AWS SDK's configuration, session and credential objects *)

Inductive SharedConfigState_t : Type :=
| SharedConfigStateFromEnv | SharedConfigDisable | SharedConfigEnable.

Inductive CredentialCacher : Type :=
| NewFileCredentialCache (path : string).

Module aws_Config.
Record t (C : Type) : Type := mk {
  CredentialsChainVerboseErrors : bool;
  Region : string;
  LogLevel : nat;
  Logger_ : Logger;
  Credentials : option C
}.
Arguments mk {C}.
End aws_Config.

Module session_Options.
Record t (C : Type) : Type := mk {
  Config : aws_Config.t C;
  Profile : string;
  SharedConfigState : SharedConfigState_t
}.
Arguments mk {C}.
(** [opts.Profile = p] *)
Definition set_Profile {C} (o : t C) (p : string) : t C :=
  mk (Config o) p (SharedConfigState o).
(** [opts.Config.Credentials = c] *)
Definition set_Credentials {C} (o : t C) (c : option C) : t C :=
  mk (aws_Config.mk (aws_Config.CredentialsChainVerboseErrors (Config o))
        (aws_Config.Region (Config o)) (aws_Config.LogLevel (Config o))
        (aws_Config.Logger_ (Config o)) c)
     (Profile o) (SharedConfigState o).
End session_Options.

Module SessionTokenClientConfig.
Record t : Type := mk {
  Logger_ : Logger;
  Cache : option CredentialCacher;
  Duration_ : Duration;
  SerialNumber : string;
  TokenCode : string;
  TokenProvider : MfaInputProvider_t
}.
(** [cfg.SerialNumber = s] *)
Definition set_SerialNumber (c : t) (s : string) : t :=
  mk (Logger_ c) (Cache c) (Duration_ c) s (TokenCode c) (TokenProvider c).
(** [cfg.Cache = k] *)
Definition set_Cache (c : t) (k : option CredentialCacher) : t :=
  mk (Logger_ c) k (Duration_ c) (SerialNumber c) (TokenCode c) (TokenProvider c).
End SessionTokenClientConfig.

Module AssumeRoleClientConfig.
Record t : Type := mk {
  SessionTokenClientConfig_ : SessionTokenClientConfig.t;
  RoleArn : string;
  RoleSessionName : string;
  ExternalId : string
}.
Definition set_SessionTokenClientConfig (c : t) (s : SessionTokenClientConfig.t) : t :=
  mk s (RoleArn c) (RoleSessionName c) (ExternalId c).
(** [cfg.SerialNumber = s], a field of the embedded struct. *)
Definition set_SerialNumber (c : t) (s : string) : t :=
  set_SessionTokenClientConfig c
    (SessionTokenClientConfig.set_SerialNumber (SessionTokenClientConfig_ c) s).
(** The promoted fields of the embedded struct. *)
Definition SerialNumber (c : t) := SessionTokenClientConfig.SerialNumber (SessionTokenClientConfig_ c).
Definition Duration_ (c : t) := SessionTokenClientConfig.Duration_ (SessionTokenClientConfig_ c).
Definition Cache (c : t) := SessionTokenClientConfig.Cache (SessionTokenClientConfig_ c).
End AssumeRoleClientConfig.

(** [SamlRoleClientConfig], of [saml_role_client.go]. *)
Module SamlRoleClientConfig.
Record t : Type := mk {
  AuthenticationClientConfig_ : external.AuthenticationClientConfig;
  Cache : option CredentialCacher;
  Duration_ : Duration;
  RoleArn : string
}.
Definition set_RoleArn (c : t) (r : string) : t :=
  mk (AuthenticationClientConfig_ c) (Cache c) (Duration_ c) r.
Definition set_Cache (c : t) (k : option CredentialCacher) : t :=
  mk (AuthenticationClientConfig_ c) k (Duration_ c) (RoleArn c).
End SamlRoleClientConfig.

Module WebRoleClientConfig.
Record t : Type := mk {
  OidcClientConfig_ : external.OidcClientConfig;
  Cache : option CredentialCacher;
  Duration_ : Duration;
  RoleArn : string;
  WebIdentityTokenFile : string
}.
Definition set_RoleArn (c : t) (r : string) : t :=
  mk (OidcClientConfig_ c) (Cache c) (Duration_ c) r (WebIdentityTokenFile c).
Definition set_Cache (c : t) (k : option CredentialCacher) : t :=
  mk (OidcClientConfig_ c) k (Duration_ c) (RoleArn c) (WebIdentityTokenFile c).
End WebRoleClientConfig.

(** The role providers of package [credentials], by what the factory and
    [NewSamlRoleClient] set in them: the session they call the AWS API
    with, the role they target, the assertion or token they hold. *)
Module SamlRoleProvider.
Record t (S : Type) : Type := mk {
  cfg : S;
  RoleArn : string;
  samlAssertion : option external.SamlAssertion_t;
  Duration_ : Duration;
  Cache : option CredentialCacher;
  Logger_ : Logger
}.
Arguments mk {S}.
(** [p.SamlAssertion(saml)] *)
Definition SamlAssertion {S} (p : t S) (saml : option external.SamlAssertion_t) : t S :=
  mk (cfg p) (RoleArn p) saml (Duration_ p) (Cache p) (Logger_ p).
End SamlRoleProvider.

Module WebRoleProvider.
Record t (S : Type) : Type := mk {
  cfg : S;
  RoleArn : string;
  webIdentityToken : option string;
  Duration_ : Duration;
  Cache : option CredentialCacher;
  Logger_ : Logger
}.
Arguments mk {S}.
(** [p.WebIdentityToken(tok)] *)
Definition WebIdentityToken {S} (p : t S) (tok : option string) : t S :=
  mk (cfg p) (RoleArn p) tok (Duration_ p) (Cache p) (Logger_ p).
End WebRoleProvider.

(** A [*session.Session] is the options it was made from, with the
    credential object put in [ses.Config.Credentials] since; a credential
    object is the provider behind it.  The model keeps in every client the
    session as it was when the client was built.  [session.Must] panics
    where the SDK makes no session, as [MustGetSamlClient] does where no
    client is found for the URL: what is described is what they return
    when they return. *)
Inductive Session : Type :=
| NewSessionWithOptions (opts : session_Options.t Credentials)
with Credentials : Type :=
| NewCredentials_saml (p : SamlRoleProvider.t Session)
| NewCredentials_web (p : WebRoleProvider.t Session)
| sessionTokenCredentials (ses : Session) (clientCfg : SessionTokenClientConfig.t).

Definition Options_of (ses : Session) : session_Options.t Credentials :=
  let 'NewSessionWithOptions o := ses in o.

(** [ses.Config.Credentials] *)
Definition Config_Credentials (ses : Session) : option Credentials :=
  aws_Config.Credentials (session_Options.Config (Options_of ses)).

(** [ses.Config.Credentials = c] *)
Definition set_Config_Credentials (ses : Session) (c : Credentials) : Session :=
  NewSessionWithOptions (session_Options.set_Credentials (Options_of ses) (Some c)).

(** *** The identity clients and the four composed clients *)

(** An [external.SamlClient] or web identity client is known by what it
    was built from and the cookie jar set in it since. *)
Module SamlClient.
Record t : Type := mk {
  provider : string;
  url : string;
  cfg : external.AuthenticationClientConfig;
  jar : option external.CookieJar
}.
Definition MustGetSamlClient (provider url : string)
    (cfg : external.AuthenticationClientConfig) : t :=
  mk provider url cfg None.
Definition SetCookieJar (c : t) (j : external.CookieJar) : t :=
  mk (provider c) (url c) (cfg c) (Some j).
End SamlClient.

Module WebClient.
Record t : Type := mk {
  provider : string;
  url : string;
  cfg : external.OidcClientConfig;
  jar : option external.CookieJar
}.
Definition MustGetWebIdentityClient (provider url : string)
    (cfg : external.OidcClientConfig) : t :=
  mk provider url cfg None.
Definition SetCookieJar (c : t) (j : external.CookieJar) : t :=
  mk (provider c) (url c) (cfg c) (Some j).
End WebClient.

(** Who answers [Identity()] and [Roles()] for a client. *)
Inductive identityClient : Type :=
| awsIdentityClient (ses : Session)
| identSaml (c : SamlClient.t)
| identWeb (c : WebClient.t).

(** [samlRoleClient], of [saml_role_client.go]. *)
Module samlRoleClient.
Record t : Type := mk {
  samlClient : SamlClient.t;
  roleProvider : SamlRoleProvider.t Session;
  session : Session
}.
(** [c.Identity()] and [c.Roles()] are those of [c.samlClient]. *)
Definition ident (c : t) : identityClient := identSaml (samlClient c).
End samlRoleClient.

(** [func NewSamlRoleClient(cfg client.ConfigProvider, url string,
    clientCfg *SamlRoleClientConfig) *samlRoleClient] *)
Definition NewSamlRoleClient (cfg : Session) (url : string)
    (clientCfg : SamlRoleClientConfig.t) : samlRoleClient.t :=
  let a := SamlRoleClientConfig.AuthenticationClientConfig_ clientCfg in
  let p := SamlRoleProvider.mk cfg (SamlRoleClientConfig.RoleArn clientCfg)
             (Some "")
             (SamlRoleClientConfig.Duration_ clientCfg)
             (SamlRoleClientConfig.Cache clientCfg)
             (external.Logger_ a) in
  samlRoleClient.mk
    (SamlClient.MustGetSamlClient (external.IdentityProviderName a) url a)
    p cfg.

Module webRoleClient.
Record t : Type := mk {
  webClient : WebClient.t;
  roleProvider : WebRoleProvider.t Session;
  session : Session;
  tokenFile : string
}.
End webRoleClient.

(** Modelled from the spec: [NewWebRoleClient], whose file is not among the
    sources.  By the spec's composed clients and after [NewSamlRoleClient],
    it builds the web identity client of the provider name and URL and a
    role provider for the configured role, duration and cache, holding no
    token yet. *)
Definition NewWebRoleClient (cfg : Session) (url : string)
    (clientCfg : WebRoleClientConfig.t) : webRoleClient.t :=
  let o := WebRoleClientConfig.OidcClientConfig_ clientCfg in
  webRoleClient.mk
    (WebClient.MustGetWebIdentityClient
       (external.IdentityProviderName (external.auth o)) url o)
    (WebRoleProvider.mk cfg (WebRoleClientConfig.RoleArn clientCfg) None
       (WebRoleClientConfig.Duration_ clientCfg)
       (WebRoleClientConfig.Cache clientCfg)
       (external.Logger_ (external.auth o)))
    cfg (WebRoleClientConfig.WebIdentityTokenFile clientCfg).

Module sessionTokenClient.
Record t : Type := mk {
  session : Session;
  clientCfg : SessionTokenClientConfig.t;
  creds : Credentials;
  ident : identityClient
}.
End sessionTokenClient.

(** Modelled from the spec: [NewSessionTokenClient], whose file is not
    among the sources.  The client keeps the session and the configuration
    it is given; its credentials are the session-token credentials got with
    them, and the identity is asked of AWS with the same session. *)
Definition NewSessionTokenClient (cfg : Session)
    (clientCfg : SessionTokenClientConfig.t) : sessionTokenClient.t :=
  sessionTokenClient.mk cfg clientCfg
    (sessionTokenCredentials cfg clientCfg) (awsIdentityClient cfg).

Module assumeRoleClient.
Record t : Type := mk {
  session : Session;
  clientCfg : AssumeRoleClientConfig.t;
  ident : identityClient
}.
(** [cl.ident = i] *)
Definition set_ident (c : t) (i : identityClient) : t :=
  mk (session c) (clientCfg c) i.
End assumeRoleClient.

(** Modelled from the spec: [NewAssumeRoleClient], whose file is not among
    the sources.  The client keeps the session, whose credentials it calls
    AssumeRole with, and the configuration; until [ident] is set the
    identity is asked of AWS with the same session. *)
Definition NewAssumeRoleClient (cfg : Session)
    (clientCfg : AssumeRoleClientConfig.t) : assumeRoleClient.t :=
  assumeRoleClient.mk cfg clientCfg (awsIdentityClient cfg).

(** The interface [AwsClient] with its four implementations. *)
Inductive AwsClient : Type :=
| SamlRole (c : samlRoleClient.t)
| WebRole (c : webRoleClient.t)
| AssumeRole (c : assumeRoleClient.t)
| SessionToken (c : sessionTokenClient.t).

(** *** What the factory calls outside the package *)

(** [Validate] and [RoleCredentialDuration] are methods of
    [config.AwsConfig], [MergeIn] of [config.AwsCredentials], [Decode] is
    [helpers.NewPasswordEncoder(url).Decode], [SamlAssertion] and
    [FetchToken] are the calls to the identity provider, and
    [AssumeRoleDurationDefault] is the constant of package [credentials];
    the first four fields are the process environment and [path/filepath].
    An [Env] is the world during one call of a method of the package: the
    identity provider answers as it does then, and a call made at another
    time is described with another [Env]. *)
Record Env : Type := mkEnv {
  SharedConfigFilename : string;
  LookupEnv : string -> option string;
  filepath_Dir : string -> string;
  filepath_Join : string -> string -> string;
  Validate : AwsConfig.t -> option error;
  RoleCredentialDuration : AwsConfig.t -> Duration;
  MergeIn : AwsCredentials.t -> option AwsCredentials.t -> AwsCredentials.t;
  Decode : string -> string -> error + string;
  SamlAssertion : SamlClient.t -> option external.SamlAssertion_t * option error;
  FetchToken : webRoleClient.t -> string * option error;
  AssumeRoleDurationDefault : Duration
}.

Module Options.
Record t : Type := mk {
  AwsLogLevel : nat;
  Logger_ : Logger;
  MfaInputProvider : MfaInputProvider_t;
  CredentialInputProvider : CredentialInputProvider_t;
  EnableCache : bool;
  CommandCredentials : option AwsCredentials.t
}.
End Options.

(** [resolver] is the method [Credentials] of the [config.Resolver]. *)
Record Factory : Type := NewClientFactory {
  resolver : string -> error + AwsCredentials.t;
  options : Options.t
}.

(** [func cachePath() string] *)
Definition cachePath (env : Env) : string :=
  let f := SharedConfigFilename env in
  let f := match LookupEnv env "AWS_CONFIG_FILE" with
           | Some v => v
           | None => f
           end in
  filepath_Dir env f.

(** [var cookieJar] *)
Definition cookieJar (env : Env) : external.CookieJar :=
  external.FileJar (filepath_Join env (cachePath env) ".aws_runas.cookies").

(** The value of the local [profile] of [cacheFileName] when the file name
    is formatted: the key of the cache file.  [roleParts[len(roleParts)-1]]
    is the last piece; [strings.Split] returns at least one. *)
Definition cacheKey (profile role : string) : string :=
  if (String.length profile <? 1)%nat && arn.IsARN role then
    let roleArn := match arn.Parse role with
                   | inr a => a
                   | inl _ => arn.zero
                   end in
    let roleParts := strings.Split (arn.Resource roleArn) "/"%char in
    arn.AccountID roleArn ++ "-" ++ last roleParts ""
  else profile.

(** [func cacheFileName(prefix, profile, role string) string] *)
Definition cacheFileName (env : Env) (prefix profile role : string) : string :=
  filepath_Join env (cachePath env) (prefix ++ "_" ++ cacheKey profile role).

(** [func (f *Factory) decodePassword(url, password string) string] *)
Definition decodePassword (env : Env) (url password : string) : string :=
  match Decode env url password with
  | inr pw => pw
  | inl _ => password
  end.

(** [func (f *Factory) sessionClient(cfg *config.AwsConfig,
    opts session.Options) *sessionTokenClient] *)
Definition sessionClient (env : Env) (f : Factory) (cfg : AwsConfig.t)
    (opts : session_Options.t Credentials) : sessionTokenClient.t :=
  let sesCfg := SessionTokenClientConfig.mk (Options.Logger_ (options f)) None
                  (AwsConfig.SessionTokenDuration cfg) (AwsConfig.MfaSerial cfg)
                  (AwsConfig.MfaCode cfg) (Options.MfaInputProvider (options f)) in
  let sesCfg :=
    if Options.EnableCache (options f) then
      let cacheFile := cacheFileName env ".aws_session_token" (session_Options.Profile opts) "" in
      SessionTokenClientConfig.set_Cache sesCfg (Some (NewFileCredentialCache cacheFile))
    else sesCfg in
  NewSessionTokenClient (NewSessionWithOptions opts) sesCfg.

(** [func (f *Factory) roleClient(cfg *config.AwsConfig,
    opts session.Options) *assumeRoleClient] *)
Definition roleClient (env : Env) (f : Factory) (cfg : AwsConfig.t)
    (opts : session_Options.t Credentials) : assumeRoleClient.t :=
  let stCfg := SessionTokenClientConfig.mk (Options.Logger_ (options f)) None
                 (RoleCredentialDuration env cfg) (AwsConfig.MfaSerial cfg)
                 (AwsConfig.MfaCode cfg) (Options.MfaInputProvider (options f)) in
  let stCfg :=
    if Options.EnableCache (options f) then
      let cacheFile := cacheFileName env ".aws_assume_role" (session_Options.Profile opts)
                         (AwsConfig.RoleArn cfg) in
      SessionTokenClientConfig.set_Cache stCfg (Some (NewFileCredentialCache cacheFile))
    else stCfg in
  let roleCfg := AssumeRoleClientConfig.mk stCfg (AwsConfig.RoleArn cfg)
                   (AwsConfig.RoleSessionName cfg) (AwsConfig.ExternalId cfg) in
  let opts :=
    if (0 <? String.length (AwsConfig.SrcProfile cfg))%nat then
      session_Options.set_Profile opts (AwsConfig.SrcProfile cfg)
    else opts in
  let ses := NewSessionWithOptions opts in
  if (RoleCredentialDuration env cfg <=? AssumeRoleDurationDefault env)%Z then
    let roleCfg := AssumeRoleClientConfig.set_SerialNumber roleCfg "" in
    let sc := sessionClient env f cfg opts in
    let ses := set_Config_Credentials ses (sessionTokenClient.creds sc) in
    let cl := NewAssumeRoleClient ses roleCfg in
    assumeRoleClient.set_ident cl (sessionTokenClient.ident sc)
  else NewAssumeRoleClient ses roleCfg.

(** The configuration of the second stage of a role chain, in
    [samlClient] and in [webClient]. *)
Definition chainedRoleCfg (env : Env) (f : Factory) (cfg : AwsConfig.t)
    (roleCache : option CredentialCacher) : AssumeRoleClientConfig.t :=
  AssumeRoleClientConfig.mk
    (SessionTokenClientConfig.mk (Options.Logger_ (options f)) roleCache
       (AssumeRoleDurationDefault env) "" "" None)
    (AwsConfig.RoleArn cfg) (AwsConfig.RoleSessionName cfg) (AwsConfig.ExternalId cfg).

(** The [AuthenticationClientConfig] literal of [samlClient]. *)
Definition samlAuthConfig (env : Env) (f : Factory) (cfg : AwsConfig.t)
    (creds : AwsCredentials.t) : external.AuthenticationClientConfig :=
  external.mkAuthCfg (Options.CredentialInputProvider (options f))
    (Options.MfaInputProvider (options f)) (AwsConfig.SamlProvider cfg)
    (Options.Logger_ (options f))
    (AwsConfig.MfaCode cfg) (AwsConfig.MfaType cfg) (AwsConfig.SamlUsername cfg)
    (decodePassword env (AwsConfig.SamlUrl cfg) (AwsCredentials.SamlPassword creds))
    (AwsConfig.FederatedUsername cfg).

(** [func (f *Factory) samlClient(cfg *config.AwsConfig,
    creds *config.AwsCredentials, opts session.Options) (AwsClient, error)] *)
Definition samlClient (env : Env) (f : Factory) (cfg : AwsConfig.t)
    (creds : AwsCredentials.t) (opts : session_Options.t Credentials)
    : option AwsClient * option error :=
  let samlCfg :=
    SamlRoleClientConfig.mk (samlAuthConfig env f cfg creds)
      None (RoleCredentialDuration env cfg) (AwsConfig.RoleArn cfg) in
  let samlCfg :=
    if Options.EnableCache (options f) then
      let cacheFile := cacheFileName env ".aws_saml_role" (session_Options.Profile opts)
                         (AwsConfig.RoleArn cfg) in
      SamlRoleClientConfig.set_Cache samlCfg (Some (NewFileCredentialCache cacheFile))
    else samlCfg in
  let opts := session_Options.set_Profile opts "" in
  let ses := NewSessionWithOptions opts in
  if (0 <? String.length (AwsConfig.JumpRoleArn cfg))%nat then
    let samlCfg := SamlRoleClientConfig.set_RoleArn samlCfg (AwsConfig.JumpRoleArn cfg) in
    let samlCfg :=
      if Options.EnableCache (options f) then
        SamlRoleClientConfig.set_Cache samlCfg
          (Some (NewFileCredentialCache
                   (cacheFileName env ".aws_saml_role" "" (AwsConfig.JumpRoleArn cfg))))
      else samlCfg in
    let roleCache :=
      if Options.EnableCache (options f) then
        Some (NewFileCredentialCache
                (cacheFileName env ".aws_assume_role" (AwsConfig.ProfileName cfg)
                   (AwsConfig.RoleArn cfg)))
      else None in
    let baseCl := NewSamlRoleClient ses (AwsConfig.SamlUrl cfg) samlCfg in
    let baseSaml := SamlClient.SetCookieJar (samlRoleClient.samlClient baseCl) (cookieJar env) in
    match SamlAssertion env baseSaml with
    | (_, Some err) => (None, Some err)
    | (saml, None) =>
        let roleProvider :=
          SamlRoleProvider.SamlAssertion (samlRoleClient.roleProvider baseCl) saml in
        let ses := set_Config_Credentials ses (NewCredentials_saml roleProvider) in
        let roleCfg := chainedRoleCfg env f cfg roleCache in
        let roleCl := NewAssumeRoleClient ses roleCfg in
        (Some (AssumeRole (assumeRoleClient.set_ident roleCl (identSaml baseSaml))), None)
    end
  else
    let cl := NewSamlRoleClient ses (AwsConfig.SamlUrl cfg) samlCfg in
    let clSaml := SamlClient.SetCookieJar (samlRoleClient.samlClient cl) (cookieJar env) in
    let '(saml, _) := SamlAssertion env clSaml in
    (Some (SamlRole (samlRoleClient.mk clSaml
                       (SamlRoleProvider.SamlAssertion (samlRoleClient.roleProvider cl) saml)
                       (samlRoleClient.session cl))), None).

(** [func (f *Factory) webClient(cfg *config.AwsConfig,
    creds *config.AwsCredentials, opts session.Options) (AwsClient, error)] *)
Definition webClient (env : Env) (f : Factory) (cfg : AwsConfig.t)
    (creds : AwsCredentials.t) (opts : session_Options.t Credentials)
    : option AwsClient * option error :=
  let logger := Options.Logger_ (options f) in
  let webCfg :=
    WebRoleClientConfig.mk
      (external.mkOidcCfg
         (external.mkAuthCfg (Options.CredentialInputProvider (options f))
            (Options.MfaInputProvider (options f)) (AwsConfig.WebIdentityProvider cfg) logger
            (AwsConfig.MfaCode cfg) (AwsConfig.MfaType cfg) (AwsConfig.WebIdentityUsername cfg)
            (decodePassword env (AwsConfig.WebIdentityUrl cfg)
               (AwsCredentials.WebIdentityPassword creds))
            (AwsConfig.FederatedUsername cfg))
         (AwsConfig.WebIdentityClientId cfg) (AwsConfig.WebIdentityRedirectUri cfg) [])
      None (RoleCredentialDuration env cfg) (AwsConfig.RoleArn cfg)
      (AwsConfig.WebIdentityTokenFile cfg) in
  let cacheFile := cacheFileName env ".aws_web_role" (session_Options.Profile opts)
                     (AwsConfig.RoleArn cfg) in
  let webCfg :=
    if Options.EnableCache (options f) then
      WebRoleClientConfig.set_Cache webCfg (Some (NewFileCredentialCache cacheFile))
    else webCfg in
  let opts := session_Options.set_Profile opts "" in
  let ses := NewSessionWithOptions opts in
  if (0 <? String.length (AwsConfig.JumpRoleArn cfg))%nat then
    let webCfg := WebRoleClientConfig.set_RoleArn webCfg (AwsConfig.JumpRoleArn cfg) in
    let webCfg :=
      if Options.EnableCache (options f) then
        WebRoleClientConfig.set_Cache webCfg
          (Some (NewFileCredentialCache
                   (cacheFileName env ".aws_web_role" "" (AwsConfig.JumpRoleArn cfg))))
      else webCfg in
    let roleCache :=
      if Options.EnableCache (options f) then
        Some (NewFileCredentialCache
                (cacheFileName env ".aws_assume_role" (AwsConfig.ProfileName cfg)
                   (AwsConfig.RoleArn cfg)))
      else None in
    let baseCl := NewWebRoleClient ses (AwsConfig.WebIdentityUrl cfg) webCfg in
    let baseWeb := WebClient.SetCookieJar (webRoleClient.webClient baseCl) (cookieJar env) in
    let baseCl := webRoleClient.mk baseWeb (webRoleClient.roleProvider baseCl)
                    (webRoleClient.session baseCl) (webRoleClient.tokenFile baseCl) in
    match FetchToken env baseCl with
    | (_, Some err) => (None, Some err)
    | (tokBytes, None) =>
        let roleProvider :=
          WebRoleProvider.WebIdentityToken (webRoleClient.roleProvider baseCl) (Some tokBytes) in
        let ses := set_Config_Credentials ses (NewCredentials_web roleProvider) in
        let roleCfg := chainedRoleCfg env f cfg roleCache in
        let roleCl := NewAssumeRoleClient ses roleCfg in
        (Some (AssumeRole (assumeRoleClient.set_ident roleCl (identWeb baseWeb))), None)
    end
  else
    let cl := NewWebRoleClient ses (AwsConfig.WebIdentityUrl cfg) webCfg in
    let clWeb := WebClient.SetCookieJar (webRoleClient.webClient cl) (cookieJar env) in
    (Some (WebRole (webRoleClient.mk clWeb (webRoleClient.roleProvider cl)
                      (webRoleClient.session cl) (webRoleClient.tokenFile cl))), None).

(** The first step of [Get]: a profile name that is an ARN becomes the
    role ARN and the profile name is cleared. *)
Definition profileAsRole (cfg : AwsConfig.t) : AwsConfig.t :=
  if arn.IsARN (AwsConfig.ProfileName cfg) then
    AwsConfig.set_RoleArn_ProfileName cfg (AwsConfig.ProfileName cfg) ""
  else cfg.

(** [resolver.Credentials(url)], empty on an error, merged with the
    command's credentials. *)
Definition resolveCredentials (env : Env) (f : Factory) (url : string) : AwsCredentials.t :=
  let creds := match resolver f url with
               | inr c => c
               | inl _ => AwsCredentials.zero
               end in
  MergeIn env creds (Options.CommandCredentials (options f)).

(** [func (f *Factory) Get(cfg *config.AwsConfig) (AwsClient, error)]; the
    first component of the result is the configuration [cfg] points to
    when [Get] returns. *)
Definition Get (env : Env) (f : Factory) (cfg : option AwsConfig.t)
    : option AwsConfig.t * (option AwsClient * option error) :=
  match cfg with
  | None => (None, (None, Some (errorString "invalid configuration")))
  | Some cfg =>
      match Validate env cfg with
      | Some err => (Some cfg, (None, Some err))
      | None =>
          let cfg := profileAsRole cfg in
          let sesCfg := aws_Config.mk true (AwsConfig.Region cfg)
                          (Options.AwsLogLevel (options f)) (Options.Logger_ (options f))
                          None in
          let opts := session_Options.mk sesCfg (AwsConfig.ProfileName cfg)
                        SharedConfigEnable in
          (Some cfg,
           if (0 <? String.length (AwsConfig.SamlUrl cfg))%nat then
             samlClient env f cfg (resolveCredentials env f (AwsConfig.SamlUrl cfg)) opts
           else if (0 <? String.length (AwsConfig.WebIdentityUrl cfg))%nat then
             webClient env f cfg (resolveCredentials env f (AwsConfig.WebIdentityUrl cfg)) opts
           else if (0 <? String.length (AwsConfig.RoleArn cfg))%nat then
             (Some (AssumeRole (roleClient env f cfg opts)), None)
           else
             (Some (SessionToken (sessionClient env f cfg opts)), None))
      end
  end.

(** *** The methods of [samlRoleClient] that fetch credentials *)


(** [awscred.Value] *)
Module Value.
Record t : Type := mk {
  AccessKeyID : string;
  SecretAccessKey : string;
  SessionToken : string;
  ProviderName : string
}.
End Value.

(** [credentials.Credentials] of this repository. *)
Module credentials_Credentials.
Record t : Type := mk {
  AccessKeyId : string;
  SecretAccessKey : string;
  Token : string;
  Expiration : Z;
  ProviderName : string
}.
End credentials_Credentials.




End client.


(** * Statements and sample data *)

Local Open Scope string_scope.

(** A string in which the byte [sep] does not occur. *)
Definition free_of (sep : ascii) (s : string) : Prop := strings.Count s sep = 0.

(** The session options [Get] sets up for a configuration it has resolved. *)
Definition sessionOptions (f : client.Factory) (cfg : client.AwsConfig.t)
    : client.session_Options.t client.Credentials :=
  client.session_Options.mk
    (client.aws_Config.mk true (client.AwsConfig.Region cfg)
       (client.Options.AwsLogLevel (client.options f))
       (client.Options.Logger_ (client.options f)) None)
    (client.AwsConfig.ProfileName cfg) client.SharedConfigEnable.

(** The SAML client [samlClient] builds for a resolved configuration, with
    the cookie jar set: the one asked for the initial assertion. *)
Definition initialSamlClient (env : client.Env) (f : client.Factory)
    (cfg : client.AwsConfig.t) : client.SamlClient.t :=
  client.SamlClient.SetCookieJar
    (client.SamlClient.MustGetSamlClient (client.AwsConfig.SamlProvider cfg)
       (client.AwsConfig.SamlUrl cfg)
       (client.samlAuthConfig env f cfg
          (client.resolveCredentials env f (client.AwsConfig.SamlUrl cfg))))
    (client.cookieJar env).

(** The number of HTTP requests recorded in a history. *)
Fixpoint requests (h : external.history) : nat :=
  match h with
  | [] => 0
  | external.EvHttpDo _ _ :: h' => S (requests h')
  | _ :: h' => requests h'
  end.

(** The number of calls of the credential-input provider in a history. *)
Fixpoint credentialInputs (h : external.history) : nat :=
  match h with
  | [] => 0
  | external.EvCredentialInput _ _ :: h' => S (credentialInputs h')
  | _ :: h' => credentialInputs h'
  end.

(** ** A sample identity provider *)

Module sample.
Import external.

Definition elem (tag : string) (attrs : list Attribute) (children : list Node) : Node :=
  mkNode ElementNode tag attrs children.
Definition text (s : string) : Node := mkNode TextNode s [] [].
Definition page (body : list Node) : Node :=
  mkNode DocumentNode "" []
    [elem "html" [] [elem "head" [] []; elem "body" [] body]].

(** A page with two [SAMLResponse] inputs, and the tree the HTML parser
    makes of it. *)
Definition two_inputs_body : string :=
  "<html><head></head><body><form method='post'>" ++
  "<input type='hidden' name='SAMLResponse' value='Rmlyc3Q='>" ++
  "<input type='hidden' name='SAMLResponse' value='U2Vjb25k'>" ++
  "</form></body></html>".
Definition first_input : Node :=
  elem "input" [mkAttr "type" "hidden"; mkAttr "name" "SAMLResponse"; mkAttr "value" "Rmlyc3Q="] [].
Definition second_input : Node :=
  elem "input" [mkAttr "type" "hidden"; mkAttr "name" "SAMLResponse"; mkAttr "value" "U2Vjb25k"] [].
Definition two_inputs_doc : Node :=
  page [elem "form" [mkAttr "method" "post"] [first_input; second_input]].

(** A page with one [SAMLResponse] input after an input of another name. *)
Definition single_body : string :=
  "<html><head></head><body><form method='post'>" ++
  "<input type='hidden' name='RelayState' value='cmVsYXk='>" ++
  "<input type='hidden' name='SAMLResponse' value='T25seQ=='>" ++
  "</form></body></html>".
Definition only_input : Node :=
  elem "input" [mkAttr "type" "hidden"; mkAttr "name" "SAMLResponse"; mkAttr "value" "T25seQ=="] [].
Definition single_doc : Node :=
  page [elem "form" [mkAttr "method" "post"]
          [elem "input" [mkAttr "type" "hidden"; mkAttr "name" "RelayState";
                         mkAttr "value" "cmVsYXk="] [];
           only_input]].

(** A login page: inputs, none of them named [SAMLResponse]. *)
Definition login_body : string :=
  "<html><head></head><body><form>Sign in" ++
  "<input name='username'><input type='submit'></form></body></html>".
Definition login_doc : Node :=
  page [elem "form" []
          [text "Sign in"; elem "input" [mkAttr "name" "username"] [];
           elem "input" [mkAttr "type" "submit"] []]].

Definition saml_url : URL := mkURL "https" "idp.example.com" "/saml" "" "".
Definition saml_request : Request := mkRequest "GET" "https://idp.example.com/saml".
Definition authorize_ep : string := "https://idp.example.com/oauth2/authorize".
Definition authorize_data : Values :=
  [("client_id", ["runas"]); ("response_type", ["code"])].
Definition authorize_request : Request :=
  mkRequest "GET" "https://idp.example.com/oauth2/authorize?client_id=runas&response_type=code".
Definition callback : string := "https://app.example.com/callback?code=abc&state=xyz".
Definition callback_url : URL :=
  mkURL "https" "app.example.com" "/callback" "code=abc&state=xyz" "".
Definition elsewhere : string := "https://idp.example.com/error?reason=denied".
Definition no_host : error := errorString "dial tcp: lookup app.example.com: no such host".
Definition no_Location : error := errorString "http: no Location header in response".

(** Responses of the identity provider: a page, a redirect to the
    callback, a failure. *)
Definition ok (body : string) : Response := mkResponse 200 "200 OK" body (inl no_Location).
Definition found : Response := mkResponse 302 "302 Found" "" (inr callback_url).
Definition unavailable : Response :=
  mkResponse 503 "503 Service Unavailable" "" (inl no_Location).

(** The answers of the libraries and of the network, on the data above.
    A request to the identity provider is answered with [answer]; the
    authorize request ends in a redirect to [target] that cannot be
    reached. *)
Definition env (answer : Response) (target : string) : Env :=
  {| time_Now := fun h => (200 + Z.of_nat (List.length h))%Z;
     http_Do := fun _ _ req =>
       if String.eqb (RequestURL req) (RequestURL authorize_request)
       then inl (url_Error "Get" target no_host)
       else inr answer;
     ExpiresAt := fun a =>
       if String.eqb a "c3RhbGU=" then inr 100%Z else inr 1000%Z;
     NewDocumentFromReader := fun r =>
       if String.eqb r two_inputs_body then inr two_inputs_doc
       else if String.eqb r single_body then inr single_doc
       else if String.eqb r login_body then inr login_doc
       else inr (page []);
     url_Parse := fun s =>
       if String.eqb s authorize_ep
       then inr (mkURL "https" "idp.example.com" "/oauth2/authorize" "" "")
       else if String.eqb s callback then inr callback_url
       else if String.eqb s elsewhere
       then inr (mkURL "https" "idp.example.com" "/error" "reason=denied" "")
       else inl (errorString "parse: invalid URI");
     URL_String := fun u =>
       Scheme u ++ "://" ++ Host u ++ Path u ++
       (if String.eqb (RawQuery u) "" then "" else "?" ++ RawQuery u);
     ParseQuery := fun q =>
       if String.eqb q "code=abc&state=xyz" then [("code", ["abc"]); ("state", ["xyz"])]
       else [];
     Values_Encode := fun v =>
       match v with
       | [] => ""
       | _ => "client_id=runas&response_type=code"
       end;
     newHttpRequest := fun m u => inr (mkRequest m u);
     http_NewRequest := fun m u => inr (mkRequest m u);
     checkResponseError := fun r =>
       match r with
       | inr res => if (StatusCode res =? 200)%Z then inr res
                    else inl (errorString ("http status " ++ Status res))
       | inl e => inl e
       end |}.

(** A client as [newBaseClient] leaves it, with the given credentials, MFA
    settings and held assertion. *)
Definition base (user pass mfaType mfaCode : string) (held : option SamlAssertion_t)
    : baseClient :=
  mkBase
    (mkOidcCfg
       (mkAuthCfg (fun _ _ _ => ("alice", "s3cret", None))
          (Some (fun _ => ("123456", None)))
          "mock" 0 mfaCode mfaType user pass "")
       "runas" "https://app.example.com/callback" [])
    saml_url "" (mkClient None (Some MemoryJar)) held.

(** The same client when the credential input is closed. *)
Definition input_closed : error := errorString "EOF".
Definition base_closed : baseClient :=
  mkBase
    (mkOidcCfg
       (mkAuthCfg (fun _ u p => (u, p, Some input_closed)) None
          "mock" 0 "" MfaTypeAuto "" "" "")
       "" "" [])
    saml_url "" (mkClient None (Some MemoryJar)) None.

End sample.

(** The clients of the examples: one that holds nothing, one that holds an
    assertion that has expired, one that holds an assertion still valid. *)
Module clients.
Import external.
Definition fresh : baseClient := sample.base "alice" "s3cret" MfaTypeAuto "" None.
Definition stale : baseClient := sample.base "alice" "s3cret" MfaTypeAuto "" (Some "c3RhbGU=").
Definition valid : baseClient := sample.base "alice" "s3cret" MfaTypeAuto "" (Some "dmFsaWQ=").
Definition code_needed : baseClient := sample.base "alice" "s3cret" MfaTypeCode "" None.
Definition two_inputs_env : Env := sample.env (sample.ok sample.two_inputs_body) sample.callback.
Definition single_env : Env := sample.env (sample.ok sample.single_body) sample.callback.
Definition login_env : Env := sample.env (sample.ok sample.login_body) sample.callback.
Definition denied_env : Env := sample.env (sample.ok sample.login_body) sample.elsewhere.
Definition found_env : Env := sample.env sample.found sample.callback.
Definition unavailable_env : Env := sample.env sample.unavailable sample.callback.
End clients.

(** ** A sample factory *)

Module factory.
Import client.

Definition hour : Duration := (3600 * 1000000000)%Z.

(** The environment: the identity provider answers [fetch] to the initial
    request for an assertion, [Validate] answers [invalid] and every
    configuration asks for credentials that last [requested]. *)
Definition env_of (invalid : option error)
    (fetch : option external.SamlAssertion_t * option error)
    (requested : Duration) : Env :=
  {| SharedConfigFilename := "/home/alice/.aws/config";
     LookupEnv := fun _ => None;
     filepath_Dir := fun _ => "/home/alice/.aws";
     filepath_Join := fun d n => d ++ "/" ++ n;
     Validate := fun _ => invalid;
     RoleCredentialDuration := fun _ => requested;
     MergeIn := fun c _ => c;
     Decode := fun _ p => inr p;
     SamlAssertion := fun _ => fetch;
     FetchToken := fun _ => ("eyJhbGciOi", None);
     AssumeRoleDurationDefault := hour |}.

Definition env := env_of None.
Definition no_region : error := errorString "region is required".

Definition f : Factory :=
  NewClientFactory
    (fun _ => inr (AwsCredentials.mk "pw" "pw"))
    (Options.mk 0 0 (Some (fun _ => ("123456", None)))
       (fun _ _ _ => ("alice", "s3cret", None)) true None).

Definition cfg (profile role jump samlUrl webUrl : string) : AwsConfig.t :=
  {| AwsConfig.ProfileName := profile;
     AwsConfig.RoleArn := role;
     AwsConfig.Region := "us-east-1";
     AwsConfig.SrcProfile := "";
     AwsConfig.JumpRoleArn := jump;
     AwsConfig.RoleSessionName := "";
     AwsConfig.ExternalId := "";
     AwsConfig.MfaSerial := "arn:aws:iam::111111111111:mfa/alice";
     AwsConfig.MfaCode := "";
     AwsConfig.MfaType := "auto";
     AwsConfig.FederatedUsername := "";
     AwsConfig.SessionTokenDuration := (12 * hour)%Z;
     AwsConfig.SamlUrl := samlUrl;
     AwsConfig.SamlUsername := "alice";
     AwsConfig.SamlProvider := "mock";
     AwsConfig.WebIdentityUrl := webUrl;
     AwsConfig.WebIdentityUsername := "alice";
     AwsConfig.WebIdentityProvider := "mock";
     AwsConfig.WebIdentityClientId := "runas";
     AwsConfig.WebIdentityRedirectUri := "https://app.example.com/callback";
     AwsConfig.WebIdentityTokenFile := "" |}.

Definition target : string := "arn:aws:iam::222222222222:role/Target".
Definition jump : string := "arn:aws:iam::111111111111:role/Jump".
Definition idp : string := "https://idp.example.com/saml".
Definition idp_down : error :=
  wrapError "SAML request error %w"
    (url_Error "Get" idp (errorString "dial tcp: connection refused")).

Definition saml_chained : AwsConfig.t := cfg "dev" target jump idp "".
Definition saml_plain : AwsConfig.t := cfg "dev" target "" idp "".
Definition iam_role : AwsConfig.t := cfg "dev" target "" "" "".
Definition web_chained : AwsConfig.t := cfg "dev" target jump "" "https://idp.example.com/oidc".

End factory.

(** The environments of the examples: the identity provider is down, or it
    answers with an assertion; the configuration asks for twelve hours, or
    for half an hour. *)
Module envs.
Definition down : client.Env := factory.env (None, Some factory.idp_down) (12 * factory.hour)%Z.
Definition up : client.Env := factory.env (Some "PHNhbWw+", None) (12 * factory.hour)%Z.
Definition short : client.Env := factory.env (None, None) (1800 * 1000000000)%Z.
Definition strict : client.Env :=
  factory.env_of (Some factory.no_region) (None, None) factory.hour.
End envs.

(** ** Further statements and sample data *)

(** The user name [identity] reports for a client: the role session name
    of a held assertion when it can be read, the configured user name
    otherwise. *)
Definition displayName (L : external.Lib) (c : external.baseClient) : string :=
  match external.saml c with
  | Some a =>
      if (0 <? String.length a)%nat then
        match external.RoleSessionName L a with
        | inr user => user
        | inl _ => external.Username (external.auth (external.config c))
        end
      else external.Username (external.auth (external.config c))
  | None => external.Username (external.auth (external.config c))
  end.

(** The request [oauthToken] sends to the endpoint [ep]. *)
Definition tokenRequest (env : external.Env) (L : external.Lib)
    (c : external.baseClient) (req : external.Request) (code verifier : string)
    : external.Request :=
  external.withBody_withValues L req
    (external.Values_Encode env (external.tokenData c code verifier))
    (external.tokenData c code verifier).

Module more.
Import external.

Fixpoint replicate (n : nat) (c : ascii) : string :=
  match n with
  | 0 => EmptyString
  | S n' => String c (replicate n' c)
  end.

(** A response body of 64 KiB of JSON followed by more. *)
Definition kib64 : string := replicate (64 * 1024) " "%char.
Definition oversized : Response := sample.ok (kib64 ++ "overflow").
Definition oversized_env : Env := sample.env oversized sample.callback.
(** One of 64 KiB and no more. *)
Definition filled : Response := sample.ok (kib64 ++ "").
Definition filled_env : Env := sample.env filled sample.callback.
Definition token_ep : string := "https://idp.example.com/oauth2/token".

Definition no_roles : error := errorString "invalid saml assertion".
Definition lib_of (ended : option error) (together : bool) : Lib :=
  {| roleDetails := list string;
     RoleDetails := fun s =>
       match s with
       | Some (String _ _) => inr ["arn:aws:iam::111111111111:role/Admin"]
       | _ => inl no_roles
       end;
     Roles := fun rd => rd;
     RoleSessionName := fun a =>
       if String.eqb a "c3RhbGU=" then inl no_roles else inr "alice@example.com";
     oauthToken_t := string;
     json_Unmarshal := fun b =>
       match b with
       | EmptyString => inl (errorString "unexpected end of JSON input")
       | _ => inr "eyJhbGciOi"
       end;
     withBody_withValues := fun req _ _ => req;
     Body_error := fun _ => ended;
     Body_error_with_data := fun _ => together;
     RawStdEncoding_EncodeToString := fun s => s;
     Sprint_d := fun z => match z with Z0 => "0" | Zpos _ => "1" | Zneg _ => "-1" end |}.

(** Bodies that end at their end, and bodies whose connection breaks, the
    error coming with their last bytes. *)
Definition lib : Lib := lib_of None false.
Definition cut_off : error := errorString "unexpected EOF".
Definition torn : Lib := lib_of (Some cut_off) true.

(** [http.DefaultClient] as the program starts. *)
Definition DefaultClient : http_Client := mkClient None None.

(** An OIDC client and a SAML client that has a redirect URI only. *)
Definition oidc : baseClient := sample.base "alice" "s3cret" MfaTypeAuto "" (Some "dmFsaWQ=").
Definition saml_only : baseClient :=
  mkBase (mkOidcCfg (auth (config oidc)) "" "https://app.example.com/callback" ["profile"])
    sample.saml_url "" (mkClient None (Some MemoryJar)) (Some "dmFsaWQ=").
Definition corrupt_env : Env :=
  mkEnv (time_Now clients.login_env) (http_Do clients.login_env)
    (fun _ => inl (errorString "illegal base64 data at input byte 0"))
    (NewDocumentFromReader clients.login_env) (url_Parse clients.login_env)
    (URL_String clients.login_env) (ParseQuery clients.login_env)
    (Values_Encode clients.login_env) (newHttpRequest clients.login_env)
    (http_NewRequest clients.login_env) (checkResponseError clients.login_env).

End more.

Module more2.
Import external.
(** An environment whose [url.Parse] reads an [ftp] URL. *)
Definition ftp_url : URL := mkURL "ftp" "idp.example.com" "/saml" "" "".
Definition ftp_env : Env :=
  mkEnv (time_Now clients.login_env) (http_Do clients.login_env)
    (ExpiresAt clients.login_env) (NewDocumentFromReader clients.login_env)
    (fun s => if String.eqb s "ftp://idp.example.com/saml" then inr ftp_url
              else url_Parse clients.login_env s)
    (URL_String clients.login_env) (ParseQuery clients.login_env)
    (Values_Encode clients.login_env) (newHttpRequest clients.login_env)
    (http_NewRequest clients.login_env) (checkResponseError clients.login_env).
Definition stdinMfa : history -> string * option error := fun _ => ("123456", None).
Definition stdinCredentials : history -> string -> string -> string * string * option error :=
  fun _ _ _ => ("alice", "s3cret", None).
End more2.

(** ** Statements about the factory's clients *)

(** The caches behind a credential object, and those a client was given:
    its own and those of the clients it draws its credentials from. *)
Definition credentialCaches (c : option client.Credentials) : list client.CredentialCacher :=
  match c with
  | Some (client.NewCredentials_saml p) =>
      match client.SamlRoleProvider.Cache p with Some k => [k] | None => [] end
  | Some (client.NewCredentials_web p) =>
      match client.WebRoleProvider.Cache p with Some k => [k] | None => [] end
  | Some (client.sessionTokenCredentials _ cfg) =>
      match client.SessionTokenClientConfig.Cache cfg with Some k => [k] | None => [] end
  | None => []
  end.

Definition clientCaches (cl : client.AwsClient) : list client.CredentialCacher :=
  match cl with
  | client.SamlRole c =>
      match client.SamlRoleProvider.Cache (client.samlRoleClient.roleProvider c) with
      | Some k => [k]
      | None => []
      end
  | client.WebRole c =>
      match client.WebRoleProvider.Cache (client.webRoleClient.roleProvider c) with
      | Some k => [k]
      | None => []
      end
  | client.AssumeRole c =>
      match client.AssumeRoleClientConfig.Cache (client.assumeRoleClient.clientCfg c) with
      | Some k => [k]
      | None => []
      end ++ credentialCaches (client.Config_Credentials (client.assumeRoleClient.session c))
  | client.SessionToken c =>
      match client.SessionTokenClientConfig.Cache (client.sessionTokenClient.clientCfg c) with
      | Some k => [k]
      | None => []
      end
  end.

(** A cache that is a file of the cache directory. *)
Definition inCacheDir (env : client.Env) (k : client.CredentialCacher) : Prop :=
  exists name,
    k = client.NewFileCredentialCache
          (client.filepath_Join env (client.cachePath env) name).

(** The URL whose stored credentials [Get] asks the resolver for. *)
Definition credentialsUrl (cfg : client.AwsConfig.t) : string :=
  if (0 <? String.length (client.AwsConfig.SamlUrl cfg))%nat
  then client.AwsConfig.SamlUrl cfg
  else client.AwsConfig.WebIdentityUrl cfg.

(** The profile of the session a client calls AWS with. *)
Definition sessionProfile (ses : client.Session) : string :=
  client.session_Options.Profile (client.Options_of ses).

Module more3.
Definition no_cache : client.Factory :=
  client.NewClientFactory (client.resolver factory.f)
    (client.Options.mk 0 0 (Some (fun _ => ("123456", None)))
       (fun _ _ _ => ("alice", "s3cret", None)) false None).
Definition failing : client.Factory :=
  client.NewClientFactory (fun _ => inl (errorString "no credentials file"))
    (client.options factory.f).
Definition by_arn : client.AwsConfig.t := factory.cfg factory.target "" "" "" "".
Definition with_source : client.AwsConfig.t :=
  client.AwsConfig.mk "dev" factory.target "us-east-1" "base" "" "" ""
    "arn:aws:iam::111111111111:mfa/alice" "" "auto" "" (12 * factory.hour)%Z
    "" "" "" "" "" "" "" "" "".
End more3.

(** The cookie jars of the identity-provider clients a client answers
    [Identity()] with. *)
Definition identityJars (cl : client.AwsClient) : list (option external.CookieJar) :=
  match cl with
  | client.SamlRole c => [client.SamlClient.jar (client.samlRoleClient.samlClient c)]
  | client.WebRole c => [client.WebClient.jar (client.webRoleClient.webClient c)]
  | client.AssumeRole c =>
      match client.assumeRoleClient.ident c with
      | client.identSaml s => [client.SamlClient.jar s]
      | client.identWeb w => [client.WebClient.jar w]
      | client.awsIdentityClient _ => []
      end
  | client.SessionToken _ => []
  end.

Module more4.
Definition web_plain : client.AwsConfig.t :=
  factory.cfg "dev" factory.target "" "" "https://idp.example.com/oidc".
End more4.

(** ** When [samlRequest] sends its request *)

(** The client holds no assertion that is still good when [samlRequest]
    is called with the history [h]: it holds none, or an empty one, or one
    whose expiry is not after the clock's reading.  [h'] is the history
    when the request is sent: the clock was read in the last case only. *)
Definition sendsRequest (env : external.Env) (c : external.baseClient)
    (h h' : external.history) : Prop :=
  ((external.saml c = None \/ external.saml c = Some "") /\ h' = h)
  \/ (exists a t,
        external.saml c = Some a /\ a <> ""
        /\ external.ExpiresAt env a = inr t
        /\ (t <= external.time_Now env h)%Z
        /\ h' = external.EvNow :: h).
(** * Properties *)

(** ** Splitting strings and parsing ARNs *)

Section Splitting.

Variable sep : ascii.

Lemma free_of_cons c s :
  free_of sep (String c s) -> Ascii.eqb c sep = false /\ free_of sep s.
Proof.
  unfold free_of; simpl. destruct (Ascii.eqb c sep); [discriminate | auto].
Qed.

Lemma length_push c l : l <> [] -> List.length (strings.push c l) = List.length l.
Proof. destruct l; [congruence | reflexivity]. Qed.

Lemma Split_not_nil s : strings.Split s sep <> [].
Proof.
  destruct s as [|c r]; simpl; [discriminate|].
  destruct (Ascii.eqb c sep); [discriminate|].
  destruct (strings.Split r sep); discriminate.
Qed.

Lemma Split_free s : free_of sep s -> strings.Split s sep = [s].
Proof.
  induction s as [|c r IH]; intros Hf; simpl; [reflexivity|].
  apply free_of_cons in Hf as [Hc Hr]. rewrite Hc, (IH Hr). reflexivity.
Qed.

(** What lies before a separator does not change the last piece. *)
Lemma last_Split_app a r d :
  last (strings.Split (a ++ String sep r) sep) d = last (strings.Split r sep) d.
Proof.
  induction a as [|c a IH]; simpl.
  - rewrite Ascii.eqb_refl.
    destruct (strings.Split r sep) eqn:E; [now apply Split_not_nil in E | reflexivity].
  - destruct (Ascii.eqb c sep).
    + rewrite <- IH.
      destruct (strings.Split (a ++ String sep r) sep) eqn:E;
        [now apply Split_not_nil in E | reflexivity].
    + rewrite <- IH.
      assert (Hlen : (2 <= List.length (strings.Split (a ++ String sep r) sep))%nat).
      { clear. induction a as [|c a IH]; simpl.
        - rewrite Ascii.eqb_refl. simpl.
          destruct (strings.Split r sep) eqn:E; [now apply Split_not_nil in E | simpl; lia].
        - destruct (Ascii.eqb c sep); simpl; [lia|].
          rewrite length_push; [exact IH | apply Split_not_nil]. }
      destruct (strings.Split (a ++ String sep r) sep) as [|h [|h' t]];
        simpl in Hlen; try lia. reflexivity.
Qed.

Lemma SplitN_length s n :
  List.length (strings.SplitN s sep (S n)) = Nat.min (S n) (S (strings.Count s sep)).
Proof.
  revert n. induction s as [|c r IH]; intros [|n]; try reflexivity.
  cbn [strings.SplitN strings.Count].
  destruct (Ascii.eqb c sep).
  - cbn [List.length]. rewrite IH. lia.
  - rewrite length_push.
    + apply IH.
    + intros E. specialize (IH (S n)). rewrite E in IH. simpl in IH. lia.
Qed.

Lemma SplitN_free_app a r n :
  free_of sep a ->
  strings.SplitN (a ++ String sep r) sep (S (S n)) = a :: strings.SplitN r sep (S n).
Proof.
  induction a as [|c a IH]; intros Hf.
  - cbn [append strings.SplitN]. now rewrite Ascii.eqb_refl.
  - apply free_of_cons in Hf as [Hc Ha].
    cbn [append strings.SplitN]. rewrite Hc, (IH Ha). reflexivity.
Qed.

End Splitting.

(** [arn.IsARN] is exactly the success of [arn.Parse]. *)
Lemma IsARN_Parse role :
  arn.IsARN role = true -> exists a, arn.Parse role = inr a.
Proof.
  unfold arn.IsARN, arn.Parse. intros H.
  apply andb_true_iff in H as [Hp Hc]. rewrite Hp. cbn [negb].
  apply Nat.leb_le in Hc.
  pose proof (SplitN_length ":"%char role 5) as Hlen.
  change (S 5) with arn.arnSections in Hlen at 1.
  unfold arn.arnDelimiter.
  destruct (strings.SplitN role ":" arn.arnSections)
    as [|x0 [|x1 [|x2 [|x3 [|x4 [|x5 [|x6 t]]]]]]];
    cbn [List.length] in Hlen; unfold arn.arnSections in Hc; simpl in Hc; try lia.
  eexists; reflexivity.
Qed.

(** The sections of an ARN that is written out. *)
Lemma Parse_sections partition service region account resource :
  free_of ":"%char partition -> free_of ":"%char service ->
  free_of ":"%char region -> free_of ":"%char account ->
  arn.Parse ("arn:" ++ partition ++ ":" ++ service ++ ":" ++ region ++ ":"
               ++ account ++ ":" ++ resource)
  = inr (arn.mkARN partition service region account resource).
Proof.
  intros Hp Hs Hr Ha. unfold arn.Parse.
  match goal with
  | |- context [strings.HasPrefix ?s ?p] =>
      replace (strings.HasPrefix s p) with true by reflexivity
  end.
  cbn [negb]. unfold arn.arnDelimiter, arn.arnSections.
  change ("arn:" ++ partition ++ ":" ++ service ++ ":" ++ region ++ ":"
            ++ account ++ ":" ++ resource)
    with ("arn" ++ String ":"
            (partition ++ String ":" (service ++ String ":" (region ++ String ":"
               (account ++ String ":" resource))))).
  rewrite SplitN_free_app by reflexivity.
  rewrite SplitN_free_app by assumption.
  rewrite SplitN_free_app by assumption.
  rewrite SplitN_free_app by assumption.
  rewrite SplitN_free_app by assumption.
  destruct resource; reflexivity.
Qed.

Lemma IsARN_sections partition service region account resource :
  arn.IsARN ("arn:" ++ partition ++ ":" ++ service ++ ":" ++ region ++ ":"
               ++ account ++ ":" ++ resource) = true.
Proof.
  unfold arn.IsARN.
  match goal with
  | |- context [strings.HasPrefix ?s ?p] =>
      replace (strings.HasPrefix s p) with true by reflexivity
  end.
  cbn [andb]. apply Nat.leb_le. unfold arn.arnSections.
  assert (Happ : forall a b, strings.Count (a ++ String ":" b) ":"
                             = S (strings.Count a ":" + strings.Count b ":")).
  { induction a as [|c a IH]; intros b; simpl.
    - reflexivity.
    - rewrite IH. destruct (Ascii.eqb c ":"); lia. }
  change (strings.Count
            ("arn" ++ String ":" (partition ++ String ":" (service ++ String ":"
               (region ++ String ":" (account ++ String ":" resource))))) ":" >= 5)%nat.
  rewrite !Happ. simpl. lia.
Qed.

(** ** The SAML flow of the base client *)

Section SamlFlow.
Import external.

Variable env : Env.

(** [Each] touches no field but [saml]. *)
Lemma set_saml_fold l : forall c x,
  set_saml (fold_left eachInput l c) x = set_saml c x.
Proof.
  induction l as [|s l IH]; intros c x; simpl; [reflexivity|].
  rewrite IH. unfold eachInput. destruct (isSAMLResponse s); reflexivity.
Qed.

(** Inputs of other names leave the client as it is. *)
Lemma fold_no_match l : forall c,
  existsb isSAMLResponse l = false -> fold_left eachInput l c = c.
Proof.
  induction l as [|s l IH]; intros c H; simpl in *; [reflexivity|].
  apply orb_false_iff in H as [Hs Hl].
  unfold eachInput at 2. rewrite Hs. auto.
Qed.

(** The assertion held after [Each] is the value of the last match. *)
Lemma fold_last_match before s after c :
  isSAMLResponse s = true -> existsb isSAMLResponse after = false ->
  fold_left eachInput (before ++ s :: after) c = set_saml c (Some (inputValue s)).
Proof.
  intros Hs Hafter. rewrite fold_left_app. simpl.
  rewrite (fold_no_match _ _ Hafter).
  unfold eachInput at 1. rewrite Hs. apply set_saml_fold.
Qed.

(** The request of [samlRequest], once it is sent and answered. *)
Lemma samlFetch_answered u req res c h :
  newHttpRequest env "GET" (URL_String env u) = inr req ->
  checkResponseError env (http_Do env h (httpClient c) req) = inr res ->
  samlFetch env u (mkSt c h)
  = handleSamlResponse env (Body res) (mkSt c (EvHttpDo (httpClient c) req :: h)).
Proof.
  intros Hreq Hres. unfold samlFetch. rewrite Hreq.
  unfold bind, getClient, Do, getHistory, emit, ret. simpl. rewrite Hres. reflexivity.
Qed.

(** A client that holds no assertion, or an empty one, sends the request. *)
Lemma samlRequest_not_held u c h :
  saml c = None \/ saml c = Some "" ->
  samlRequest env u (mkSt c h) = samlFetch env u (mkSt c h).
Proof.
  intros [H|H]; unfold samlRequest, bind, getClient; simpl; rewrite H; reflexivity.
Qed.

(** So does a client whose held assertion has expired, after it has read
    the clock. *)
Lemma samlRequest_sends u c h h' :
  sendsRequest env c h h' ->
  samlRequest env u (mkSt c h) = samlFetch env u (mkSt c h').
Proof.
  intros [[Hheld ->] | (a & t & Hheld & Hne & Hexp & Hnow & ->)].
  - now apply samlRequest_not_held.
  - unfold samlRequest, bind, getClient. simpl. rewrite Hheld.
    destruct a as [|x a]; [congruence|]. simpl. rewrite Hexp.
    unfold timeNow, bind, getHistory, emit, ret. simpl.
    apply Z.ltb_ge in Hnow. now rewrite Hnow.
Qed.

(** C1, as amended: when the parsed response has an [input] named
    [SAMLResponse], [handleSamlResponse] returns no error and leaves in the
    client the [value] attribute of the LAST such element in document order
    (the empty string when that element has no [value]); every other field
    and the history are as before.  [SamlAssertion()] of a client that
    holds no assertion still good (none, an empty one, or one that has
    expired), whose request is answered with this body, returns exactly
    that value, after one request. *)
Theorem handleSamlResponse_last_match r doc before s after c h :
  NewDocumentFromReader env r = inr doc ->
  Find doc "input" = (before ++ s :: after)%list ->
  isSAMLResponse s = true ->
  existsb isSAMLResponse after = false ->
  handleSamlResponse env r (mkSt c h)
  = Some (None, mkSt (set_saml c (Some (inputValue s))) h)
  /\ forall u req res h',
       sendsRequest env c h h' ->
       newHttpRequest env "GET" (URL_String env u) = inr req ->
       checkResponseError env (http_Do env h' (httpClient c) req) = inr res ->
       Body res = r ->
       SamlAssertion env u (mkSt c h)
       = Some ((Some (inputValue s), None),
               mkSt (set_saml c (Some (inputValue s)))
                    (EvHttpDo (httpClient c) req :: h'))
       /\ saml (set_saml c (Some (inputValue s))) = Some (inputValue s).
Proof.
  intros Hdoc Hfind Hs Hafter.
  assert (Hh : forall h', handleSamlResponse env r (mkSt c h')
                          = Some (None, mkSt (set_saml c (Some (inputValue s))) h')).
  { intros h'. unfold handleSamlResponse. rewrite Hdoc.
    unfold bind, getClient, putClient, ret. simpl.
    rewrite Hfind, (fold_last_match before s after c Hs Hafter). reflexivity. }
  split; [apply Hh|].
  intros u req res h' Hsends Hreq Hres Hbody.
  split; [|reflexivity].
  unfold SamlAssertion, bind.
  rewrite (samlRequest_sends u Hsends), (samlFetch_answered u c h' Hreq Hres).
  rewrite Hbody, Hh. reflexivity.
Qed.

(** C5, as amended: a client that holds no assertion, or an empty one, and
    gets a response whose parsed body has no [input] named [SAMLResponse]
    ends [samlRequest] with a nil error, after one request, holding what it
    held; [SamlAssertion()] returns that nil or empty assertion and a nil
    error. *)
Theorem samlRequest_without_SAMLResponse u req res doc c h :
  saml c = None \/ saml c = Some "" ->
  newHttpRequest env "GET" (URL_String env u) = inr req ->
  checkResponseError env (http_Do env h (httpClient c) req) = inr res ->
  NewDocumentFromReader env (Body res) = inr doc ->
  existsb isSAMLResponse (Find doc "input") = false ->
  samlRequest env u (mkSt c h)
  = Some (None, mkSt c (EvHttpDo (httpClient c) req :: h))
  /\ SamlAssertion env u (mkSt c h)
     = Some ((saml c, None), mkSt c (EvHttpDo (httpClient c) req :: h)).
Proof.
  intros Hheld Hreq Hres Hdoc Hnone.
  assert (Hr : samlRequest env u (mkSt c h)
               = Some (None, mkSt c (EvHttpDo (httpClient c) req :: h))).
  { rewrite (samlRequest_not_held u c h Hheld), (samlFetch_answered u c h Hreq Hres).
    unfold handleSamlResponse. rewrite Hdoc.
    unfold bind, getClient, putClient, ret. simpl.
    rewrite (fold_no_match _ _ Hnone). reflexivity. }
  split; [exact Hr|].
  unfold SamlAssertion, bind. rewrite Hr. reflexivity.
Qed.

(** C6: a client that holds a non-empty assertion whose expiry is after the
    clock's reading at each call runs [samlRequest] twice with no error,
    with no HTTP request (the history gains the two clock readings only)
    and with the client unchanged; both calls of [SamlAssertion()] return the
    held assertion. *)
Theorem samlRequest_twice_still_valid u c h a t :
  saml c = Some a ->
  a <> "" ->
  ExpiresAt env a = inr t ->
  (time_Now env h < t)%Z ->
  (time_Now env (EvNow :: h) < t)%Z ->
  let st1 := mkSt c (EvNow :: h) in
  let st2 := mkSt c (EvNow :: EvNow :: h) in
  samlRequest env u (mkSt c h) = Some (None, st1)
  /\ samlRequest env u st1 = Some (None, st2)
  /\ requests (hist st2) = requests h
  /\ SamlAssertion env u (mkSt c h) = Some ((Some a, None), st1)
  /\ SamlAssertion env u st1 = Some ((Some a, None), st2).
Proof.
  intros Hheld Hne Hexp Hnow1 Hnow2 st1 st2.
  assert (Hlen : (0 <? String.length a)%nat = true).
  { destruct a; [congruence | reflexivity]. }
  assert (Hcall : forall h', (time_Now env h' < t)%Z ->
            samlRequest env u (mkSt c h') = Some (None, mkSt c (EvNow :: h'))).
  { intros h' Hnow. unfold samlRequest, bind, getClient. simpl.
    rewrite Hheld, Hlen, Hexp.
    unfold timeNow, bind, getHistory, emit, ret. simpl.
    apply Z.ltb_lt in Hnow. rewrite Hnow. reflexivity. }
  pose proof (Hcall h Hnow1) as H1. pose proof (Hcall (EvNow :: h) Hnow2) as H2.
  repeat split; try assumption.
  - unfold SamlAssertion, bind. rewrite H1. unfold getClient. simpl. now rewrite Hheld.
  - unfold SamlAssertion, bind. unfold st1. rewrite H2. unfold getClient. simpl.
    now rewrite Hheld.
Qed.

End SamlFlow.

(** C1, the claim as stated fails: the sample page has two [input]s named
    [SAMLResponse]; the first has the value [Rmlyc3Q=], and
    [handleSamlResponse] leaves the value of the second in the client. *)
Lemma handleSamlResponse_first_match_counterexample :
  external.NewDocumentFromReader clients.two_inputs_env sample.two_inputs_body
  = inr sample.two_inputs_doc
  /\ external.Find sample.two_inputs_doc "input" = [sample.first_input; sample.second_input]
  /\ external.isSAMLResponse sample.first_input = true
  /\ external.isSAMLResponse sample.second_input = true
  /\ external.inputValue sample.first_input = "Rmlyc3Q="
  /\ external.handleSamlResponse clients.two_inputs_env sample.two_inputs_body
       (external.mkSt clients.fresh [])
     = Some (None, external.mkSt (external.set_saml clients.fresh (Some "U2Vjb25k")) [])
  /\ Some "U2Vjb25k" <> Some (external.inputValue sample.first_input).
Proof.
  repeat split; try reflexivity. discriminate.
Qed.

Lemma handleSamlResponse_last_match_witness :
  external.handleSamlResponse clients.two_inputs_env sample.two_inputs_body
    (external.mkSt clients.fresh [])
  = Some (None, external.mkSt (external.set_saml clients.fresh (Some "U2Vjb25k")) [])
  /\ external.SamlAssertion clients.two_inputs_env sample.saml_url
       (external.mkSt clients.fresh [])
     = Some ((Some "U2Vjb25k", None),
             external.mkSt (external.set_saml clients.fresh (Some "U2Vjb25k"))
               [external.EvHttpDo (external.httpClient clients.fresh) sample.saml_request])
  /\ external.SamlAssertion clients.two_inputs_env sample.saml_url
       (external.mkSt clients.stale [])
     = Some ((Some "U2Vjb25k", None),
             external.mkSt (external.set_saml clients.stale (Some "U2Vjb25k"))
               [external.EvHttpDo (external.httpClient clients.stale) sample.saml_request;
                external.EvNow])
  /\ external.saml (external.set_saml clients.stale (Some "U2Vjb25k")) = Some "U2Vjb25k".
Proof.
  destruct (handleSamlResponse_last_match clients.two_inputs_env
              sample.two_inputs_body (doc := sample.two_inputs_doc)
              [sample.first_input] sample.second_input [] clients.fresh []
              eq_refl eq_refl eq_refl eq_refl) as [H1 H2].
  destruct (handleSamlResponse_last_match clients.two_inputs_env
              sample.two_inputs_body (doc := sample.two_inputs_doc)
              [sample.first_input] sample.second_input [] clients.stale []
              eq_refl eq_refl eq_refl eq_refl) as [_ H3].
  split; [exact H1|]. split; [|split].
  - refine (proj1 (H2 sample.saml_url sample.saml_request (sample.ok sample.two_inputs_body)
                     [] _ eq_refl eq_refl eq_refl)).
    left. split; [left; reflexivity | reflexivity].
  - refine (proj1 (H3 sample.saml_url sample.saml_request (sample.ok sample.two_inputs_body)
                     [external.EvNow] _ eq_refl eq_refl eq_refl)).
    right. exists "c3RhbGU=", 100%Z.
    repeat split; try reflexivity; [discriminate | intros H; discriminate H].
  - reflexivity.
Defined.

(** C5, the claim as stated fails: the client holds an assertion that
    expired at 100 when the clock reads 200, so it holds no valid
    assertion; the response is a login page without any [SAMLResponse]
    input; [samlRequest] returns nil and leaves the expired assertion in
    the client, and [SamlAssertion()] returns it: it is not empty. *)
Lemma samlRequest_expired_counterexample :
  external.saml clients.stale = Some "c3RhbGU="
  /\ external.ExpiresAt clients.login_env "c3RhbGU=" = inr 100%Z
  /\ external.time_Now clients.login_env [] = 200%Z
  /\ external.NewDocumentFromReader clients.login_env sample.login_body = inr sample.login_doc
  /\ existsb external.isSAMLResponse (external.Find sample.login_doc "input") = false
  /\ external.samlRequest clients.login_env sample.saml_url (external.mkSt clients.stale [])
     = Some (None,
             external.mkSt clients.stale
               [external.EvHttpDo (external.httpClient clients.stale) sample.saml_request;
                external.EvNow])
  /\ external.SamlAssertion clients.login_env sample.saml_url (external.mkSt clients.stale [])
     = Some ((Some "c3RhbGU=", None),
             external.mkSt clients.stale
               [external.EvHttpDo (external.httpClient clients.stale) sample.saml_request;
                external.EvNow])
  /\ Some "c3RhbGU=" <> Some ""
  /\ Some "c3RhbGU=" <> @None string.
Proof.
  repeat split; try reflexivity; discriminate.
Qed.

Lemma samlRequest_without_SAMLResponse_witness :
  external.samlRequest clients.login_env sample.saml_url (external.mkSt clients.fresh [])
  = Some (None, external.mkSt clients.fresh
                  [external.EvHttpDo (external.httpClient clients.fresh) sample.saml_request])
  /\ external.SamlAssertion clients.login_env sample.saml_url (external.mkSt clients.fresh [])
     = Some ((None, None),
             external.mkSt clients.fresh
               [external.EvHttpDo (external.httpClient clients.fresh) sample.saml_request]).
Proof.
  exact (samlRequest_without_SAMLResponse clients.login_env sample.saml_url
           (req := sample.saml_request) (res := sample.ok sample.login_body)
           (doc := sample.login_doc) clients.fresh []
           (or_introl eq_refl) eq_refl eq_refl eq_refl eq_refl).
Defined.

Lemma samlRequest_twice_still_valid_witness :
  external.samlRequest clients.login_env sample.saml_url (external.mkSt clients.valid [])
  = Some (None, external.mkSt clients.valid [external.EvNow])
  /\ external.samlRequest clients.login_env sample.saml_url
       (external.mkSt clients.valid [external.EvNow])
     = Some (None, external.mkSt clients.valid [external.EvNow; external.EvNow])
  /\ requests [external.EvNow; external.EvNow] = requests []
  /\ external.SamlAssertion clients.login_env sample.saml_url (external.mkSt clients.valid [])
     = Some ((Some "dmFsaWQ=", None), external.mkSt clients.valid [external.EvNow])
  /\ external.SamlAssertion clients.login_env sample.saml_url
       (external.mkSt clients.valid [external.EvNow])
     = Some ((Some "dmFsaWQ=", None),
             external.mkSt clients.valid [external.EvNow; external.EvNow]).
Proof.
  apply (samlRequest_twice_still_valid clients.login_env sample.saml_url
           clients.valid [] (a := "dmFsaWQ=") (t := 1000%Z) eq_refl).
  - discriminate.
  - reflexivity.
  - reflexivity.
  - reflexivity.
Defined.

(** ** Gathering credentials *)

Lemma length_lt_1 s : (String.length s <? 1)%nat = true <-> s = "".
Proof.
  destruct s; simpl; split; intros H; try reflexivity; discriminate.
Qed.

Lemma length_lt_1_false s : s <> "" -> (String.length s <? 1)%nat = false.
Proof. destruct s; [congruence | reflexivity]. Qed.

(** C9: with a username and a password, and an MFA type other than
    ["code"] or an MFA code, [gatherCredentials] returns no error and
    leaves the client and the history as they are: no provider is called.
    When the username or the password is empty, the credential-input
    provider is called once, with the two values held: on an error that
    error is returned and the client is unchanged, otherwise both values it
    returns are stored. *)
Theorem gatherCredentials_idempotent (c : external.baseClient) (h : external.history) :
  let a := external.auth (external.config c) in
  (external.Username a <> "" -> external.Password a <> "" ->
   external.MfaType a <> external.MfaTypeCode \/ external.MfaTokenCode a <> "" ->
   external.gatherCredentials (external.mkSt c h) = Some (None, external.mkSt c h))
  /\ (external.Username a = "" \/ external.Password a = "" ->
      let asked := external.EvCredentialInput (external.Username a) (external.Password a) in
      forall u' p' r,
        external.CredentialInputProvider a h (external.Username a) (external.Password a)
        = (u', p', r) ->
        match r with
        | Some err =>
            external.gatherCredentials (external.mkSt c h)
            = Some (Some err, external.mkSt c (asked :: h))
        | None =>
            exists res st,
              external.gatherCredentials (external.mkSt c h) = Some (res, st)
              /\ external.Username (external.auth (external.config (external.client st))) = u'
              /\ external.Password (external.auth (external.config (external.client st))) = p'
              /\ credentialInputs (external.hist st) = S (credentialInputs h)
              /\ (external.hist st = asked :: h
                  \/ external.hist st = external.EvMfaToken :: asked :: h)
        end).
Proof.
  intros a. subst a. split.
  - intros Hu Hp Hm.
    unfold external.gatherCredentials, external.bind, external.getClient. simpl.
    rewrite (length_lt_1_false Hu), (length_lt_1_false Hp). simpl.
    destruct (external.MfaTokenProvider (external.auth (external.config c))); [|reflexivity].
    destruct Hm as [Hm|Hm].
    + apply String.eqb_neq in Hm. rewrite Hm. reflexivity.
    + rewrite (length_lt_1_false Hm), andb_false_r. reflexivity.
  - intros Hmiss asked u' p' r Hprov.
    assert (Hcond : ((String.length (external.Username (external.auth (external.config c))) <? 1)%nat
                     || (String.length (external.Password (external.auth (external.config c))) <? 1)%nat)
                    = true).
    { apply orb_true_iff. destruct Hmiss as [H|H]; [left|right]; now apply length_lt_1. }
    unfold external.gatherCredentials, external.bind, external.getClient. simpl.
    rewrite Hcond.
    unfold external.getHistory, external.emit, external.bind. simpl.
    rewrite Hprov. destruct r as [err|]; [reflexivity|].
    unfold external.putClient, external.ret. simpl.
    destruct (external.MfaTokenProvider (external.auth (external.config c))) as [provider|].
    + destruct (String.eqb (external.MfaType (external.auth (external.config c)))
                  external.MfaTypeCode
                && (String.length (external.MfaTokenCode (external.auth (external.config c))) <? 1)%nat).
      * simpl. destruct (provider _) as [m' [err|]]; simpl;
          do 2 eexists; (split; [reflexivity|]); simpl; auto.
      * do 2 eexists; (split; [reflexivity|]); simpl; auto.
    + do 2 eexists; (split; [reflexivity|]); simpl; auto.
Qed.

Lemma gatherCredentials_idempotent_witness :
  external.gatherCredentials (external.mkSt clients.fresh [])
  = Some (None, external.mkSt clients.fresh [])
  /\ external.gatherCredentials (external.mkSt sample.base_closed [])
     = Some (Some sample.input_closed,
             external.mkSt sample.base_closed [external.EvCredentialInput "" ""])
  /\ exists res st,
       external.gatherCredentials
         (external.mkSt (sample.base "" "" external.MfaTypeCode "" None) []) = Some (res, st)
       /\ external.Username (external.auth (external.config (external.client st))) = "alice"
       /\ external.Password (external.auth (external.config (external.client st))) = "s3cret"
       /\ credentialInputs (external.hist st) = 1
       /\ (external.hist st = [external.EvCredentialInput "" ""]
           \/ external.hist st = [external.EvMfaToken; external.EvCredentialInput "" ""]).
Proof.
  split; [|split].
  - apply (proj1 (gatherCredentials_idempotent clients.fresh [])).
    + discriminate.
    + discriminate.
    + left; discriminate.
  - exact (proj2 (gatherCredentials_idempotent sample.base_closed [])
             (or_introl eq_refl) "" "" (Some sample.input_closed) eq_refl).
  - exact (proj2 (gatherCredentials_idempotent
                    (sample.base "" "" external.MfaTypeCode "" None) [])
             (or_introl eq_refl) "alice" "s3cret" None eq_refl).
Defined.

(** ** The authorize step of OAuth *)

Lemma HasPrefix_app p rest : strings.HasPrefix (p ++ rest) p = true.
Proof.
  induction p as [|a p IH]; simpl; [reflexivity|].
  now rewrite Ascii.eqb_refl, IH.
Qed.

Lemma HasPrefix_true s p : strings.HasPrefix s p = true -> exists rest, s = p ++ rest.
Proof.
  revert s. induction p as [|a p IH]; intros s H; simpl in *.
  - now exists s.
  - destruct s as [|b s]; [discriminate|].
    apply andb_true_iff in H as [Hab Hp]. apply Ascii.eqb_eq in Hab. subst b.
    destruct (IH s Hp) as [rest ->]. now exists rest.
Qed.

(** C3: [oauthAuthorize] follows redirects and the request fails.  If the
    failure is a [url.Error] whose URL starts with the client's redirect
    URI, the result is the query of that URL, as [url.Parse] reads it, and
    no error.  A [url.Error] whose URL does not start with it, or an error
    of another kind, is returned as the error, with no values. *)
Theorem oauthAuthorize_redirect_error (env : external.Env) (c : external.baseClient)
    (h : external.history) (ep : string) (data : external.Values)
    (u : external.URL) (req : external.Request) (err : error) :
  external.url_Parse env ep = inr u ->
  external.http_NewRequest env "GET"
    (external.URL_String env (external.set_RawQuery u (external.Values_Encode env data)))
  = inr req ->
  external.http_Do env h (external.oauthHttpClient c true) req = inl err ->
  let redirect := external.RedirectUri (external.config c) in
  let st' := external.mkSt c (external.EvHttpDo (external.oauthHttpClient c true) req :: h) in
  (forall op rest e redirUri,
     err = url_Error op (redirect ++ rest) e ->
     external.url_Parse env (redirect ++ rest) = inr redirUri ->
     external.oauthAuthorize env ep data true (external.mkSt c h)
     = Some ((Some (external.Query env redirUri), None), st'))
  /\ (forall op eURL e,
        err = url_Error op eURL e ->
        (forall rest, eURL <> redirect ++ rest) ->
        external.oauthAuthorize env ep data true (external.mkSt c h)
        = Some ((None, Some err), st'))
  /\ ((forall op eURL e, err <> url_Error op eURL e) ->
      external.oauthAuthorize env ep data true (external.mkSt c h)
      = Some ((None, Some err), st')).
Proof.
  intros Hep Hreq Hdo redirect st'.
  assert (Hrun : forall k,
            external.oauthAuthorize env ep data true (external.mkSt c h)
            = k ->
            k = match err with
                | url_Error _ eURL _ =>
                    if strings.HasPrefix eURL redirect then
                      match external.url_Parse env eURL with
                      | inr redirUri => Some ((Some (external.Query env redirUri), None), st')
                      | inl _ => None
                      end
                    else Some ((None, Some err), st')
                | _ => Some ((None, Some err), st')
                end).
  { intros k <-.
    unfold external.oauthAuthorize, external.bind, external.getClient.
    cbn -[external.oauthHttpClient]. rewrite Hep, Hreq.
    unfold external.Do, external.bind, external.getHistory, external.emit, external.ret.
    cbn -[external.oauthHttpClient]. rewrite Hdo.
    destruct err as [s|op eURL e|f e]; try reflexivity.
    fold redirect. destruct (strings.HasPrefix eURL redirect); [|reflexivity].
    destruct (external.url_Parse env eURL); reflexivity. }
  repeat split.
  - intros op rest e redirUri -> Hparse.
    rewrite (Hrun _ eq_refl), HasPrefix_app, Hparse. reflexivity.
  - intros op eURL e -> Hno.
    rewrite (Hrun _ eq_refl).
    destruct (strings.HasPrefix eURL redirect) eqn:Hp; [|reflexivity].
    apply HasPrefix_true in Hp as [rest Hrest]. now apply Hno in Hrest.
  - intros Hother. rewrite (Hrun _ eq_refl).
    destruct err as [s|op eURL e|f e]; try reflexivity.
    now contradiction (Hother op eURL e).
Qed.

Lemma oauthAuthorize_redirect_error_witness :
  external.oauthAuthorize clients.login_env sample.authorize_ep sample.authorize_data true
    (external.mkSt clients.fresh [])
  = Some ((Some [("code", ["abc"]); ("state", ["xyz"])], None),
          external.mkSt clients.fresh
            [external.EvHttpDo (external.httpClient clients.fresh) sample.authorize_request])
  /\ external.oauthAuthorize clients.denied_env sample.authorize_ep sample.authorize_data true
       (external.mkSt clients.fresh [])
     = Some ((None, Some (url_Error "Get" sample.elsewhere sample.no_host)),
             external.mkSt clients.fresh
               [external.EvHttpDo (external.httpClient clients.fresh) sample.authorize_request]).
Proof.
  split.
  - exact (proj1 (oauthAuthorize_redirect_error clients.login_env clients.fresh []
                    sample.authorize_ep sample.authorize_data
                    (u := external.mkURL "https" "idp.example.com" "/oauth2/authorize" "" "")
                    (req := sample.authorize_request)
                    (err := url_Error "Get" sample.callback sample.no_host)
                    eq_refl eq_refl eq_refl)
             "Get" "?code=abc&state=xyz" sample.no_host sample.callback_url
             eq_refl eq_refl).
  - refine (proj1 (proj2 (oauthAuthorize_redirect_error clients.denied_env clients.fresh []
                    sample.authorize_ep sample.authorize_data
                    (u := external.mkURL "https" "idp.example.com" "/oauth2/authorize" "" "")
                    (req := sample.authorize_request)
                    (err := url_Error "Get" sample.elsewhere sample.no_host)
                    eq_refl eq_refl eq_refl))
             "Get" sample.elsewhere sample.no_host eq_refl _).
    intros rest H. vm_compute in H. discriminate H.
Defined.

(** ** Cache file names *)

(** C8: the file name is the cache directory joined with the prefix, an
    underscore and the key.  With an empty profile and a role that is an
    ARN the key is the ARN's account id, a hyphen and the last piece
    between slashes of the ARN's resource; this is stated on the result of
    [arn.Parse] and on an ARN written out section by section.  With a
    profile that is not empty the key is the profile. *)
Theorem cacheFileName_key (env : client.Env) (prefix profile role : string) :
  client.cacheFileName env prefix profile role
  = client.filepath_Join env (client.cachePath env)
      (prefix ++ "_" ++ client.cacheKey profile role)
  /\ (profile = "" -> arn.IsARN role = true ->
      exists a, arn.Parse role = inr a
        /\ client.cacheKey profile role
           = arn.AccountID a ++ "-" ++ last (strings.Split (arn.Resource a) "/"%char) "")
  /\ (forall partition service region account dir segment,
        profile = "" ->
        free_of ":"%char partition -> free_of ":"%char service ->
        free_of ":"%char region -> free_of ":"%char account ->
        free_of "/"%char segment ->
        role = "arn:" ++ partition ++ ":" ++ service ++ ":" ++ region ++ ":"
                 ++ account ++ ":" ++ segment
        \/ role = "arn:" ++ partition ++ ":" ++ service ++ ":" ++ region ++ ":"
                    ++ account ++ ":" ++ dir ++ "/" ++ segment ->
        client.cacheKey profile role = account ++ "-" ++ segment)
  /\ (profile <> "" -> client.cacheKey profile role = profile).
Proof.
  split; [reflexivity|]. split; [|split].
  - intros -> Harn. destruct (IsARN_Parse role Harn) as [a Ha].
    exists a. split; [exact Ha|].
    unfold client.cacheKey. rewrite Harn, Ha. reflexivity.
  - intros partition service region account dir segment -> Hp Hs Hr Ha Hseg Hrole.
    unfold client.cacheKey. cbn [String.length Nat.ltb Nat.leb andb].
    destruct Hrole as [-> | ->].
    + rewrite IsARN_sections, (Parse_sections _ Hp Hs Hr Ha).
      cbn [arn.Resource arn.AccountID].
      rewrite (Split_free Hseg). reflexivity.
    + rewrite IsARN_sections, (Parse_sections _ Hp Hs Hr Ha).
      cbn [arn.Resource arn.AccountID].
      change (dir ++ "/" ++ segment) with (dir ++ String "/" segment).
      rewrite last_Split_app, (Split_free Hseg). reflexivity.
  - intros Hne. unfold client.cacheKey.
    rewrite (length_lt_1_false Hne). reflexivity.
Qed.

Lemma cacheFileName_key_witness :
  client.cacheFileName (factory.env (None, None) factory.hour) ".aws_saml_role" "" factory.jump
  = "/home/alice/.aws/.aws_saml_role_111111111111-Jump"
  /\ client.cacheKey "" "arn:aws:iam::111111111111:role/ops/team/Jump" = "111111111111-Jump"
  /\ client.cacheKey "" "arn:aws:sts::111111111111:assumed-role" = "111111111111-assumed-role"
  /\ client.cacheKey "dev" factory.jump = "dev".
Proof.
  split; [|split; [|split]].
  - exact (proj1 (cacheFileName_key (factory.env (None, None) factory.hour)
                    ".aws_saml_role" "" factory.jump)).
  - refine (proj1 (proj2 (proj2 (cacheFileName_key (factory.env (None, None) factory.hour)
                    "" "" "arn:aws:iam::111111111111:role/ops/team/Jump")))
              "aws" "iam" "" "111111111111" "role/ops/team" "Jump"
              eq_refl eq_refl eq_refl eq_refl eq_refl eq_refl (or_intror eq_refl)).
  - refine (proj1 (proj2 (proj2 (cacheFileName_key (factory.env (None, None) factory.hour)
                    "" "" "arn:aws:sts::111111111111:assumed-role")))
              "aws" "sts" "" "111111111111" "" "assumed-role"
              eq_refl eq_refl eq_refl eq_refl eq_refl eq_refl (or_introl eq_refl)).
  - apply (proj2 (proj2 (proj2 (cacheFileName_key (factory.env (None, None) factory.hour)
                    "" "dev" factory.jump)))).
    discriminate.
Defined.

(** ** The factory *)

Section Factory.
Import client.

Variable env : Env.
Variable f : Factory.

Lemma IsARN_not_empty s : arn.IsARN s = true -> s <> "".
Proof. intros H ->. discriminate H. Qed.

Lemma not_empty_length s : s <> "" -> (0 <? String.length s)%nat = true.
Proof. destruct s; [congruence | reflexivity]. Qed.

(** The first step of [Get] changes the role ARN and the profile name only. *)
Lemma profileAsRole_others cfg :
  AwsConfig.SamlUrl (profileAsRole cfg) = AwsConfig.SamlUrl cfg
  /\ AwsConfig.WebIdentityUrl (profileAsRole cfg) = AwsConfig.WebIdentityUrl cfg
  /\ AwsConfig.JumpRoleArn (profileAsRole cfg) = AwsConfig.JumpRoleArn cfg.
Proof.
  unfold profileAsRole. destruct (arn.IsARN (AwsConfig.ProfileName cfg)); auto.
Qed.

Lemma profileAsRole_RoleArn cfg :
  AwsConfig.RoleArn cfg <> "" -> AwsConfig.RoleArn (profileAsRole cfg) <> "".
Proof.
  unfold profileAsRole. destruct (arn.IsARN (AwsConfig.ProfileName cfg)) eqn:E; [|auto].
  intros _. simpl. now apply IsARN_not_empty.
Qed.

(** [Get] on a valid configuration, as the choice between the four
    builders. *)
Lemma Get_valid cfg :
  Validate env cfg = None ->
  let cfg' := profileAsRole cfg in
  Get env f (Some cfg)
  = (Some cfg',
     if (0 <? String.length (AwsConfig.SamlUrl cfg))%nat then
       samlClient env f cfg' (resolveCredentials env f (AwsConfig.SamlUrl cfg))
         (sessionOptions f cfg')
     else if (0 <? String.length (AwsConfig.WebIdentityUrl cfg))%nat then
       webClient env f cfg' (resolveCredentials env f (AwsConfig.WebIdentityUrl cfg))
         (sessionOptions f cfg')
     else if (0 <? String.length (AwsConfig.RoleArn cfg'))%nat then
       (Some (AssumeRole (roleClient env f cfg' (sessionOptions f cfg'))), None)
     else (Some (SessionToken (sessionClient env f cfg' (sessionOptions f cfg'))), None)).
Proof.
  intros Hv cfg'. subst cfg'. unfold Get. rewrite Hv.
  destruct (profileAsRole_others cfg) as (-> & -> & _). reflexivity.
Qed.

(** Without a jump role [samlClient] returns a SAML-role client, whatever
    the identity provider answers. *)
Lemma samlClient_plain cfg creds opts :
  AwsConfig.JumpRoleArn cfg = "" ->
  exists cl, samlClient env f cfg creds opts = (Some (SamlRole cl), None)
    /\ samlRoleClient.samlClient cl
       = SamlClient.SetCookieJar
           (SamlClient.MustGetSamlClient (AwsConfig.SamlProvider cfg)
              (AwsConfig.SamlUrl cfg) (samlAuthConfig env f cfg creds))
           (cookieJar env)
    /\ SamlRoleProvider.samlAssertion (samlRoleClient.roleProvider cl)
       = fst (SamlAssertion env (samlRoleClient.samlClient cl))
    /\ SamlRoleProvider.RoleArn (samlRoleClient.roleProvider cl) = AwsConfig.RoleArn cfg.
Proof.
  intros Hj. unfold samlClient. rewrite Hj. cbn [String.length Nat.ltb Nat.leb].
  destruct (Options.EnableCache (options f)); cbn;
    match goal with
    | |- context [SamlAssertion env ?c] => destruct (SamlAssertion env c) as [saml e] eqn:E
    end; eexists; (split; [reflexivity|]); cbn; rewrite ?E; auto.
Qed.

Lemma webClient_plain cfg creds opts :
  AwsConfig.JumpRoleArn cfg = "" ->
  exists cl, webClient env f cfg creds opts = (Some (WebRole cl), None).
Proof.
  intros Hj. unfold webClient. rewrite Hj. cbn [String.length Nat.ltb Nat.leb].
  eexists; reflexivity.
Qed.

(** C4: on a valid configuration [Get] first turns a profile name that is
    an ARN into the role ARN and clears the profile name, then takes the
    first of: [samlClient] when [SamlUrl] is not empty, [webClient] when
    [WebIdentityUrl] is not empty, [roleClient] when the role ARN is not
    empty, [sessionClient].  Without a jump role the first two return a
    SAML-role client and a Web-role client. *)
Theorem Get_decision (cfg : AwsConfig.t) :
  Validate env cfg = None ->
  let cfg' := profileAsRole cfg in
  let opts := sessionOptions f cfg' in
  let result := snd (Get env f (Some cfg)) in
  fst (Get env f (Some cfg)) = Some cfg'
  /\ (arn.IsARN (AwsConfig.ProfileName cfg) = true ->
      AwsConfig.RoleArn cfg' = AwsConfig.ProfileName cfg
      /\ AwsConfig.ProfileName cfg' = "")
  /\ (arn.IsARN (AwsConfig.ProfileName cfg) = false -> cfg' = cfg)
  /\ (AwsConfig.SamlUrl cfg <> "" ->
      result = samlClient env f cfg' (resolveCredentials env f (AwsConfig.SamlUrl cfg)) opts
      /\ (AwsConfig.JumpRoleArn cfg = "" -> exists cl, result = (Some (SamlRole cl), None)))
  /\ (AwsConfig.SamlUrl cfg = "" -> AwsConfig.WebIdentityUrl cfg <> "" ->
      result = webClient env f cfg' (resolveCredentials env f (AwsConfig.WebIdentityUrl cfg)) opts
      /\ (AwsConfig.JumpRoleArn cfg = "" -> exists cl, result = (Some (WebRole cl), None)))
  /\ (AwsConfig.SamlUrl cfg = "" -> AwsConfig.WebIdentityUrl cfg = "" ->
      AwsConfig.RoleArn cfg' <> "" ->
      result = (Some (AssumeRole (roleClient env f cfg' opts)), None))
  /\ (AwsConfig.SamlUrl cfg = "" -> AwsConfig.WebIdentityUrl cfg = "" ->
      AwsConfig.RoleArn cfg' = "" ->
      result = (Some (SessionToken (sessionClient env f cfg' opts)), None)).
Proof.
  intros Hv cfg' opts result. subst result.
  rewrite (Get_valid cfg Hv). fold cfg'. fold opts. cbn [fst snd].
  destruct (profileAsRole_others cfg) as (_ & _ & Hjump). fold cfg' in Hjump.
  split; [reflexivity|]. split; [|split; [|split; [|split; [|split]]]].
  - intros Harn. subst cfg'. unfold profileAsRole. rewrite Harn. split; reflexivity.
  - intros Harn. subst cfg'. unfold profileAsRole. now rewrite Harn.
  - intros Hs. rewrite (not_empty_length Hs). split; [reflexivity|].
    intros Hj. rewrite <- Hjump in Hj.
    destruct (samlClient_plain cfg' (resolveCredentials env f (AwsConfig.SamlUrl cfg)) opts Hj)
      as (cl & Hcl & _).
    now exists cl.
  - intros Hs Hw. rewrite Hs, (not_empty_length Hw). cbn [String.length Nat.ltb Nat.leb].
    split; [reflexivity|]. intros Hj. rewrite <- Hjump in Hj.
    now apply webClient_plain.
  - intros Hs Hw Hr. rewrite Hs, Hw, (not_empty_length Hr). reflexivity.
  - intros Hs Hw Hr. rewrite Hs, Hw, Hr. reflexivity.
Qed.

(** C7: with a role credential duration at or below
    [AssumeRoleDurationDefault], [roleClient] returns an Assume-Role client
    for the configured role whose MFA serial number is empty, whose session
    draws its credentials from a Session-Token client built by
    [sessionClient], and whose identity is the identity of that client.  A
    valid configuration without [SamlUrl] and [WebIdentityUrl] and with a
    role ARN gets this client from [Get]. *)
Theorem roleClient_within_default (cfg : AwsConfig.t) :
  (forall opts,
     (RoleCredentialDuration env cfg <= AssumeRoleDurationDefault env)%Z ->
     exists opts',
       let sc := sessionClient env f cfg opts' in
       let cl := roleClient env f cfg opts in
       AssumeRoleClientConfig.SerialNumber (assumeRoleClient.clientCfg cl) = ""
       /\ Config_Credentials (assumeRoleClient.session cl) = Some (sessionTokenClient.creds sc)
       /\ assumeRoleClient.ident cl = sessionTokenClient.ident sc
       /\ AssumeRoleClientConfig.RoleArn (assumeRoleClient.clientCfg cl) = AwsConfig.RoleArn cfg
       /\ sc = NewSessionTokenClient (sessionTokenClient.session sc)
                 (sessionTokenClient.clientCfg sc))
  /\ (Validate env cfg = None ->
      AwsConfig.SamlUrl cfg = "" -> AwsConfig.WebIdentityUrl cfg = "" ->
      AwsConfig.RoleArn cfg <> "" ->
      snd (Get env f (Some cfg))
      = (Some (AssumeRole (roleClient env f (profileAsRole cfg)
                             (sessionOptions f (profileAsRole cfg)))), None)).
Proof.
  split.
  - intros opts Hd. apply Z.leb_le in Hd.
    exists (if (0 <? String.length (AwsConfig.SrcProfile cfg))%nat
            then session_Options.set_Profile opts (AwsConfig.SrcProfile cfg) else opts).
    unfold roleClient. rewrite Hd.
    destruct (0 <? String.length (AwsConfig.SrcProfile cfg))%nat;
      destruct (Options.EnableCache (options f)) eqn:Ec;
      cbn; repeat split; unfold sessionClient; rewrite ?Ec; reflexivity.
  - intros Hv Hs Hw Hr.
    rewrite (Get_valid cfg Hv). cbn [snd].
    rewrite Hs, Hw. change (0 <? String.length "")%nat with false. cbn iota.
    now rewrite (not_empty_length (profileAsRole_RoleArn cfg Hr)).
Qed.

(** The answer of the identity provider decides what [samlClient] returns
    when a jump role is configured. *)
Lemma samlClient_jump cfg creds opts :
  AwsConfig.JumpRoleArn cfg <> "" ->
  let idp := SamlClient.SetCookieJar
               (SamlClient.MustGetSamlClient (AwsConfig.SamlProvider cfg)
                  (AwsConfig.SamlUrl cfg) (samlAuthConfig env f cfg creds))
               (cookieJar env) in
  match SamlAssertion env idp with
  | (_, Some err) => samlClient env f cfg creds opts = (None, Some err)
  | (saml, None) =>
      exists roleCl baseCl,
        samlClient env f cfg creds opts = (Some (AssumeRole roleCl), None)
        /\ assumeRoleClient.ident roleCl = samlRoleClient.ident baseCl
        /\ samlRoleClient.samlClient baseCl = idp
        /\ SamlRoleProvider.RoleArn (samlRoleClient.roleProvider baseCl)
           = AwsConfig.JumpRoleArn cfg
        /\ SamlRoleProvider.samlAssertion (samlRoleClient.roleProvider baseCl) = saml
        /\ Config_Credentials (assumeRoleClient.session roleCl)
           = Some (NewCredentials_saml (samlRoleClient.roleProvider baseCl))
        /\ AssumeRoleClientConfig.RoleArn (assumeRoleClient.clientCfg roleCl)
           = AwsConfig.RoleArn cfg
        /\ AssumeRoleClientConfig.Duration_ (assumeRoleClient.clientCfg roleCl)
           = AssumeRoleDurationDefault env
  end.
Proof.
  intros Hj idp. unfold samlClient. rewrite (not_empty_length Hj).
  destruct (Options.EnableCache (options f)); cbn; fold idp;
    destruct (SamlAssertion env idp) as [saml [err|]]; try reflexivity.
  - eexists.
    eexists (samlRoleClient.mk idp _ (NewSessionWithOptions (session_Options.set_Profile opts ""))).
    split; [reflexivity|]. cbn. repeat split; reflexivity.
  - eexists.
    eexists (samlRoleClient.mk idp _ (NewSessionWithOptions (session_Options.set_Profile opts ""))).
    split; [reflexivity|]. cbn. repeat split; reflexivity.
Qed.

(** C2: for a configuration with [SamlUrl] and [JumpRoleArn] set, every
    client [Get] returns is an Assume-Role client for the configured role
    whose identity is that of a SAML-role client built for the jump role:
    its SAML client is the one asked for the initial assertion, and its
    role provider targets the jump role ARN and holds that assertion.  The
    session of the Assume-Role client draws its credentials from this role
    provider, and its duration is [AssumeRoleDurationDefault], so never
    above it, whatever duration the configuration asks for.  [Get] returns
    such a client when the configuration is valid and the initial
    assertion is fetched without an error. *)
Theorem Get_saml_jump_role (cfg : AwsConfig.t) :
  AwsConfig.SamlUrl cfg <> "" ->
  AwsConfig.JumpRoleArn cfg <> "" ->
  let idp := initialSamlClient env f (profileAsRole cfg) in
  (forall cl,
     snd (Get env f (Some cfg)) = (Some cl, None) ->
     exists roleCl baseCl,
       cl = AssumeRole roleCl
       /\ assumeRoleClient.ident roleCl = samlRoleClient.ident baseCl
       /\ samlRoleClient.samlClient baseCl = idp
       /\ SamlRoleProvider.RoleArn (samlRoleClient.roleProvider baseCl)
          = AwsConfig.JumpRoleArn cfg
       /\ SamlRoleProvider.samlAssertion (samlRoleClient.roleProvider baseCl)
          = fst (SamlAssertion env idp)
       /\ Config_Credentials (assumeRoleClient.session roleCl)
          = Some (NewCredentials_saml (samlRoleClient.roleProvider baseCl))
       /\ AssumeRoleClientConfig.RoleArn (assumeRoleClient.clientCfg roleCl)
          = AwsConfig.RoleArn (profileAsRole cfg)
       /\ AssumeRoleClientConfig.Duration_ (assumeRoleClient.clientCfg roleCl)
          = AssumeRoleDurationDefault env
       /\ (AssumeRoleClientConfig.Duration_ (assumeRoleClient.clientCfg roleCl)
           <= AssumeRoleDurationDefault env)%Z)
  /\ (Validate env cfg = None ->
      snd (SamlAssertion env idp) = None ->
      exists cl, snd (Get env f (Some cfg)) = (Some cl, None)).
Proof.
  intros Hs Hj idp.
  destruct (profileAsRole_others cfg) as (Hsaml & _ & Hjump).
  assert (Hj' : AwsConfig.JumpRoleArn (profileAsRole cfg) <> "") by now rewrite Hjump.
  pose proof (samlClient_jump (profileAsRole cfg)
                (resolveCredentials env f (AwsConfig.SamlUrl cfg))
                (sessionOptions f (profileAsRole cfg)) Hj') as H.
  cbv zeta in H. rewrite Hsaml in H.
  assert (Hidp : idp
                 = SamlClient.SetCookieJar
                     (SamlClient.MustGetSamlClient
                        (AwsConfig.SamlProvider (profileAsRole cfg)) (AwsConfig.SamlUrl cfg)
                        (samlAuthConfig env f (profileAsRole cfg)
                           (resolveCredentials env f (AwsConfig.SamlUrl cfg))))
                     (cookieJar env)).
  { unfold idp, initialSamlClient. now rewrite Hsaml. }
  rewrite <- Hidp in H. clear Hidp.
  split.
  - intros cl Hget.
    destruct (Validate env cfg) eqn:Hv.
    { unfold Get in Hget. rewrite Hv in Hget. discriminate Hget. }
    rewrite (Get_valid cfg Hv) in Hget. cbn [snd] in Hget.
    rewrite (not_empty_length Hs) in Hget.
    destruct (SamlAssertion env idp) as [saml [err|]].
    + rewrite H in Hget. discriminate Hget.
    + destruct H as (roleCl & baseCl & Hres & Hi & Hc & Hr & Ha & Hcr & Hra & Hd).
      rewrite Hres in Hget. injection Hget as <-.
      exists roleCl, baseCl. rewrite Hjump in Hr. rewrite Hd.
      repeat split; auto. apply Z.le_refl.
  - intros Hv Hok.
    rewrite (Get_valid cfg Hv). cbn [snd]. rewrite (not_empty_length Hs).
    destruct (SamlAssertion env idp) as [saml [err|]]; [discriminate Hok|].
    destruct H as (roleCl & _ & Hres & _). rewrite Hres. eauto.
Qed.

(** C10: for a valid configuration with [SamlUrl] set, let the initial
    fetch of the SAML assertion fail.  Without a jump role [Get] returns a
    SAML-role client and a nil error, the failure being dropped; with a
    jump role [Get] returns no client and the error of the fetch. *)
Theorem Get_saml_fetch_failure (cfg : AwsConfig.t)
    (saml : option external.SamlAssertion_t) (e : error) :
  Validate env cfg = None ->
  AwsConfig.SamlUrl cfg <> "" ->
  SamlAssertion env (initialSamlClient env f (profileAsRole cfg)) = (saml, Some e) ->
  (AwsConfig.JumpRoleArn cfg = "" ->
   exists cl, snd (Get env f (Some cfg)) = (Some (SamlRole cl), None)
     /\ samlRoleClient.samlClient cl = initialSamlClient env f (profileAsRole cfg)
     /\ SamlRoleProvider.samlAssertion (samlRoleClient.roleProvider cl) = saml)
  /\ (AwsConfig.JumpRoleArn cfg <> "" ->
      snd (Get env f (Some cfg)) = (None, Some e)).
Proof.
  intros Hv Hs Hfetch.
  rewrite (Get_valid cfg Hv). cbn [snd]. rewrite (not_empty_length Hs).
  destruct (profileAsRole_others cfg) as (Hsaml & _ & Hjump).
  unfold initialSamlClient in *. rewrite Hsaml in *.
  split; intros Hj; rewrite <- Hjump in Hj.
  - destruct (samlClient_plain (profileAsRole cfg)
                (resolveCredentials env f (AwsConfig.SamlUrl cfg))
                (sessionOptions f (profileAsRole cfg)) Hj)
      as (cl & Hcl & Hc & Ha & _).
    rewrite Hsaml in Hc. exists cl. repeat split; auto.
    rewrite Ha, Hc, Hfetch. reflexivity.
  - pose proof (samlClient_jump (profileAsRole cfg)
                  (resolveCredentials env f (AwsConfig.SamlUrl cfg))
                  (sessionOptions f (profileAsRole cfg)) Hj) as H.
    cbv zeta in H. rewrite Hsaml, Hfetch in H. exact H.
Qed.

End Factory.

Lemma Get_saml_jump_role_witness :
  exists roleCl baseCl,
    snd (client.Get envs.up factory.f (Some factory.saml_chained))
    = (Some (client.AssumeRole roleCl), None)
    /\ client.assumeRoleClient.ident roleCl = client.samlRoleClient.ident baseCl
    /\ client.samlRoleClient.samlClient baseCl
       = initialSamlClient envs.up factory.f factory.saml_chained
    /\ client.SamlRoleProvider.RoleArn (client.samlRoleClient.roleProvider baseCl)
       = factory.jump
    /\ client.SamlRoleProvider.samlAssertion (client.samlRoleClient.roleProvider baseCl)
       = Some "PHNhbWw+"
    /\ client.Config_Credentials (client.assumeRoleClient.session roleCl)
       = Some (client.NewCredentials_saml (client.samlRoleClient.roleProvider baseCl))
    /\ client.AssumeRoleClientConfig.RoleArn (client.assumeRoleClient.clientCfg roleCl)
       = factory.target
    /\ client.AssumeRoleClientConfig.Duration_ (client.assumeRoleClient.clientCfg roleCl)
       = factory.hour.
Proof.
  destruct (Get_saml_jump_role envs.up factory.f factory.saml_chained)
    as [Hshape Hreturns]; try discriminate.
  destruct (Hreturns eq_refl eq_refl) as (cl & Hget).
  destruct (Hshape cl Hget) as (roleCl & baseCl & -> & Hi & Hc & Hr & Ha & Hcr & Hra & Hd & _).
  exists roleCl, baseCl. repeat split; assumption.
Defined.

Lemma Get_decision_witness :
  (exists cl, snd (client.Get envs.down factory.f (Some factory.saml_plain))
              = (Some (client.SamlRole cl), None))
  /\ snd (client.Get envs.up factory.f (Some factory.iam_role))
     = (Some (client.AssumeRole
                (client.roleClient envs.up factory.f factory.iam_role
                   (sessionOptions factory.f factory.iam_role))), None)
  /\ fst (client.Get envs.up factory.f (Some (factory.cfg factory.target "" "" "" "")))
     = Some (factory.cfg "" factory.target "" "" "")
  /\ snd (client.Get envs.up factory.f (Some (factory.cfg "dev" "" "" "" "")))
     = (Some (client.SessionToken
                (client.sessionClient envs.up factory.f (factory.cfg "dev" "" "" "" "")
                   (sessionOptions factory.f (factory.cfg "dev" "" "" "" "")))), None).
Proof.
  split; [|split; [|split]].
  - destruct (Get_decision envs.down factory.f factory.saml_plain eq_refl)
      as (_ & _ & _ & Hsaml & _).
    apply Hsaml; [discriminate | reflexivity].
  - destruct (Get_decision envs.up factory.f factory.iam_role eq_refl)
      as (_ & _ & _ & _ & _ & Hrole & _).
    apply Hrole; [reflexivity | reflexivity | discriminate].
  - destruct (Get_decision envs.up factory.f (factory.cfg factory.target "" "" "" "") eq_refl)
      as (Hcfg & _).
    exact Hcfg.
  - destruct (Get_decision envs.up factory.f (factory.cfg "dev" "" "" "" "") eq_refl)
      as (_ & _ & _ & _ & _ & _ & Hses).
    apply Hses; reflexivity.
Defined.

Lemma roleClient_within_default_witness :
  (exists opts',
     let sc := client.sessionClient envs.short factory.f factory.iam_role opts' in
     let cl := client.roleClient envs.short factory.f factory.iam_role
                 (sessionOptions factory.f factory.iam_role) in
     client.AssumeRoleClientConfig.SerialNumber (client.assumeRoleClient.clientCfg cl) = ""
     /\ client.Config_Credentials (client.assumeRoleClient.session cl)
        = Some (client.sessionTokenClient.creds sc)
     /\ client.assumeRoleClient.ident cl = client.sessionTokenClient.ident sc
     /\ client.AssumeRoleClientConfig.RoleArn (client.assumeRoleClient.clientCfg cl)
        = factory.target
     /\ sc = client.NewSessionTokenClient (client.sessionTokenClient.session sc)
               (client.sessionTokenClient.clientCfg sc))
  /\ snd (client.Get envs.short factory.f (Some factory.iam_role))
     = (Some (client.AssumeRole
                (client.roleClient envs.short factory.f factory.iam_role
                   (sessionOptions factory.f factory.iam_role))), None).
Proof.
  split.
  - apply (proj1 (roleClient_within_default envs.short factory.f factory.iam_role)).
    intros H; discriminate H.
  - apply (proj2 (roleClient_within_default envs.short factory.f factory.iam_role));
      try reflexivity.
    discriminate.
Defined.

Lemma Get_saml_fetch_failure_witness :
  (exists cl, snd (client.Get envs.down factory.f (Some factory.saml_plain))
              = (Some (client.SamlRole cl), None)
     /\ client.samlRoleClient.samlClient cl
        = initialSamlClient envs.down factory.f factory.saml_plain
     /\ client.SamlRoleProvider.samlAssertion (client.samlRoleClient.roleProvider cl) = None)
  /\ snd (client.Get envs.down factory.f (Some factory.saml_chained))
     = (None, Some factory.idp_down).
Proof.
  split.
  - apply (proj1 (Get_saml_fetch_failure envs.down factory.f factory.saml_plain
                    (saml := None) (e := factory.idp_down) eq_refl
                    ltac:(discriminate) eq_refl)).
    reflexivity.
  - apply (proj2 (Get_saml_fetch_failure envs.down factory.f factory.saml_chained
                    (saml := None) (e := factory.idp_down) eq_refl
                    ltac:(discriminate) eq_refl)).
    discriminate.
Defined.

(** ** Further properties of the base client *)

Section BaseClient.
Import external.

Variable env : Env.

(** Only the inputs named [SAMLResponse] count for [Each]. *)
Lemma fold_filter l : forall c,
  fold_left eachInput l c = fold_left eachInput (filter isSAMLResponse l) c.
Proof.
  induction l as [|s l IH]; intros c; simpl; [reflexivity|].
  destruct (isSAMLResponse s) eqn:E; simpl; rewrite IH; [reflexivity|].
  unfold eachInput at 2. now rewrite E.
Qed.

(** X1: when exactly one [input] of the parsed response is named
    [SAMLResponse], [handleSamlResponse] returns no error and the client
    holds that element's [value]. *)
Theorem handleSamlResponse_single_match r doc s c h :
  NewDocumentFromReader env r = inr doc ->
  filter isSAMLResponse (Find doc "input") = [s] ->
  handleSamlResponse env r (mkSt c h)
  = Some (None, mkSt (set_saml c (Some (inputValue s))) h)
  /\ saml (set_saml c (Some (inputValue s))) = Some (inputValue s).
Proof.
  intros Hdoc Hone. split; [|reflexivity]. unfold handleSamlResponse. rewrite Hdoc.
  unfold bind, getClient, putClient, ret. simpl.
  rewrite fold_filter, Hone. simpl.
  assert (Hs : isSAMLResponse s = true).
  { assert (Hin : In s (filter isSAMLResponse (Find doc "input")))
      by (rewrite Hone; now left).
    now apply filter_In in Hin. }
  unfold eachInput. now rewrite Hs.
Qed.

(** X2: a held assertion whose expiry is not after the clock's reading, the
    reading itself included, is not handed back: [samlRequest] goes on to
    send the request. *)
Theorem samlRequest_expired_fetches u c h a t :
  saml c = Some a ->
  a <> "" ->
  ExpiresAt env a = inr t ->
  (t <= time_Now env h)%Z ->
  samlRequest env u (mkSt c h) = samlFetch env u (mkSt c (EvNow :: h)).
Proof.
  intros Hheld Hne Hexp Hnow.
  unfold samlRequest, bind, getClient. simpl. rewrite Hheld.
  destruct a as [|x a]; [congruence|]. simpl. rewrite Hexp.
  unfold timeNow, bind, getHistory, emit, ret. simpl.
  apply Z.ltb_ge in Hnow. now rewrite Hnow.
Qed.

(** X3: when the request of [samlRequest] fails, the error comes back
    wrapped in ["SAML request error %w"], after one request, and the client
    is as before: for a client that holds no assertion or an empty one, and
    for one whose assertion has expired. *)
Theorem samlRequest_transport_error u req err c h h' :
  sendsRequest env c h h' ->
  newHttpRequest env "GET" (URL_String env u) = inr req ->
  checkResponseError env (http_Do env h' (httpClient c) req) = inl err ->
  samlRequest env u (mkSt c h)
  = Some (Some (wrapError "SAML request error %w" err),
          mkSt c (EvHttpDo (httpClient c) req :: h'))
  /\ requests (EvHttpDo (httpClient c) req :: h') = S (requests h).
Proof.
  intros Hsends Hreq Hres. split.
  - rewrite (samlRequest_sends u Hsends).
    unfold samlFetch. rewrite Hreq.
    unfold bind, getClient, Do, getHistory, emit, ret. simpl. now rewrite Hres.
  - destruct Hsends as [[_ ->] | (a & t & _ & _ & _ & _ & ->)]; reflexivity.
Qed.

(** X4: when the authorize request is answered, a status other than 302 is
    the error ["http status ..."]; with status 302 the result is the query
    of the [Location] header, or the error of reading that header. *)
Theorem oauthAuthorize_response c h ep data followRedirect u req res :
  url_Parse env ep = inr u ->
  http_NewRequest env "GET" (URL_String env (set_RawQuery u (Values_Encode env data)))
  = inr req ->
  http_Do env h (oauthHttpClient c followRedirect) req = inr res ->
  oauthAuthorize env ep data followRedirect (mkSt c h)
  = Some (if (StatusCode res =? StatusFound)%Z then
            match Location res with
            | inr redir => (Some (Query env redir), None)
            | inl e => (None, Some e)
            end
          else (None, Some (errorString ("http status " ++ Status res))),
          mkSt c (EvHttpDo (oauthHttpClient c followRedirect) req :: h)).
Proof.
  intros Hep Hreq Hdo.
  unfold oauthAuthorize, bind, getClient.
  cbn -[oauthHttpClient Z.eqb]. rewrite Hep, Hreq.
  unfold Do, bind, getHistory, emit, ret.
  cbn -[oauthHttpClient Z.eqb]. rewrite Hdo.
  destruct (StatusCode res =? StatusFound)%Z; [|reflexivity].
  destruct (Location res); reflexivity.
Qed.

(** X5: with a username and a password, the MFA type ["code"], no MFA code
    and an MFA provider, [gatherCredentials] calls that provider once: its
    error is returned and nothing is stored; otherwise the client holds the
    code it returned, with every other field as before. *)
Theorem gatherCredentials_mfa_code c h provider m r :
  Username (auth (config c)) <> "" ->
  Password (auth (config c)) <> "" ->
  MfaType (auth (config c)) = MfaTypeCode ->
  MfaTokenCode (auth (config c)) = "" ->
  MfaTokenProvider (auth (config c)) = Some provider ->
  provider h = (m, r) ->
  match r with
  | Some err =>
      gatherCredentials (mkSt c h) = Some (Some err, mkSt c (EvMfaToken :: h))
  | None =>
      exists c',
        gatherCredentials (mkSt c h) = Some (None, mkSt c' (EvMfaToken :: h))
        /\ MfaTokenCode (auth (config c')) = m
        /\ Username (auth (config c')) = Username (auth (config c))
        /\ Password (auth (config c')) = Password (auth (config c))
        /\ MfaType (auth (config c')) = MfaType (auth (config c))
        /\ set_MfaTokenCode c' "" = c
  end.
Proof.
  intros Hu Hp Ht Hm Hprov Hr.
  unfold gatherCredentials, bind, getClient. simpl.
  rewrite (length_lt_1_false Hu), (length_lt_1_false Hp). simpl.
  rewrite Hprov, Ht, Hm. simpl.
  unfold getHistory, emit, bind. simpl. rewrite Hr.
  destruct r; [reflexivity|].
  exists (set_MfaTokenCode c m).
  split; [reflexivity|]. split; [reflexivity|]. split; [reflexivity|].
  split; [reflexivity|]. split; [exact Ht|].
  destruct c as [[[ci mp ip lg mc mt us pw fu] cid ru sc] au ei hc sm].
  simpl in Hm. subst mc. reflexivity.
Qed.

End BaseClient.

Lemma handleSamlResponse_single_match_witness :
  external.handleSamlResponse clients.single_env sample.single_body
    (external.mkSt clients.stale [])
  = Some (None, external.mkSt (external.set_saml clients.stale (Some "T25seQ==")) [])
  /\ external.saml (external.set_saml clients.stale (Some "T25seQ==")) = Some "T25seQ==".
Proof.
  exact (handleSamlResponse_single_match clients.single_env sample.single_body
           (doc := sample.single_doc) (s := sample.only_input)
           clients.stale [] eq_refl eq_refl).
Defined.

Lemma samlRequest_expired_fetches_witness :
  external.samlRequest clients.single_env sample.saml_url (external.mkSt clients.stale [])
  = external.samlFetch clients.single_env sample.saml_url
      (external.mkSt clients.stale [external.EvNow])
  /\ external.samlRequest clients.single_env sample.saml_url
       (external.mkSt (sample.base "alice" "s3cret" "auto" "" (Some "dmFsaWQ="))
          (repeat external.EvNow 800))
     = external.samlFetch clients.single_env sample.saml_url
         (external.mkSt (sample.base "alice" "s3cret" "auto" "" (Some "dmFsaWQ="))
            (repeat external.EvNow 801)).
Proof.
  split.
  - refine (samlRequest_expired_fetches clients.single_env sample.saml_url
              clients.stale [] (a := "c3RhbGU=") (t := 100%Z) eq_refl _ eq_refl _).
    + discriminate.
    + intros H; discriminate H.
  - refine (samlRequest_expired_fetches clients.single_env sample.saml_url
              (sample.base "alice" "s3cret" "auto" "" (Some "dmFsaWQ="))
              (repeat external.EvNow 800) (a := "dmFsaWQ=") (t := 1000%Z) eq_refl _ eq_refl _).
    + discriminate.
    + vm_compute. intros H; discriminate H.
Defined.

Lemma samlRequest_transport_error_witness :
  external.samlRequest clients.unavailable_env sample.saml_url (external.mkSt clients.fresh [])
  = Some (Some (wrapError "SAML request error %w"
                  (errorString "http status 503 Service Unavailable")),
          external.mkSt clients.fresh
            [external.EvHttpDo (external.httpClient clients.fresh) sample.saml_request])
  /\ external.samlRequest clients.unavailable_env sample.saml_url
       (external.mkSt clients.stale [])
     = Some (Some (wrapError "SAML request error %w"
                     (errorString "http status 503 Service Unavailable")),
             external.mkSt clients.stale
               [external.EvHttpDo (external.httpClient clients.stale) sample.saml_request;
                external.EvNow]).
Proof.
  split.
  - refine (proj1 (@samlRequest_transport_error clients.unavailable_env sample.saml_url
                     sample.saml_request
                     (errorString "http status 503 Service Unavailable")
                     clients.fresh [] [] _ eq_refl eq_refl)).
    left. split; [left; reflexivity | reflexivity].
  - refine (proj1 (@samlRequest_transport_error clients.unavailable_env sample.saml_url
                     sample.saml_request
                     (errorString "http status 503 Service Unavailable")
                     clients.stale [] [external.EvNow] _ eq_refl eq_refl)).
    right. exists "c3RhbGU=", 100%Z.
    repeat split; try reflexivity; [discriminate | intros H; discriminate H].
Defined.

Lemma oauthAuthorize_response_witness :
  external.oauthAuthorize clients.found_env sample.elsewhere [] false
    (external.mkSt clients.fresh [])
  = Some ((Some [("code", ["abc"]); ("state", ["xyz"])], None),
          external.mkSt clients.fresh
            [external.EvHttpDo
               (external.mkClient (Some external.UseLastResponse) (Some external.MemoryJar))
               (external.mkRequest "GET" "https://idp.example.com/error")])
  /\ external.oauthAuthorize clients.unavailable_env sample.elsewhere [] false
       (external.mkSt clients.fresh [])
     = Some ((None, Some (errorString "http status 503 Service Unavailable")),
             external.mkSt clients.fresh
               [external.EvHttpDo
                  (external.mkClient (Some external.UseLastResponse) (Some external.MemoryJar))
                  (external.mkRequest "GET" "https://idp.example.com/error")]).
Proof.
  split.
  - exact (oauthAuthorize_response clients.found_env clients.fresh []
             sample.elsewhere [] false
             (u := external.mkURL "https" "idp.example.com" "/error" "reason=denied" "")
             (req := external.mkRequest "GET" "https://idp.example.com/error")
             (res := sample.found) eq_refl eq_refl eq_refl).
  - exact (oauthAuthorize_response clients.unavailable_env clients.fresh []
             sample.elsewhere [] false
             (u := external.mkURL "https" "idp.example.com" "/error" "reason=denied" "")
             (req := external.mkRequest "GET" "https://idp.example.com/error")
             (res := sample.unavailable) eq_refl eq_refl eq_refl).
Defined.

Lemma gatherCredentials_mfa_code_witness :
  exists c',
    external.gatherCredentials (external.mkSt clients.code_needed [])
    = Some (None, external.mkSt c' [external.EvMfaToken])
    /\ external.MfaTokenCode (external.auth (external.config c')) = "123456"
    /\ external.Username (external.auth (external.config c')) = "alice".
Proof.
  destruct (gatherCredentials_mfa_code clients.code_needed []
              (provider := fun _ => ("123456", None)) (m := "123456") (r := None))
    as (c' & Hrun & Hcode & Huser & _); try reflexivity; try discriminate.
  exists c'. repeat split; assumption.
Defined.

(** ** Further properties of the factory *)

Section FactoryMore.
Import client.

Variable env : Env.
Variable f : Factory.

(** X6: [Get] refuses a nil configuration with the error
    ["invalid configuration"], and returns the error of [Validate] for a
    configuration that is not valid, which it leaves as it is. *)
Theorem Get_refuses :
  Get env f None = (None, (None, Some (errorString "invalid configuration")))
  /\ forall cfg err,
       Validate env cfg = Some err ->
       Get env f (Some cfg) = (Some cfg, (None, Some err)).
Proof.
  split; [reflexivity|]. intros cfg err Hv. unfold Get. now rewrite Hv.
Qed.

(** X7: for a valid configuration with [WebIdentityUrl] and [JumpRoleArn]
    set and no [SamlUrl], [Get] builds a Web-role client for the jump role
    and fetches a token with it.  An error of the fetch is returned with no
    client; otherwise the result is an Assume-Role client for the
    configured role whose identity is the web client's, whose session
    draws its credentials from a role provider for the jump role whose
    [webIdentityToken] is the fetched token, and whose duration is
    [AssumeRoleDurationDefault]. *)
Theorem Get_web_jump_role (cfg : AwsConfig.t) :
  Validate env cfg = None ->
  AwsConfig.SamlUrl cfg = "" ->
  AwsConfig.WebIdentityUrl cfg <> "" ->
  AwsConfig.JumpRoleArn cfg <> "" ->
  exists baseCl : webRoleClient.t,
    WebRoleProvider.RoleArn (webRoleClient.roleProvider baseCl) = AwsConfig.JumpRoleArn cfg
    /\ WebClient.jar (webRoleClient.webClient baseCl) = Some (cookieJar env)
    /\ WebClient.url (webRoleClient.webClient baseCl) = AwsConfig.WebIdentityUrl cfg
    /\ match FetchToken env baseCl with
       | (_, Some err) => snd (Get env f (Some cfg)) = (None, Some err)
       | (tok, None) =>
           exists roleCl,
             snd (Get env f (Some cfg)) = (Some (AssumeRole roleCl), None)
             /\ assumeRoleClient.ident roleCl = identWeb (webRoleClient.webClient baseCl)
             /\ (exists p,
                   Config_Credentials (assumeRoleClient.session roleCl)
                   = Some (NewCredentials_web p)
                   /\ WebRoleProvider.webIdentityToken p = Some tok
                   /\ WebRoleProvider.RoleArn p = AwsConfig.JumpRoleArn cfg
                   /\ WebRoleProvider.Duration_ p
                      = WebRoleProvider.Duration_ (webRoleClient.roleProvider baseCl)
                   /\ WebRoleProvider.Cache p
                      = WebRoleProvider.Cache (webRoleClient.roleProvider baseCl)
                   /\ WebRoleProvider.cfg p
                      = WebRoleProvider.cfg (webRoleClient.roleProvider baseCl))
             /\ AssumeRoleClientConfig.RoleArn (assumeRoleClient.clientCfg roleCl)
                = AwsConfig.RoleArn (profileAsRole cfg)
             /\ AssumeRoleClientConfig.Duration_ (assumeRoleClient.clientCfg roleCl)
                = AssumeRoleDurationDefault env
       end.
Proof.
  intros Hv Hs Hw Hj.
  rewrite (Get_valid env f cfg Hv). cbn [snd].
  rewrite Hs. change (0 <? String.length "")%nat with false. cbn iota.
  rewrite (not_empty_length Hw).
  destruct (profileAsRole_others cfg) as (_ & Hweb & Hjump).
  unfold webClient. rewrite Hjump, (not_empty_length Hj), Hweb.
  destruct (Options.EnableCache (options f)); cbn;
    match goal with
    | |- context [FetchToken env ?c] => exists c
    end; cbn; (repeat split; try reflexivity);
    match goal with
    | |- context [FetchToken env ?c] => destruct (FetchToken env c) as [tok [err|]]
    end; try reflexivity; eexists;
    (split; [reflexivity|]); (split; [reflexivity|]);
    (split; [eexists; repeat split; reflexivity|]); split; reflexivity.
Qed.

End FactoryMore.

Lemma Get_refuses_witness :
  client.Get envs.strict factory.f (Some factory.iam_role)
  = (Some factory.iam_role, (None, Some factory.no_region)).
Proof.
  exact (proj2 (Get_refuses envs.strict factory.f) factory.iam_role factory.no_region eq_refl).
Defined.

Lemma Get_web_jump_role_witness :
  exists roleCl p,
    snd (client.Get envs.up factory.f (Some factory.web_chained))
    = (Some (client.AssumeRole roleCl), None)
    /\ client.Config_Credentials (client.assumeRoleClient.session roleCl)
       = Some (client.NewCredentials_web p)
    /\ client.WebRoleProvider.webIdentityToken p = Some "eyJhbGciOi"
    /\ client.WebRoleProvider.RoleArn p = factory.jump
    /\ client.AssumeRoleClientConfig.Duration_ (client.assumeRoleClient.clientCfg roleCl)
       = factory.hour
    /\ client.AssumeRoleClientConfig.RoleArn (client.assumeRoleClient.clientCfg roleCl)
       = factory.target.
Proof.
  destruct (Get_web_jump_role envs.up factory.f factory.web_chained eq_refl eq_refl)
    as (baseCl & _ & _ & _ & H); try discriminate.
  cbn in H. destruct H as (roleCl & Hget & _ & (p & Hc & Ht & Ha & _) & Hr & Hd).
  exists roleCl, p. repeat split; assumption.
Defined.

(** ** Roles, identity and the token request of the base client *)

Section BaseClientMore.
Import external.

Variable env : Env.
Variable L : Lib.

(** X8: a client with both a client id and a redirect URI is an OIDC
    client: [roles] fails with ["OIDC clients are not role aware"] whatever
    assertion it holds.  With either of the two empty the roles are those
    [RoleDetails] reads in the held assertion, or its error. *)
Theorem roles_oidc_refused (c : baseClient) :
  (ClientId (config c) <> "" -> RedirectUri (config c) <> "" ->
   roles L c = (None, Some (errorString "OIDC clients are not role aware")))
  /\ (ClientId (config c) = "" \/ RedirectUri (config c) = "" ->
      roles L c = match RoleDetails L (saml c) with
                  | inl err => (None, Some err)
                  | inr rd => (Some (Roles L rd), None)
                  end).
Proof.
  unfold roles. split.
  - intros Hc Hr. now rewrite (not_empty_length Hc), (not_empty_length Hr).
  - intros [H|H]; rewrite H; cbn [String.length Nat.ltb Nat.leb andb];
      rewrite ?andb_false_r; reflexivity.
Qed.

(** [gatherCredentials] always returns, and never touches the held
    assertion. *)
Lemma gatherCredentials_returns st :
  exists r st', gatherCredentials st = Some (r, st')
    /\ saml (client st') = saml (client st).
Proof.
  destruct st as [c h].
  unfold gatherCredentials, bind, getClient, getHistory, emit, putClient, ret. simpl.
  destruct ((String.length (Username (auth (config c))) <? 1)%nat
            || (String.length (Password (auth (config c))) <? 1)%nat).
  - destruct (CredentialInputProvider _ _ _ _) as [[u' p'] [err|]]; simpl.
    + eauto.
    + destruct (MfaTokenProvider (auth (config c))) as [prov|]; [|eauto].
      destruct (_ && _); [|eauto].
      simpl. destruct (prov _) as [m' [err|]]; simpl; eauto.
  - simpl. destruct (MfaTokenProvider (auth (config c))) as [prov|]; [|eauto].
    destruct (_ && _); [|eauto].
    simpl. destruct (prov _) as [m' [err|]]; simpl; eauto.
Qed.

(** X9: [identity] always returns an identity of type ["user"] for the
    given provider.  With a user name set nothing is asked and nothing
    changes; without one the credentials are gathered first and an error of
    the gathering is dropped.  The user name reported is the role session
    name of a held, non-empty assertion when it can be read, and the
    client's user name otherwise. *)
Theorem identity_username (provider : string) (c : baseClient) (h : history) :
  (Username (auth (config c)) <> "" ->
   identity L provider (mkSt c h)
   = Some (mkIdentity "user" provider (displayName L c), mkSt c h))
  /\ (Username (auth (config c)) = "" ->
      exists r st, gatherCredentials (mkSt c h) = Some (r, st)
        /\ identity L provider (mkSt c h)
           = Some (mkIdentity "user" provider (displayName L (client st)), st)).
Proof.
  assert (Hid : forall st,
            (c0 <- getClient ;;
             let id := mkIdentity "user" provider (Username (auth (config c0))) in
             match saml c0 with
             | Some a =>
                 if (0 <? String.length a)%nat then
                   match RoleSessionName L a with
                   | inl _ => ret id
                   | inr user => ret (mkIdentity (IdentityType id) (Provider id) user)
                   end
                 else ret id
             | None => ret id
             end)%go st
            = Some (mkIdentity "user" provider (displayName L (client st)), st)).
  { intros [c0 h0]. unfold bind, getClient, ret, displayName. simpl.
    destruct (saml c0) as [a|]; [|reflexivity].
    destruct (0 <? String.length a)%nat; [|reflexivity].
    destruct (RoleSessionName L a); reflexivity. }
  split.
  - intros Hu. unfold identity. unfold bind at 1 2. unfold getClient at 1. simpl.
    rewrite (length_lt_1_false Hu). unfold ret at 1. apply Hid.
  - intros Hu. destruct (gatherCredentials_returns (mkSt c h)) as (r & st & Hg & _).
    exists r, st. split; [exact Hg|].
    unfold identity. unfold bind at 1 2. unfold getClient at 1. simpl.
    rewrite Hu. simpl. unfold bind at 1. rewrite Hg. unfold ret at 1. apply Hid.
Qed.

Lemma substring_prefix p rest :
  substring 0 (String.length p) (p ++ rest) = p.
Proof.
  induction p as [|a p IH]; simpl.
  - destruct rest; reflexivity.
  - now rewrite IH.
Qed.

Lemma append_empty p : p ++ "" = p.
Proof. induction p as [|a p IH]; simpl; [reflexivity | now rewrite IH]. Qed.

Lemma length_append p rest :
  String.length (p ++ rest) = String.length p + String.length rest.
Proof. induction p as [|a p IH]; simpl; [reflexivity | now rewrite IH]. Qed.

(** X10: of the token response at most the first 64 KiB are read.  When
    the body has more bytes than that, the token, or the error of
    [json.Unmarshal], is that of these bytes alone, whatever follows them
    and however the reading of the body would have ended.  So it is for a
    body of exactly 64 KiB, unless an error comes together with its last
    bytes: that error is returned. *)
Theorem oauthToken_reads_64KiB ep code verifier c h req res p rest :
  newHttpRequest env "POST" ep = inr req ->
  checkResponseError env
    (http_Do env h (httpClient c) (tokenRequest env L c req code verifier)) = inr res ->
  Body res = p ++ rest ->
  String.length p = 64 * 1024 ->
  let st := mkSt c (EvHttpDo (httpClient c) (tokenRequest env L c req code verifier) :: h) in
  (rest <> "" \/ Body_error_with_data L res = false \/ Body_error L res = None ->
   oauthToken env L ep code verifier (mkSt c h)
   = Some (match json_Unmarshal L p with
           | inl err => (None, Some err)
           | inr token => (Some token, None)
           end, st))
  /\ (forall err,
        rest = "" -> Body_error_with_data L res = true -> Body_error L res = Some err ->
        oauthToken env L ep code verifier (mkSt c h) = Some ((None, Some err), st)).
Proof.
  intros Hreq Hres Hbody Hlen st.
  assert (Hrun : oauthToken env L ep code verifier (mkSt c h)
                 = Some (match ReadAll_LimitReader L res (64 * 1024) with
                         | (_, Some err) => (None, Some err)
                         | (body, None) =>
                             match json_Unmarshal L body with
                             | inl err => (None, Some err)
                             | inr token => (Some token, None)
                             end
                         end, st)).
  { unfold oauthToken, bind, getClient. cbn -[tokenData Nat.mul ReadAll_LimitReader].
    rewrite Hreq. unfold Do, bind, getHistory, emit, ret.
    cbn -[tokenData Nat.mul ReadAll_LimitReader].
    fold (tokenRequest env L c req code verifier). rewrite Hres.
    destruct (ReadAll_LimitReader L res (64 * 1024)) as [body [err|]];
      [reflexivity | destruct (json_Unmarshal L body); reflexivity]. }
  assert (Hpos : ((64 * 1024 =? 0) = false)%nat) by reflexivity.
  rewrite Hrun. unfold ReadAll_LimitReader.
  rewrite Hbody, length_append, <- Hlen in *. rewrite Hpos, orb_false_r.
  split.
  - intros Hcase.
    destruct rest as [|a rest].
    + replace (String.length p <? String.length p + String.length "")%nat with false
        by (symmetry; apply Nat.ltb_ge; simpl; lia).
      replace (String.length p =? String.length p + String.length "")%nat with true
        by (symmetry; apply Nat.eqb_eq; simpl; lia).
      rewrite append_empty.
      destruct Hcase as [Hrest | [Hdata | Hend]];
        [now contradiction Hrest | rewrite Hdata | rewrite Hend];
        cbn; try reflexivity.
      destruct (Body_error_with_data L res); reflexivity.
    + replace (String.length p <? String.length p + String.length (String a rest))%nat
        with true by (symmetry; apply Nat.ltb_lt; simpl; lia).
      cbn [orb]. now rewrite substring_prefix.
  - intros err -> Hdata Hend.
    replace (String.length p <? String.length p + String.length "")%nat with false
      by (symmetry; apply Nat.ltb_ge; simpl; lia).
    replace (String.length p =? String.length p + String.length "")%nat with true
      by (symmetry; apply Nat.eqb_eq; simpl; lia).
    rewrite Hdata, Hend. reflexivity.
Qed.

(** X11: [oauthToken] always returns, with a token or with an error and
    never with both or neither; it leaves the client as it is and sends at
    most one request, none when the request cannot be built.  An error of
    the request comes back wrapped in ["oAuth token request error: %w"]. *)
Theorem oauthToken_outcome ep code verifier c h :
  exists r st,
    oauthToken env L ep code verifier (mkSt c h) = Some (r, st)
    /\ client st = c
    /\ ((exists token, r = (Some token, None)) \/ (exists err, r = (None, Some err)))
    /\ match newHttpRequest env "POST" ep with
       | inl err => r = (None, Some err) /\ hist st = h
       | inr req =>
           let sent := tokenRequest env L c req code verifier in
           hist st = EvHttpDo (httpClient c) sent :: h
           /\ forall err,
                checkResponseError env (http_Do env h (httpClient c) sent) = inl err ->
                r = (None, Some (wrapError "oAuth token request error: %w" err))
       end.
Proof.
  unfold oauthToken, bind, getClient. cbn -[tokenData Nat.mul].
  destruct (newHttpRequest env "POST" ep) as [err|req].
  - do 2 eexists. split; [reflexivity|]. cbn. repeat split; eauto.
  - unfold Do, bind, getHistory, emit, ret. cbn -[tokenData Nat.mul].
    fold (tokenRequest env L c req code verifier).
    destruct (checkResponseError env _) as [err|res].
    + do 2 eexists. split; [reflexivity|]. cbn. repeat split; eauto.
      intros err' H. now inversion H.
    + destruct (ReadAll_LimitReader L res (64 * 1024)) as [body [err|]].
      * do 2 eexists. split; [reflexivity|]. cbn. repeat split; eauto.
        intros err' H. discriminate H.
      * destruct (json_Unmarshal L body) as [err|token];
          do 2 eexists; (split; [reflexivity|]); cbn; repeat split; eauto;
          intros err' H; discriminate H.
Qed.

End BaseClientMore.

Lemma roles_oidc_refused_witness :
  external.roles more.lib more.oidc
  = (None, Some (errorString "OIDC clients are not role aware"))
  /\ external.roles more.lib more.saml_only
     = (Some ["arn:aws:iam::111111111111:role/Admin"], None).
Proof.
  split.
  - apply (proj1 (roles_oidc_refused more.lib more.oidc)); discriminate.
  - exact (proj2 (roles_oidc_refused more.lib more.saml_only) (or_introl eq_refl)).
Defined.

Lemma identity_username_witness :
  external.identity more.lib "mock" (external.mkSt clients.valid [])
  = Some (external.mkIdentity "user" "mock" "alice@example.com",
          external.mkSt clients.valid [])
  /\ external.identity more.lib "mock" (external.mkSt clients.stale [])
     = Some (external.mkIdentity "user" "mock" "alice", external.mkSt clients.stale [])
  /\ exists r st,
       external.gatherCredentials (external.mkSt sample.base_closed []) = Some (r, st)
       /\ external.identity more.lib "mock" (external.mkSt sample.base_closed [])
          = Some (external.mkIdentity "user" "mock" (displayName more.lib (external.client st)),
                  st).
Proof.
  split; [|split].
  - apply (proj1 (identity_username more.lib "mock" clients.valid [])). discriminate.
  - apply (proj1 (identity_username more.lib "mock" clients.stale [])). discriminate.
  - exact (proj2 (identity_username more.lib "mock" sample.base_closed []) eq_refl).
Defined.

Lemma length_replicate n c : String.length (more.replicate n c) = n.
Proof. induction n as [|n IH]; simpl; [reflexivity | now rewrite IH]. Qed.

Lemma oauthToken_reads_64KiB_witness :
  external.oauthToken more.oversized_env more.torn more.token_ep "abc" "verifier"
    (external.mkSt clients.fresh [])
  = Some ((Some "eyJhbGciOi", None),
          external.mkSt clients.fresh
            [external.EvHttpDo (external.httpClient clients.fresh)
               (external.mkRequest "POST" more.token_ep)])
  /\ external.oauthToken more.filled_env more.torn more.token_ep "abc" "verifier"
       (external.mkSt clients.fresh [])
     = Some ((None, Some more.cut_off),
             external.mkSt clients.fresh
               [external.EvHttpDo (external.httpClient clients.fresh)
                  (external.mkRequest "POST" more.token_ep)]).
Proof.
  split.
  - refine (proj1 (@oauthToken_reads_64KiB more.oversized_env more.torn more.token_ep
                     "abc" "verifier" clients.fresh []
                     (external.mkRequest "POST" more.token_ep)
                     more.oversized more.kib64 "overflow" eq_refl _ eq_refl _) _).
    + reflexivity.
    + apply length_replicate.
    + left. discriminate.
  - refine (proj2 (@oauthToken_reads_64KiB more.filled_env more.torn more.token_ep
                     "abc" "verifier" clients.fresh []
                     (external.mkRequest "POST" more.token_ep)
                     more.filled more.kib64 "" eq_refl _ eq_refl _)
                  more.cut_off eq_refl eq_refl eq_refl).
    + reflexivity.
    + apply length_replicate.
Defined.

(** ** The HTTP client and what the requests leave unchanged *)

Section BaseClientFrame.
Import external.

Variable env : Env.

(** X12: [newBaseClient] accepts a URL that [url.Parse] reads when its
    scheme starts with ["http"] and refuses any other with
    ["invalid client URL"], leaving [http.DefaultClient] as it is.  The
    client it returns points to [http.DefaultClient], which now has a
    cookie jar (its own if it had one), has the MFA type ["auto"], no user
    name and no assertion. *)
Theorem newBaseClient_scheme stdinMfa stdinCredentials logger dflt u parsed :
  url_Parse env u = inr parsed ->
  (strings.HasPrefix (Scheme parsed) "http" = false ->
   newBaseClient env stdinMfa stdinCredentials logger dflt u
   = (inl (errorString "invalid client URL"), dflt))
  /\ (forall rest,
        Scheme parsed = "http" ++ rest ->
        exists c,
          newBaseClient env stdinMfa stdinCredentials logger dflt u
          = (inr (c, DefaultClientRef), httpClient c)
          /\ authUrl c = parsed
          /\ MfaType (auth (config c)) = MfaTypeAuto
          /\ Username (auth (config c)) = ""
          /\ saml c = None
          /\ CheckRedirect (httpClient c) = CheckRedirect dflt
          /\ Jar (httpClient c) = match Jar dflt with
                                  | Some j => Some j
                                  | None => Some MemoryJar
                                  end).
Proof.
  intros Hparse. unfold newBaseClient. rewrite Hparse. split.
  - intros Hs. now rewrite Hs.
  - intros rest Hs. rewrite Hs, HasPrefix_app. cbn [negb].
    unfold setHttpClient. cbn [deref].
    destruct dflt as [cr [j|]]; cbn;
      match goal with
      | |- exists c, (inr (?b, _), _) = _ /\ _ => exists b
      end; repeat split; reflexivity.
Qed.

(** X13: two clients that [setHttpClient] gave [http.DefaultClient] share
    its cookie jar: after [SetCookieJar] on the first, the second uses the
    same jar, and a later [setHttpClient] keeps that jar. *)
Theorem DefaultClient_jar_shared (dflt : http_Client) (jar : CookieJar) :
  let first := setHttpClient dflt nilRef in
  let second := setHttpClient (snd first) nilRef in
  let after := SetCookieJar (snd second) (fst first) jar in
  option_map Jar (deref (snd after) (fst after)) = Some (Some jar)
  /\ option_map Jar (deref (snd after) (fst second)) = Some (Some jar)
  /\ setHttpClient (snd after) (fst second) = (fst second, snd after)
  /\ forall hc, deref (snd after) (ownRef hc) = Some hc.
Proof.
  destruct dflt as [cr [j|]]; cbn; repeat split; reflexivity.
Qed.

Lemma set_saml_held c : set_saml c (saml c) = c.
Proof. destruct c; reflexivity. Qed.

(** [handleSamlResponse] always returns; it changes the held assertion
    only, and not the history. *)
Lemma handleSamlResponse_frame r c h :
  exists res c',
    handleSamlResponse env r (mkSt c h) = Some (res, mkSt c' h)
    /\ set_saml c' (saml c) = c
    /\ (res <> None -> c' = c).
Proof.
  unfold handleSamlResponse.
  destruct (NewDocumentFromReader env r) as [err|doc].
  - exists (Some err), c. repeat split; auto using set_saml_held.
  - unfold bind, getClient, putClient, ret. simpl.
    exists None, (fold_left eachInput (Find doc "input") c).
    repeat split; [|congruence].
    rewrite set_saml_fold. apply set_saml_held.
Qed.

Lemma samlFetch_frame u c h :
  exists r st,
    samlFetch env u (mkSt c h) = Some (r, st)
    /\ set_saml (client st) (saml c) = c
    /\ (r <> None -> client st = c)
    /\ (hist st = h \/ exists req, hist st = EvHttpDo (httpClient c) req :: h).
Proof.
  unfold samlFetch. destruct (newHttpRequest env "GET" (URL_String env u)) as [err|req].
  - exists (Some err), (mkSt c h). repeat split; auto using set_saml_held.
  - unfold bind, getClient, Do, getHistory, emit, ret. simpl.
    destruct (checkResponseError env _) as [err|res].
    + do 2 eexists. split; [reflexivity|]. simpl.
      repeat split; eauto using set_saml_held.
    + destruct (handleSamlResponse_frame (Body res) c
                  (EvHttpDo (httpClient c) req :: h)) as (r & c' & Hh & Hs & He).
      exists r, (mkSt c' (EvHttpDo (httpClient c) req :: h)).
      simpl. repeat split; eauto.
Qed.

(** X14: [samlRequest] always returns.  Of the client it changes the held
    assertion only, and not even that when it returns an error; it sends
    at most one HTTP request. *)
Theorem samlRequest_frame (u : URL) (c : baseClient) (h : history) :
  exists r st,
    samlRequest env u (mkSt c h) = Some (r, st)
    /\ set_saml (client st) (saml c) = c
    /\ (r <> None -> client st = c)
    /\ requests (hist st) <= S (requests h).
Proof.
  assert (Hfetch : forall h', requests h' = requests h ->
            exists r st, samlFetch env u (mkSt c h') = Some (r, st)
              /\ set_saml (client st) (saml c) = c
              /\ (r <> None -> client st = c)
              /\ requests (hist st) <= S (requests h)).
  { intros h' Hh'. destruct (samlFetch_frame u c h') as (r & st & Hf & Hs & He & Hh).
    exists r, st. repeat split; auto.
    destruct Hh as [-> | [req ->]]; simpl; lia. }
  unfold samlRequest, bind, getClient. simpl.
  destruct (saml c) as [a|] eqn:Hheld; [|now apply Hfetch].
  destruct (0 <? String.length a)%nat; [|now apply Hfetch].
  destruct (ExpiresAt env a) as [err|t].
  - exists (Some err), (mkSt c h). simpl. repeat split; auto.
    rewrite <- Hheld. apply set_saml_held.
  - unfold timeNow, bind, getHistory, emit, ret. simpl.
    destruct (time_Now env h <? t)%Z.
    + exists None, (mkSt c (EvNow :: h)). simpl. repeat split; auto.
      rewrite <- Hheld. apply set_saml_held.
    + now apply Hfetch.
Qed.

(** X15: a held assertion whose expiry cannot be read blocks the client:
    [samlRequest] returns the error of [ExpiresAt] without reading the
    clock or sending a request and leaves the client as it is, so that
    every later call ends the same way. *)
Theorem samlRequest_unreadable_assertion u c h a err :
  saml c = Some a ->
  a <> "" ->
  ExpiresAt env a = inl err ->
  samlRequest env u (mkSt c h) = Some (Some err, mkSt c h).
Proof.
  intros Hheld Hne Hexp. unfold samlRequest, bind, getClient. simpl.
  now rewrite Hheld, (not_empty_length Hne), Hexp.
Qed.

(** X16: whatever [oauthAuthorize] returns, the client is as before and at
    most one request was sent.  The HTTP client that sends it has the
    cookie jar of the client's own and follows redirects exactly when
    [followRedirect] is set. *)
Theorem oauthAuthorize_frame ep data followRedirect c h r st :
  oauthAuthorize env ep data followRedirect (mkSt c h) = Some (r, st) ->
  client st = c
  /\ (hist st = h
      \/ exists req, hist st = EvHttpDo (oauthHttpClient c followRedirect) req :: h)
  /\ Jar (oauthHttpClient c followRedirect) = Jar (httpClient c)
  /\ (CheckRedirect (oauthHttpClient c followRedirect) = None <-> followRedirect = true).
Proof.
  intros Hrun.
  assert (Hjar : Jar (oauthHttpClient c followRedirect) = Jar (httpClient c)
                 /\ (CheckRedirect (oauthHttpClient c followRedirect) = None
                     <-> followRedirect = true)).
  { unfold oauthHttpClient.
    destruct followRedirect; destruct (CheckRedirect (httpClient c)) eqn:E; simpl;
      rewrite ?E; repeat split; auto; try discriminate. }
  destruct Hjar as [Hj Hc].
  unfold oauthAuthorize, bind, getClient in Hrun. cbn -[oauthHttpClient] in Hrun.
  destruct (url_Parse env ep) as [err|u].
  { inversion Hrun; subst; simpl; auto. }
  destruct (http_NewRequest env "GET" _) as [err|req].
  { inversion Hrun; subst; simpl; auto. }
  unfold Do, bind, getHistory, emit, ret in Hrun. cbn -[oauthHttpClient] in Hrun.
  assert (Hsent : forall x,
            Some (x, mkSt c (EvHttpDo (oauthHttpClient c followRedirect) req :: h))
            = Some (r, st) ->
            client st = c
            /\ (hist st = h
                \/ exists req, hist st = EvHttpDo (oauthHttpClient c followRedirect) req :: h)
            /\ Jar (oauthHttpClient c followRedirect) = Jar (httpClient c)
            /\ (CheckRedirect (oauthHttpClient c followRedirect) = None
                <-> followRedirect = true)).
  { intros x Hx. inversion Hx; subst; simpl. repeat split; eauto; apply Hc. }
  destruct (http_Do env h _ req) as [err|res].
  - destruct err as [s|op eURL e|fm e]; try (eapply Hsent; exact Hrun).
    destruct (strings.HasPrefix eURL _); [|eapply Hsent; exact Hrun].
    destruct (url_Parse env eURL); [discriminate Hrun | eapply Hsent; exact Hrun].
  - destruct (negb _); [eapply Hsent; exact Hrun|].
    destruct (Location res); eapply Hsent; exact Hrun.
Qed.

End BaseClientFrame.

Lemma newBaseClient_scheme_witness :
  external.newBaseClient more2.ftp_env more2.stdinMfa more2.stdinCredentials 0
    more.DefaultClient "ftp://idp.example.com/saml"
  = (inl (errorString "invalid client URL"), more.DefaultClient)
  /\ exists c,
       external.newBaseClient more2.ftp_env more2.stdinMfa more2.stdinCredentials 0
         more.DefaultClient sample.authorize_ep
       = (inr (c, external.DefaultClientRef), external.httpClient c)
       /\ external.Jar (external.httpClient c) = Some external.MemoryJar.
Proof.
  split.
  - exact (proj1 (newBaseClient_scheme more2.ftp_env more2.stdinMfa more2.stdinCredentials 0
                    more.DefaultClient "ftp://idp.example.com/saml"
                    (parsed := more2.ftp_url) eq_refl) eq_refl).
  - destruct (proj2 (newBaseClient_scheme more2.ftp_env more2.stdinMfa
                       more2.stdinCredentials 0 more.DefaultClient sample.authorize_ep
                       (parsed := external.mkURL "https" "idp.example.com"
                                    "/oauth2/authorize" "" "") eq_refl) "s" eq_refl)
      as (c & Hc & _ & _ & _ & _ & _ & Hjar).
    exists c. split; assumption.
Defined.

Lemma samlRequest_unreadable_assertion_witness :
  external.samlRequest more.corrupt_env sample.saml_url (external.mkSt clients.valid [])
  = Some (Some (errorString "illegal base64 data at input byte 0"),
          external.mkSt clients.valid []).
Proof.
  refine (samlRequest_unreadable_assertion more.corrupt_env sample.saml_url
            clients.valid [] (a := "dmFsaWQ=") eq_refl _ eq_refl).
  discriminate.
Defined.

Lemma oauthAuthorize_frame_witness :
  external.Jar (external.oauthHttpClient clients.fresh false) = Some external.MemoryJar
  /\ external.CheckRedirect (external.oauthHttpClient clients.fresh false)
     = Some external.UseLastResponse.
Proof.
  destruct (oauthAuthorize_frame clients.found_env sample.elsewhere [] false
              clients.fresh [] (r := (Some [("code", ["abc"]); ("state", ["xyz"])], None))
              (st := external.mkSt clients.fresh
                       [external.EvHttpDo
                          (external.mkClient (Some external.UseLastResponse)
                             (Some external.MemoryJar))
                          (external.mkRequest "GET" "https://idp.example.com/error")])
              eq_refl) as (_ & _ & Hjar & _).
  split; [exact Hjar | reflexivity].
Defined.

(** ** The query of the authorize request *)

Lemma Values_Add_last pre k l v :
  (forall k', In k' (map fst pre) -> String.eqb k' k = false) ->
  external.Values_Add (pre ++ [(k, l)])%list k v = (pre ++ [(k, (l ++ [v])%list)])%list.
Proof.
  induction pre as [|[k' l'] pre IH]; intros Hpre; simpl.
  - now rewrite String.eqb_refl.
  - rewrite (Hpre k') by (now left). rewrite IH; [reflexivity|].
    intros k'' Hin. apply Hpre. now right.
Qed.

Lemma fold_Values_Add_last scopes : forall pre k l,
  (forall k', In k' (map fst pre) -> String.eqb k' k = false) ->
  fold_left (fun qs v => external.Values_Add qs k v) scopes (pre ++ [(k, l)])%list
  = (pre ++ [(k, (l ++ scopes)%list)])%list.
Proof.
  induction scopes as [|v scopes IH]; intros pre k l Hpre; simpl.
  - now rewrite app_nil_r.
  - rewrite Values_Add_last by assumption. rewrite IH by assumption.
    now rewrite <- app_assoc.
Qed.

(** X17: the query [pkceAuthzRequest] builds has seven keys: the client id,
    the challenge, the method [S256], the redirect URI, the response type
    [code], one state, and under [scope] the value [openid] followed by the
    configured scopes in their order. *)
Theorem pkceAuthzRequest_query (L : external.Lib) (c : external.baseClient)
    (now rnd : Z) (challenge : string) :
  let qs := external.pkceAuthzRequest L c now rnd challenge in
  map fst qs = ["client_id"; "code_challenge"; "code_challenge_method"; "redirect_uri";
                "response_type"; "state"; "scope"]
  /\ external.Values_all qs "client_id" = [external.ClientId (external.config c)]
  /\ external.Values_all qs "code_challenge" = [challenge]
  /\ external.Values_all qs "code_challenge_method" = ["S256"]
  /\ external.Values_all qs "redirect_uri" = [external.RedirectUri (external.config c)]
  /\ external.Values_all qs "response_type" = ["code"]
  /\ external.Values_all qs "state"
     = [external.RawStdEncoding_EncodeToString L
          (external.Sprint_d L now ++ "." ++ external.Sprint_d L rnd ++ "." ++ challenge)]
  /\ external.Values_all qs "scope" = "openid" :: external.Scopes (external.config c).
Proof.
  intros qs. subst qs. unfold external.pkceAuthzRequest.
  cbn [external.Values_Set String.eqb Ascii.eqb Bool.eqb].
  match goal with
  | |- context [fold_left ?f ?s ([?a1; ?a2; ?a3; ?a4; ?a5; ?a6; (?k, ?l)])] =>
      change [a1; a2; a3; a4; a5; a6; (k, l)]
        with ([a1; a2; a3; a4; a5; a6] ++ [(k, l)])%list;
      rewrite (fold_Values_Add_last s [a1; a2; a3; a4; a5; a6] k l)
  end.
  - cbn. repeat split; reflexivity.
  - cbn. intros k' H. repeat (destruct H as [<- | H]; [reflexivity|]). destruct H.
Qed.

(** ** Caches, profiles and credentials of the factory's clients *)

Section FactoryClients.
Import client.

Variable env : Env.
Variable f : Factory.

(** X18: with a role credential duration above
    [AssumeRoleDurationDefault], [roleClient] builds no Session-Token
    client: the Assume-Role client keeps the MFA serial number and the
    requested duration, its session has the credentials of the options, and
    it answers for its own identity. *)
Theorem roleClient_above_default (cfg : AwsConfig.t)
    (opts : session_Options.t Credentials) :
  (AssumeRoleDurationDefault env < RoleCredentialDuration env cfg)%Z ->
  let cl := roleClient env f cfg opts in
  AssumeRoleClientConfig.SerialNumber (assumeRoleClient.clientCfg cl) = AwsConfig.MfaSerial cfg
  /\ AssumeRoleClientConfig.Duration_ (assumeRoleClient.clientCfg cl)
     = RoleCredentialDuration env cfg
  /\ Config_Credentials (assumeRoleClient.session cl)
     = aws_Config.Credentials (session_Options.Config opts)
  /\ assumeRoleClient.ident cl = awsIdentityClient (assumeRoleClient.session cl).
Proof.
  intros Hd cl. subst cl. apply Z.leb_gt in Hd.
  unfold roleClient. rewrite Hd.
  destruct (Options.EnableCache (options f));
    destruct (0 <? String.length (AwsConfig.SrcProfile cfg))%nat;
    repeat split; reflexivity.
Qed.

(** X19: the cache of the client [roleClient] builds is named after the
    profile of the options and the role, also when a source profile is
    configured; the session is then made for the source profile. *)
Theorem roleClient_profiles (cfg : AwsConfig.t) (opts : session_Options.t Credentials) :
  let cl := roleClient env f cfg opts in
  AssumeRoleClientConfig.Cache (assumeRoleClient.clientCfg cl)
  = (if Options.EnableCache (options f)
     then Some (NewFileCredentialCache
                  (cacheFileName env ".aws_assume_role" (session_Options.Profile opts)
                     (AwsConfig.RoleArn cfg)))
     else None)
  /\ (AwsConfig.SrcProfile cfg <> "" ->
      sessionProfile (assumeRoleClient.session cl) = AwsConfig.SrcProfile cfg)
  /\ (AwsConfig.SrcProfile cfg = "" ->
      sessionProfile (assumeRoleClient.session cl) = session_Options.Profile opts).
Proof.
  intros cl. subst cl. unfold roleClient, sessionProfile.
  split; [|split].
  - destruct (Options.EnableCache (options f));
      destruct (0 <? String.length (AwsConfig.SrcProfile cfg))%nat;
      destruct (RoleCredentialDuration env cfg <=? AssumeRoleDurationDefault env)%Z;
      reflexivity.
  - intros Hs. rewrite (not_empty_length Hs).
    destruct (Options.EnableCache (options f));
      destruct (RoleCredentialDuration env cfg <=? AssumeRoleDurationDefault env)%Z;
      reflexivity.
  - intros Hs. rewrite Hs.
    destruct (Options.EnableCache (options f));
      destruct (RoleCredentialDuration env cfg <=? AssumeRoleDurationDefault env)%Z;
      reflexivity.
Qed.

(** X20: an error of the resolver does not stop [Get]: the result is the
    one of a factory with the same options whose resolver finds empty
    credentials. *)
Theorem Get_resolver_error (cfg : AwsConfig.t) (e : error) :
  resolver f (credentialsUrl cfg) = inl e ->
  Get env f (Some cfg)
  = Get env (NewClientFactory (fun _ => inr AwsCredentials.zero) (options f)) (Some cfg).
Proof.
  intros Hres. unfold Get. destruct (Validate env cfg); [reflexivity|].
  destruct (profileAsRole_others cfg) as (Hs & Hw & _). rewrite Hs, Hw.
  unfold credentialsUrl in Hres.
  destruct (0 <? String.length (AwsConfig.SamlUrl cfg))%nat.
  - unfold resolveCredentials. cbn [resolver options]. now rewrite Hres.
  - destruct (0 <? String.length (AwsConfig.WebIdentityUrl cfg))%nat; [|reflexivity].
    unfold resolveCredentials. cbn [resolver options]. now rewrite Hres.
Qed.

Lemma profileAsRole_twice cfg : profileAsRole (profileAsRole cfg) = profileAsRole cfg.
Proof.
  unfold profileAsRole at 2 3.
  destruct (arn.IsARN (AwsConfig.ProfileName cfg)) eqn:E.
  - reflexivity.
  - unfold profileAsRole. now rewrite E.
Qed.

(** X21: [Get] writes the role ARN and the profile name into the
    configuration it is given: a profile name that is an ARN becomes the
    role ARN and the profile name is cleared, and any other configuration
    is left as it is.  A second [Get] on the configuration the first one
    left, when it is still valid, changes it no more; for a configuration
    with neither [SamlUrl] nor [WebIdentityUrl], for which no identity
    provider is asked anything, it returns a client built as the first one
    was. *)
Theorem Get_again (cfg : AwsConfig.t) :
  Validate env cfg = None ->
  Validate env (profileAsRole cfg) = None ->
  exists cfg',
    fst (Get env f (Some cfg)) = Some cfg'
    /\ (if arn.IsARN (AwsConfig.ProfileName cfg)
        then AwsConfig.RoleArn cfg' = AwsConfig.ProfileName cfg
             /\ AwsConfig.ProfileName cfg' = ""
             /\ cfg' = AwsConfig.set_RoleArn_ProfileName cfg (AwsConfig.ProfileName cfg) ""
        else cfg' = cfg)
    /\ fst (Get env f (Some cfg')) = Some cfg'
    /\ (AwsConfig.SamlUrl cfg = "" -> AwsConfig.WebIdentityUrl cfg = "" ->
        snd (Get env f (Some cfg')) = snd (Get env f (Some cfg))).
Proof.
  intros Hv Hv'. exists (profileAsRole cfg).
  rewrite (Get_valid env f cfg Hv), (Get_valid env f (profileAsRole cfg) Hv'). cbv zeta.
  cbn [fst snd]. rewrite profileAsRole_twice.
  split; [reflexivity|]. split; [|split; [reflexivity|]].
  - unfold profileAsRole. destruct (arn.IsARN (AwsConfig.ProfileName cfg)); auto.
  - intros Hs Hw. destruct (profileAsRole_others cfg) as (-> & -> & _).
    rewrite Hs, Hw. reflexivity.
Qed.

End FactoryClients.

(** ** The key of a cache file is one path element *)

Lemma Count_app a b sep :
  strings.Count (a ++ b) sep = strings.Count a sep + strings.Count b sep.
Proof.
  induction a as [|c a IH]; simpl; [reflexivity|].
  rewrite IH. destruct (Ascii.eqb c sep); reflexivity.
Qed.

(** No piece of a split holds the separator. *)
Lemma Split_pieces_free s sep : Forall (free_of sep) (strings.Split s sep).
Proof.
  induction s as [|c r IH]; simpl.
  - constructor; [reflexivity | constructor].
  - destruct (Ascii.eqb c sep) eqn:E.
    + constructor; [reflexivity | exact IH].
    + destruct (strings.Split r sep) as [|p ps]; simpl.
      * constructor; [|constructor]. unfold free_of. simpl. now rewrite E.
      * inversion IH; subst. constructor; [|assumption].
        unfold free_of in *. simpl. now rewrite E.
Qed.

Lemma last_Forall (A : Type) (P : A -> Prop) (l : list A) (d : A) :
  Forall P l -> P d -> P (last l d).
Proof.
  induction l as [|x [|y l] IH]; intros Hl Hd; simpl; auto.
  - now inversion Hl.
  - apply IH; [now inversion Hl | assumption].
Qed.

(** X22: a key made from a role ARN holds no slash when the ARN's account
    id holds none, whatever slashes the resource has: the cache file is a
    file of the cache directory and not of a directory below it. *)
Theorem cacheKey_one_element (role : string) (a : arn.ARN) :
  arn.IsARN role = true ->
  arn.Parse role = inr a ->
  free_of "/"%char (arn.AccountID a) ->
  free_of "/"%char (client.cacheKey "" role).
Proof.
  intros Harn Hparse Hacct. unfold client.cacheKey. rewrite Harn, Hparse.
  cbn [String.length Nat.ltb Nat.leb andb].
  unfold free_of in *. rewrite !Count_app, Hacct. simpl.
  apply (last_Forall (P := free_of "/"%char)).
  - apply Split_pieces_free.
  - reflexivity.
Qed.

Lemma cacheKey_one_element_witness :
  free_of "/"%char (client.cacheKey "" "arn:aws:iam::111111111111:role/ops/team/Jump").
Proof.
  exact (cacheKey_one_element "arn:aws:iam::111111111111:role/ops/team/Jump"
           (a := arn.mkARN "aws" "iam" "" "111111111111" "role/ops/team/Jump")
           eq_refl eq_refl eq_refl).
Defined.

(** ** What [Get] returns, for every configuration *)

Section FactoryResults.
Import client.

Variable env : Env.
Variable f : Factory.

Ltac run_Get H :=
  unfold Get in H;
  repeat match type of H with
         | context [match ?c with Some _ => _ | None => _ end] =>
             is_var c; destruct c
         end;
  try match type of H with
      | context [Validate env ?c] => destruct (Validate env c) eqn:?
      end;
  cbn [snd fst] in H;
  unfold samlClient, webClient, roleClient, sessionClient in H;
  repeat match type of H with
         | context [if ?b then _ else _] => destruct b eqn:?
         | context [SamlAssertion env ?c] =>
             destruct (SamlAssertion env c) as [? [?|]] eqn:?
         | context [FetchToken env ?c] =>
             destruct (FetchToken env c) as [? [?|]] eqn:?
         end.

(** X23: whenever [Get] returns, it returns a client or an error, never
    both and never neither.  The calls of [session.Must] and
    [MustGetSamlClient], which panic instead of returning, are no part of
    what is described here: this is a statement of the runs that return. *)
Theorem Get_client_or_error (cfg cfg' : option AwsConfig.t)
    (cl : option AwsClient) (err : option error) :
  Get env f cfg = (cfg', (cl, err)) ->
  ((exists c, cl = Some c) /\ err = None)
  \/ (cl = None /\ exists e, err = Some e).
Proof.
  intros Hget.
  assert (H : snd (Get env f cfg) = (cl, err)) by now rewrite Hget.
  clear Hget. run_Get H; inversion H; subst; eauto.
Qed.

(** X24: with the cache disabled no client [Get] returns has a cache, its
    own or behind the credentials of its session; with the cache enabled
    it has at least one, and each is a file of the cache directory. *)
Theorem Get_caches (cfg : option AwsConfig.t) (cl : AwsClient) :
  snd (Get env f cfg) = (Some cl, None) ->
  (Options.EnableCache (options f) = false -> clientCaches cl = [])
  /\ (Options.EnableCache (options f) = true ->
      clientCaches cl <> [] /\ Forall (inCacheDir env) (clientCaches cl)).
Proof.
  intros H.
  run_Get H; inversion H; subst; clear H; cbn; split; intros He;
    try congruence; split; try discriminate;
    repeat constructor; unfold inCacheDir, cacheFileName; eexists; reflexivity.
Qed.


(** X26: a role named by its ARN in place of a profile, with a duration
    within the default and the cache enabled: the Assume-Role client caches
    under the [.aws_assume_role] name of the ARN's key, and the
    Session-Token client behind it, when no source profile is configured,
    under [.aws_session_token_] with an empty key, the same file for every
    such role. *)
Theorem Get_role_by_ARN_caches (cfg : AwsConfig.t) :
  Validate env cfg = None ->
  arn.IsARN (AwsConfig.ProfileName cfg) = true ->
  AwsConfig.SamlUrl cfg = "" ->
  AwsConfig.WebIdentityUrl cfg = "" ->
  AwsConfig.SrcProfile cfg = "" ->
  Options.EnableCache (options f) = true ->
  (RoleCredentialDuration env (profileAsRole cfg) <= AssumeRoleDurationDefault env)%Z ->
  exists cl,
    snd (Get env f (Some cfg)) = (Some (AssumeRole cl), None)
    /\ AssumeRoleClientConfig.RoleArn (assumeRoleClient.clientCfg cl)
       = AwsConfig.ProfileName cfg
    /\ clientCaches (AssumeRole cl)
       = [NewFileCredentialCache
            (filepath_Join env (cachePath env)
               (".aws_assume_role_" ++ cacheKey "" (AwsConfig.ProfileName cfg)));
          NewFileCredentialCache
            (filepath_Join env (cachePath env) ".aws_session_token_")].
Proof.
  intros Hv Harn Hs Hw Hsrc Hc Hd.
  rewrite (Get_valid env f cfg Hv). cbn [snd]. rewrite Hs, Hw.
  change (0 <? String.length "")%nat with false. cbn iota.
  assert (Hrole : AwsConfig.RoleArn (profileAsRole cfg) = AwsConfig.ProfileName cfg
                  /\ AwsConfig.ProfileName (profileAsRole cfg) = ""
                  /\ AwsConfig.SrcProfile (profileAsRole cfg) = "").
  { unfold profileAsRole. rewrite Harn. cbn. auto. }
  destruct Hrole as (Hr & Hp & Hsp).
  rewrite Hr, (not_empty_length (IsARN_not_empty Harn)).
  eexists. split; [reflexivity|].
  apply Z.leb_le in Hd.
  unfold roleClient, sessionClient, sessionOptions. rewrite Hd, Hc, Hr, Hp, Hsp.
  cbn. split; reflexivity.
Qed.

End FactoryResults.

Lemma roleClient_above_default_witness :
  client.AssumeRoleClientConfig.SerialNumber
    (client.assumeRoleClient.clientCfg
       (client.roleClient envs.up factory.f factory.iam_role
          (sessionOptions factory.f factory.iam_role)))
  = "arn:aws:iam::111111111111:mfa/alice"
  /\ client.Config_Credentials
       (client.assumeRoleClient.session
          (client.roleClient envs.up factory.f factory.iam_role
             (sessionOptions factory.f factory.iam_role)))
     = None.
Proof.
  destruct (roleClient_above_default envs.up factory.f factory.iam_role
              (sessionOptions factory.f factory.iam_role) eq_refl)
    as (Hserial & _ & Hcreds & _).
  split; [exact Hserial | exact Hcreds].
Defined.

Lemma roleClient_profiles_witness :
  sessionProfile
    (client.assumeRoleClient.session
       (client.roleClient envs.up factory.f more3.with_source
          (sessionOptions factory.f more3.with_source)))
  = "base"
  /\ client.AssumeRoleClientConfig.Cache
       (client.assumeRoleClient.clientCfg
          (client.roleClient envs.up factory.f more3.with_source
             (sessionOptions factory.f more3.with_source)))
     = Some (client.NewFileCredentialCache "/home/alice/.aws/.aws_assume_role_dev")
  /\ sessionProfile
       (client.assumeRoleClient.session
          (client.roleClient envs.up factory.f factory.iam_role
             (sessionOptions factory.f factory.iam_role)))
     = "dev".
Proof.
  destruct (roleClient_profiles envs.up factory.f more3.with_source
              (sessionOptions factory.f more3.with_source)) as (Hcache & Hsrc & _).
  destruct (roleClient_profiles envs.up factory.f factory.iam_role
              (sessionOptions factory.f factory.iam_role)) as (_ & _ & Hown).
  split; [|split].
  - apply Hsrc. discriminate.
  - exact Hcache.
  - apply Hown. reflexivity.
Defined.

Lemma Get_resolver_error_witness :
  client.Get envs.up more3.failing (Some factory.saml_plain)
  = client.Get envs.up
      (client.NewClientFactory (fun _ => inr client.AwsCredentials.zero)
         (client.options more3.failing))
      (Some factory.saml_plain).
Proof.
  exact (Get_resolver_error envs.up more3.failing factory.saml_plain
           (e := errorString "no credentials file") eq_refl).
Defined.

Lemma Get_again_witness :
  fst (client.Get envs.up factory.f (Some more3.by_arn))
  = Some (factory.cfg "" factory.target "" "" "")
  /\ client.Get envs.up factory.f (Some (factory.cfg "" factory.target "" "" ""))
     = (Some (factory.cfg "" factory.target "" "" ""),
        snd (client.Get envs.up factory.f (Some more3.by_arn))).
Proof.
  destruct (Get_again envs.up factory.f more3.by_arn eq_refl eq_refl)
    as (cfg' & H1 & H2 & H3 & H4).
  cbn in H2. destruct H2 as (_ & _ & ->).
  split; [reflexivity|].
  refine (eq_trans (surjective_pairing _) _).
  exact (f_equal2 pair H3 (H4 eq_refl eq_refl)).
Defined.

Lemma Get_caches_witness :
  clientCaches
    (client.AssumeRole
       (client.roleClient envs.short more3.no_cache factory.iam_role
          (sessionOptions more3.no_cache factory.iam_role)))
  = []
  /\ Forall (inCacheDir envs.short)
       (clientCaches
          (client.AssumeRole
             (client.roleClient envs.short factory.f factory.iam_role
                (sessionOptions factory.f factory.iam_role)))).
Proof.
  split.
  - exact (proj1 (Get_caches envs.short more3.no_cache (Some factory.iam_role)
                    (cl := client.AssumeRole
                             (client.roleClient envs.short more3.no_cache factory.iam_role
                                (sessionOptions more3.no_cache factory.iam_role)))
                    eq_refl) eq_refl).
  - exact (proj2 (proj2 (Get_caches envs.short factory.f (Some factory.iam_role)
                    (cl := client.AssumeRole
                             (client.roleClient envs.short factory.f factory.iam_role
                                (sessionOptions factory.f factory.iam_role)))
                    eq_refl) eq_refl)).
Defined.

Lemma Get_client_or_error_witness :
  (((exists c, fst (snd (client.Get envs.up factory.f (Some factory.saml_chained))) = Some c)
    /\ snd (snd (client.Get envs.up factory.f (Some factory.saml_chained))) = None)
   \/ (fst (snd (client.Get envs.up factory.f (Some factory.saml_chained))) = None
       /\ exists e,
            snd (snd (client.Get envs.up factory.f (Some factory.saml_chained))) = Some e))
  /\ snd (client.Get envs.down factory.f (Some factory.saml_chained))
     = (None, Some factory.idp_down)
  /\ snd (client.Get envs.up factory.f None)
     = (None, Some (errorString "invalid configuration")).
Proof.
  split; [|split; reflexivity].
  refine (@Get_client_or_error envs.up factory.f (Some factory.saml_chained) _ _ _ _).
  rewrite <- surjective_pairing. apply surjective_pairing.
Defined.


Lemma Get_role_by_ARN_caches_witness :
  exists cl,
    snd (client.Get envs.short factory.f (Some more3.by_arn))
    = (Some (client.AssumeRole cl), None)
    /\ clientCaches (client.AssumeRole cl)
       = [client.NewFileCredentialCache "/home/alice/.aws/.aws_assume_role_222222222222-Target";
          client.NewFileCredentialCache "/home/alice/.aws/.aws_session_token_"].
Proof.
  destruct (Get_role_by_ARN_caches envs.short factory.f more3.by_arn
              eq_refl eq_refl eq_refl eq_refl eq_refl eq_refl)
    as (cl & Hget & _ & Hcaches).
  - intros H; discriminate H.
  - exists cl. split; [exact Hget | exact Hcaches].
Defined.

(** ** The identity-provider clients of the factory *)

Section FactoryIdentity.
Import client.

Variable env : Env.
Variable f : Factory.

(** X27: for a valid configuration with [WebIdentityUrl] set, no [SamlUrl]
    and no jump role, [Get] returns a Web-role client without fetching a
    token: its provider targets the configured role for the requested
    duration and holds no token, and its web client has the configured
    client id and redirect URI and no scopes. *)
Theorem Get_web_plain (cfg : AwsConfig.t) :
  Validate env cfg = None ->
  AwsConfig.SamlUrl cfg = "" ->
  AwsConfig.WebIdentityUrl cfg <> "" ->
  AwsConfig.JumpRoleArn cfg = "" ->
  let cfg' := profileAsRole cfg in
  exists cl,
    snd (Get env f (Some cfg)) = (Some (WebRole cl), None)
    /\ WebRoleProvider.RoleArn (webRoleClient.roleProvider cl) = AwsConfig.RoleArn cfg'
    /\ WebRoleProvider.Duration_ (webRoleClient.roleProvider cl)
       = RoleCredentialDuration env cfg'
    /\ WebRoleProvider.webIdentityToken (webRoleClient.roleProvider cl) = None
    /\ WebRoleProvider.Cache (webRoleClient.roleProvider cl)
       = (if Options.EnableCache (options f)
          then Some (NewFileCredentialCache
                       (cacheFileName env ".aws_web_role" (AwsConfig.ProfileName cfg')
                          (AwsConfig.RoleArn cfg')))
          else None)
    /\ WebClient.url (webRoleClient.webClient cl) = AwsConfig.WebIdentityUrl cfg
    /\ external.ClientId (WebClient.cfg (webRoleClient.webClient cl))
       = AwsConfig.WebIdentityClientId cfg'
    /\ external.RedirectUri (WebClient.cfg (webRoleClient.webClient cl))
       = AwsConfig.WebIdentityRedirectUri cfg'
    /\ external.Scopes (WebClient.cfg (webRoleClient.webClient cl)) = [].
Proof.
  intros Hv Hs Hw Hj cfg'.
  rewrite (Get_valid env f cfg Hv). cbn [snd]. rewrite Hs.
  change (0 <? String.length "")%nat with false. cbn iota.
  rewrite (not_empty_length Hw).
  destruct (profileAsRole_others cfg) as (_ & Hweb & Hjump). fold cfg' in Hweb, Hjump.
  fold cfg'. unfold webClient. rewrite Hjump, Hj, Hweb.
  cbn [String.length Nat.ltb Nat.leb].
  destruct (Options.EnableCache (options f)); eexists; (split; [reflexivity|]);
    cbn; repeat split; reflexivity.
Qed.

(** X28: every identity-provider client behind a client that [Get]
    returns, SAML or web, alone or as the first stage of a role chain, has
    the same cookie jar: the file [.aws_runas.cookies] of the cache
    directory. *)
Theorem Get_cookie_jar (cfg : option AwsConfig.t) (cl : AwsClient) :
  snd (Get env f cfg) = (Some cl, None) ->
  Forall (eq (Some (external.FileJar
                      (filepath_Join env (cachePath env) ".aws_runas.cookies"))))
    (identityJars cl).
Proof.
  intros H. unfold Get in H.
  destruct cfg as [cfg|]; [|discriminate H].
  destruct (Validate env cfg); [discriminate H|]. cbn [snd] in H.
  unfold samlClient, webClient, roleClient, sessionClient in H.
  repeat match type of H with
         | context [if ?b then _ else _] => destruct b eqn:?
         | context [SamlAssertion env ?c] =>
             destruct (SamlAssertion env c) as [? [?|]] eqn:?
         | context [FetchToken env ?c] =>
             destruct (FetchToken env c) as [? [?|]] eqn:?
         end;
    inversion H; subst; clear H; cbn; repeat constructor.
Qed.

(** X29: the MFA device is asked for by one stage only.  Within the
    default duration the Assume-Role client of [roleClient] has no serial
    number and the Session-Token client behind its session has the
    configured serial number, token code and the session token duration;
    above it the Assume-Role client has the serial number and no
    Session-Token client is behind its session. *)
Theorem roleClient_mfa_once (cfg : AwsConfig.t) (opts : session_Options.t Credentials) :
  aws_Config.Credentials (session_Options.Config opts) = None ->
  let cl := roleClient env f cfg opts in
  ((RoleCredentialDuration env cfg <= AssumeRoleDurationDefault env)%Z ->
   AssumeRoleClientConfig.SerialNumber (assumeRoleClient.clientCfg cl) = ""
   /\ exists ses stCfg,
        Config_Credentials (assumeRoleClient.session cl)
        = Some (sessionTokenCredentials ses stCfg)
        /\ SessionTokenClientConfig.SerialNumber stCfg = AwsConfig.MfaSerial cfg
        /\ SessionTokenClientConfig.TokenCode stCfg = AwsConfig.MfaCode cfg
        /\ SessionTokenClientConfig.Duration_ stCfg = AwsConfig.SessionTokenDuration cfg)
  /\ ((AssumeRoleDurationDefault env < RoleCredentialDuration env cfg)%Z ->
      AssumeRoleClientConfig.SerialNumber (assumeRoleClient.clientCfg cl)
      = AwsConfig.MfaSerial cfg
      /\ Config_Credentials (assumeRoleClient.session cl) = None).
Proof.
  intros Hopts cl. subst cl. unfold roleClient, sessionClient. split.
  - intros Hd. apply Z.leb_le in Hd. rewrite Hd.
    destruct (Options.EnableCache (options f));
      destruct (0 <? String.length (AwsConfig.SrcProfile cfg))%nat;
      cbn; (split; [reflexivity|]); do 2 eexists; repeat split; reflexivity.
  - intros Hd. apply Z.leb_gt in Hd. rewrite Hd.
    destruct (Options.EnableCache (options f));
      destruct (0 <? String.length (AwsConfig.SrcProfile cfg))%nat;
      cbn; (split; [reflexivity|]); exact Hopts.
Qed.

End FactoryIdentity.

Lemma Get_web_plain_witness :
  exists cl,
    snd (client.Get envs.up factory.f (Some more4.web_plain))
    = (Some (client.WebRole cl), None)
    /\ client.WebRoleProvider.RoleArn (client.webRoleClient.roleProvider cl) = factory.target
    /\ client.WebRoleProvider.webIdentityToken (client.webRoleClient.roleProvider cl) = None
    /\ external.Scopes (client.WebClient.cfg (client.webRoleClient.webClient cl)) = [].
Proof.
  destruct (Get_web_plain envs.up factory.f more4.web_plain eq_refl eq_refl)
    as (cl & Hget & Hrole & _ & Htok & _ & _ & _ & _ & Hscopes);
    try discriminate; try reflexivity.
  exists cl. repeat split; assumption.
Defined.

Lemma Get_cookie_jar_witness :
  exists cl,
    snd (client.Get envs.up factory.f (Some factory.saml_chained)) = (Some cl, None)
    /\ identityJars cl
       = [Some (external.FileJar "/home/alice/.aws/.aws_runas.cookies")]
    /\ Forall (eq (Some (external.FileJar "/home/alice/.aws/.aws_runas.cookies")))
         (identityJars cl).
Proof.
  eexists. split; [reflexivity|]. split; [reflexivity|].
  exact (Get_cookie_jar envs.up factory.f (Some factory.saml_chained) eq_refl).
Defined.

Lemma roleClient_mfa_once_witness :
  client.AssumeRoleClientConfig.SerialNumber
    (client.assumeRoleClient.clientCfg
       (client.roleClient envs.short factory.f factory.iam_role
          (sessionOptions factory.f factory.iam_role)))
  = ""
  /\ client.AssumeRoleClientConfig.SerialNumber
       (client.assumeRoleClient.clientCfg
          (client.roleClient envs.up factory.f factory.iam_role
             (sessionOptions factory.f factory.iam_role)))
     = "arn:aws:iam::111111111111:mfa/alice".
Proof.
  split.
  - apply (proj1 (roleClient_mfa_once envs.short factory.f factory.iam_role
                    (sessionOptions factory.f factory.iam_role) eq_refl)).
    intros H; discriminate H.
  - apply (proj2 (roleClient_mfa_once envs.up factory.f factory.iam_role
                    (sessionOptions factory.f factory.iam_role) eq_refl)).
    reflexivity.
Defined.
